(** * OpenCVE: manual sync trigger (command and admin view) and the webhook
      test server.

    A shallow embedding of
      - web/cves/management/commands/trigger_sync.py  (Module TriggerSync)
      - web/opencve/views.py                          (Module Views)
      - webhook_test_server.py                        (Module WebhookServer)

    Conventions of the embedding.

    - Python values coming out of [json.loads] / [response.json()] are the
      inductive [pyval].  A dict is an association list in insertion order;
      a str is a [string], one character per element.
    - Text built by f-strings is kept as the list of its parts ([text]):
      [Lit s] is literal text or a Python [str], [Fmt v] is a Python value
      formatted by the f-string, [Secs ms] is [round(seconds, 1)] of a
      duration, [Styled st t] is [t] wrapped by a colouring helper.
    - The wall clock ([time.time()]) is an integer number of milliseconds.
      An HTTP exchange advances it by the latency the environment gives to
      that exchange; [time.sleep(2)] advances it by 2000.
    - The network is an environment: a function from the index of an HTTP
      request and the request itself to the latency and the answer.  An
      exchange that runs into the timeout of the request is an answer of
      its own ([Fails ConnectTimedOut], [Fails TimedOut]).
    - Effects (clock, requests sent, lines written) are threaded through
      a state-and-exception monad [M]. *)

From Stdlib Require Import ZArith List String Bool Lia.
Import ListNotations.
Local Open Scope string_scope.
Local Open Scope Z_scope.
Set Warnings "-register-all".

(** ** Python values *)

Inductive pyval : Type :=
| PNone
| PBool (b : bool)
| PInt (z : Z)
| PFloat (bits : Z)            (* IEEE-754 binary64, as its 64-bit pattern *)
| PStr (s : string)
| PList (l : list pyval)
| PDict (d : list (string * pyval)).

(** [d.get(key)] on the entries of a dict: [None] when the key is absent. *)
Fixpoint dict_get (key : string) (d : list (string * pyval)) : option pyval :=
  match d with
  | [] => None
  | (k, v) :: d' => if String.eqb k key then Some v else dict_get key d'
  end.

(** Python truthiness, as tested by [if x:] and [not x]. *)
Definition float_is_zero (bits : Z) : bool :=
  Z.land bits (Z.ones 63) =? 0.

Definition truthy (v : pyval) : bool :=
  match v with
  | PNone => false
  | PBool b => b
  | PInt z => negb (z =? 0)
  | PFloat bits => negb (float_is_zero bits)
  | PStr s => negb (String.eqb s "")
  | PList l => match l with [] => false | _ => true end
  | PDict d => match d with [] => false | _ => true end
  end.

(** [v is None] *)
Definition is_none (v : pyval) : bool :=
  match v with PNone => true | _ => false end.

(** [v == "literal"] *)
Definition eq_str (v : pyval) (s : string) : bool :=
  match v with PStr s' => String.eqb s' s | _ => false end.

(** ** Text *)

Inductive style : Type := Blue | Bold | StyleSuccess | StyleError.

Inductive frag : Type :=
| Lit (s : string)
| Fmt (v : pyval)
| FmtSpec (spec : string) (v : pyval)          (* f"{v:spec}" *)
| JsonDumps (v : pyval) (indent : Z) (upto : nat)
                               (* json.dumps(v, indent=indent)[:upto] *)
| Secs (ms : Z)                (* round(seconds, 1) of a duration *)
| Styled (st : style) (t : list frag).

Definition text : Type := list frag.

(** The literal a text starts with, when it starts with one. *)
Definition leading_literal (t : text) : option string :=
  match t with
  | Lit s :: _ => Some s
  | _ => None
  end.

(** ** HTTP, as the [requests] library presents it *)

Inductive http_method : Type := GET | POST.

Record Payload : Type := mkPayload {
  logical_date : Z;            (* the instant, rendered by isoformat() *)
  note : text
}.

Record HttpReq : Type := mkReq {
  meth : http_method;
  url : text;
  json_payload : option Payload;
  auth : string * string;
  headers : list (string * string);
  timeout_s : Z
}.

Record Response : Type := mkResponse {
  status_code : Z;
  reason : string;
  resp_text : string;           (* response.text *)
  resp_json : option pyval;     (* what response.json() decodes, if it does *)
  resp_url : text
}.

(** Exception classes that occur.  [ReqJSONDecodeError] is
    [requests.exceptions.JSONDecodeError] (a [RequestException] since
    requests 2.27); [StdJSONDecodeError] is [json.JSONDecodeError]
    (a [ValueError]), which older releases of requests let through.
    [SSLError], [ProxyError] and [ConnectTimeout] are subclasses of
    [requests.exceptions.ConnectionError]; [ConnectTimeout] and
    [ReadTimeout] are subclasses of [requests.exceptions.Timeout]. *)
Inductive exc_class : Type :=
| ConnectionError
| SSLError
| ProxyError
| ConnectTimeout
| ReadTimeout
| Timeout
| HTTPError
| OtherRequestException
| ReqJSONDecodeError
| StdJSONDecodeError
| UnicodeDecodeError
| UnicodeEncodeError
| RecursionError
| AttributeError
| TypeError
| ValueError
| OverflowError
| MemoryError
| KeyError
| OSError.

Record exn : Type := mkExn {
  e_class : exc_class;
  e_str : text;                 (* str(e) *)
  e_response : option Response  (* e.response *)
}.

(** [isinstance(e, requests.exceptions.RequestException)] *)
Definition is_RequestException (c : exc_class) : bool :=
  match c with
  | ConnectionError | SSLError | ProxyError | ConnectTimeout | ReadTimeout
  | Timeout | HTTPError | OtherRequestException | ReqJSONDecodeError => true
  | _ => false
  end.

(** [isinstance(e, requests.exceptions.ConnectionError)] *)
Definition is_ConnectionError (c : exc_class) : bool :=
  match c with
  | ConnectionError | SSLError | ProxyError | ConnectTimeout => true
  | _ => false
  end.

Definition is_JSONDecodeError (c : exc_class) : bool :=
  match c with
  | ReqJSONDecodeError | StdJSONDecodeError => true
  | _ => false
  end.

(** What the network does with one request that gets no answer: the
    connection is refused, the host name does not resolve, the TLS
    handshake or the proxy fails, the connection is not made within the
    timeout, the answer is not read within the timeout, or the request
    fails in another way (too many redirects, an invalid URL, ...). *)
Inductive net_failure : Type :=
| Refused
| Unresolved
| TLSFailed
| ProxyFailed
| ConnectTimedOut
| TimedOut
| OtherFailure.

(** The exception of [requests] for each failure. *)
Definition failure_class (f : net_failure) : exc_class :=
  match f with
  | Refused => ConnectionError
  | Unresolved => ConnectionError
  | TLSFailed => SSLError
  | ProxyFailed => ProxyError
  | ConnectTimedOut => ConnectTimeout
  | TimedOut => ReadTimeout
  | OtherFailure => OtherRequestException
  end.

Record Reply : Type := mkReply {
  r_status : Z;
  r_reason : string;
  r_text : string;
  r_json : option pyval
}.

Inductive Answer : Type :=
| Fails (f : net_failure) (msg : string)
| Answers (r : Reply).

Record Exchange : Type := mkExchange {
  latency : N;                  (* milliseconds *)
  answer : Answer
}.

Record Env : Type := mkEnv {
  exchange : nat -> HttpReq -> Exchange;
  json_error_is_request_exception : bool;
  environ : string -> option string        (* os.environ *)
}.

(** ** The world and the monad *)

Inductive level : Type := Info | Err | Exc.

Record Line : Type := mkLine {
  lvl : level;
  body : text;
  ending : option string
}.

Record World : Type := mkWorld {
  clock : Z;                        (* time.time(), in milliseconds *)
  sent : list (Z * HttpReq);        (* requests issued, oldest first,
                                       each with the clock at its start *)
  output : list Line;               (* lines written, oldest first *)
  slept : Z                         (* total of time.sleep, milliseconds *)
}.

Inductive Result (A : Type) : Type :=
| Ret (a : A)
| Raise (e : exn)
| Unfinished.
Arguments Ret {A} a.
Arguments Raise {A} e.
Arguments Unfinished {A}.

(** A computation over a state [S]: it returns, raises, or (only for the
    fuel-bounded loop) stays unfinished; the state reached is kept in each
    case. *)
Definition ST (S A : Type) : Type := S -> Result A * S.

Definition M (A : Type) : Type := ST World A.

Definition ret {S A} (a : A) : ST S A := fun w => (Ret a, w).

Definition raise {S A} (e : exn) : ST S A := fun w => (Raise e, w).

Definition unfinished {S A} : ST S A := fun w => (Unfinished, w).

Definition bind {S A B} (m : ST S A) (k : A -> ST S B) : ST S B :=
  fun w =>
    match m w with
    | (Ret a, w') => k a w'
    | (Raise e, w') => (Raise e, w')
    | (Unfinished, w') => (Unfinished, w')
    end.

Declare Scope py_scope.
Delimit Scope py_scope with py.
Notation "x <- m ;; k" := (bind m (fun x => k))
  (at level 61, m at next level, right associativity) : py_scope.
Notation "m ;; k" := (bind m (fun _ => k))
  (at level 61, right associativity) : py_scope.
Local Open Scope py_scope.

(** [try: m except <classes accepted by handles> as e: handler e].  An
    exception raised by the handler itself is not caught. *)
Definition try_except {S A} (m : ST S A) (handles : exc_class -> bool)
    (handler : exn -> ST S A) : ST S A :=
  fun w =>
    match m w with
    | (Raise e, w') =>
        if handles (e_class e) then handler e w' else (Raise e, w')
    | other => other
    end.

(** [time.time()] *)
Definition now : M Z := fun w => (Ret (clock w), w).

(** The world after [time.sleep(seconds)]. *)
Definition asleep (seconds : Z) (w : World) : World :=
  mkWorld (clock w + seconds * 1000) (sent w) (output w)
          (slept w + seconds * 1000).

(** The world after one more line. *)
Definition put_line (l : Line) (w : World) : World :=
  mkWorld (clock w) (sent w) (output w ++ [l])%list (slept w).

(** The world after an HTTP exchange of the given latency. *)
Definition exchanged (lat : N) (req : HttpReq) (w : World) : World :=
  mkWorld (clock w + Z.of_N lat) (sent w ++ [(clock w, req)])%list
          (output w) (slept w).

(** [time.sleep(seconds)] *)
Definition sleep (seconds : Z) : M unit :=
  fun w => (Ret tt, asleep seconds w).

Definition write (l : Line) : M unit :=
  fun w => (Ret tt, put_line l w).

(** [requests.get] / [requests.post]: the request is recorded with the
    clock at its start, the clock advances by the latency of the exchange,
    and the call either raises or returns the response. *)
Definition request (env : Env) (req : HttpReq) : M Response :=
  fun w =>
    let ex := exchange env (List.length (sent w)) req in
    let w' := exchanged (latency ex) req w in
    match answer ex with
    | Fails f msg => (Raise (mkExn (failure_class f) [Lit msg] None), w')
    | Answers r =>
        (Ret (mkResponse (r_status r) (r_reason r) (r_text r) (r_json r)
                         (url req)), w')
    end.

(** [response.raise_for_status()] of requests: an [HTTPError] for 4xx and
    5xx, with the status code, the reason and the url in its message. *)
Definition raise_for_status {S} (r : Response) : ST S unit :=
  if (400 <=? status_code r) && (status_code r <? 500) then
    raise (mkExn HTTPError
             ([Fmt (PInt (status_code r)); Lit " Client Error: ";
               Lit (reason r); Lit " for url: "] ++ resp_url r)%list
             (Some r))
  else if (500 <=? status_code r) && (status_code r <? 600) then
    raise (mkExn HTTPError
             ([Fmt (PInt (status_code r)); Lit " Server Error: ";
               Lit (reason r); Lit " for url: "] ++ resp_url r)%list
             (Some r))
  else ret tt.

(** [response.json()] *)
Definition json {S} (env : Env) (r : Response) : ST S pyval :=
  match resp_json r with
  | Some v => ret v
  | None =>
      raise (mkExn (if json_error_is_request_exception env
                    then ReqJSONDecodeError else StdJSONDecodeError)
               [Lit "Expecting value"] None)
  end.

(** [type(v).__name__] *)
Definition type_name (v : pyval) : string :=
  match v with
  | PNone => "NoneType"
  | PBool _ => "bool"
  | PInt _ => "int"
  | PFloat _ => "float"
  | PStr _ => "str"
  | PList _ => "list"
  | PDict _ => "dict"
  end.

Definition no_attribute (v : pyval) (attr : string) : exn :=
  mkExn AttributeError
        [Lit "'"; Lit (type_name v); Lit "' object has no attribute '";
         Lit attr; Lit "'"] None.

(** [v.get(key, default)]: only a dict has the method. *)
Definition py_get_default {S} (v : pyval) (key : string) (default : pyval)
    : ST S pyval :=
  match v with
  | PDict d =>
      ret (match dict_get key d with Some x => x | None => default end)
  | _ => raise (no_attribute v "get")
  end.

(** [v.get(key)] *)
Definition py_get {S} (v : pyval) (key : string) : ST S pyval :=
  py_get_default v key PNone.

(** [os.environ.get(name, default)] *)
Definition environ_get (env : Env) (name default : string) : string :=
  match environ env name with
  | Some v => v
  | None => default
  end.

(** ** Python built-ins used by the webhook test server *)

Fixpoint mapM {S A B} (f : A -> ST S B) (l : list A) : ST S (list B) :=
  match l with
  | [] => ret []
  | a :: l' =>
      b <- f a ;;
      bs <- mapM f l' ;;
      ret (b :: bs)
  end.

Definition type_error {S A} (msg : text) : ST S A :=
  raise (mkExn TypeError msg None).

(** The characters of a str, each a str of length one. *)
Definition chars (s : string) : list pyval :=
  map (fun c => PStr (String c EmptyString)) (list_ascii_of_string s).

(** [for x in v]: lists give their items, strs their characters, dicts
    their keys; nothing else parsed from JSON is iterable. *)
Definition py_iter {S} (v : pyval) : ST S (list pyval) :=
  match v with
  | PList l => ret l
  | PStr s => ret (chars s)
  | PDict d => ret (map (fun kv => PStr (fst kv)) d)
  | _ => type_error [Lit "'"; Lit (type_name v);
                     Lit "' object is not iterable"]
  end.

(** [len(v)] *)
Definition py_len {S} (v : pyval) : ST S Z :=
  match v with
  | PList l => ret (Z.of_nat (List.length l))
  | PStr s => ret (Z.of_nat (String.length s))
  | PDict d => ret (Z.of_nat (List.length d))
  | _ => type_error [Lit "object of type '"; Lit (type_name v);
                     Lit "' has no len()"]
  end.

(** The strs of a sequence, when every item is a str. *)
Fixpoint all_strs (items : list pyval) : option (list string) :=
  match items with
  | [] => Some []
  | PStr s :: rest =>
      match all_strs rest with
      | Some l => Some (s :: l)
      | None => None
      end
  | _ :: _ => None
  end.

(** [sep.join(v)] *)
Definition py_join {S} (sep : string) (v : pyval) : ST S string :=
  match v with
  | PList _ | PStr _ | PDict _ =>
      items <- py_iter v ;;
      match all_strs items with
      | Some l => ret (String.concat sep l)
      | None => type_error [Lit "sequence item: expected str instance"]
      end
  | _ => type_error [Lit "can only join an iterable"]
  end.

(** [v >= c] for a float constant [c] that is a positive integer, given
    as the integer and as its binary64 pattern.  A NaN compares false. *)
Definition float_ge (bits c_bits : Z) : bool :=
  (bits <? 2 ^ 63) && (c_bits <=? bits) && (bits <=? 0x7FF0000000000000).

Definition py_ge {S} (v : pyval) (c : Z) (c_bits : Z) : ST S bool :=
  match v with
  | PInt z => ret (c <=? z)
  | PBool b => ret (c <=? (if b then 1 else 0))
  | PFloat bits => ret (float_ge bits c_bits)
  | _ => type_error [Lit "'>=' not supported between instances of '";
                     Lit (type_name v); Lit "' and 'float'"]
  end.

Definition utf8 (bytes : list nat) : string :=
  string_of_list_ascii (map Ascii.ascii_of_nat bytes).

Definition newline : string := utf8 [10%nat].
Definition dquote : string := utf8 [34%nat].

(** [v[:n] + suffix] *)
Definition py_slice_plus_str {S} (v : pyval) (n : nat) (suffix : string)
    : ST S pyval :=
  match v with
  | PStr s => ret (PStr (String.substring 0 n s ++ suffix))
  | PList _ =>
      type_error [Lit "can only concatenate list (not "; Lit dquote;
                  Lit "str"; Lit dquote; Lit ") to list"]
  | PDict _ => type_error [Lit "unhashable type: 'slice'"]
  | _ => type_error [Lit "'"; Lit (type_name v);
                     Lit "' object is not subscriptable"]
  end.

(** [f"{v:.1f}"]: a number is formatted as a float.  An integer is
    converted to a float first, which raises [OverflowError] when it
    rounds beyond the largest float, that is from [2^1024 - 2^970] on in
    magnitude.  Nothing else parsed from JSON takes the format. *)
Definition format_1f {S} (v : pyval) : ST S frag :=
  match v with
  | PInt z =>
      if Z.abs z <? 2 ^ 1024 - 2 ^ 970 then ret (FmtSpec ".1f" v)
      else raise (mkExn OverflowError
                    [Lit "int too large to convert to float"] None)
  | PBool _ | PFloat _ => ret (FmtSpec ".1f" v)
  | PStr _ =>
      raise (mkExn ValueError
               [Lit "Unknown format code 'f' for object of type 'str'"] None)
  | _ => type_error [Lit "unsupported format string passed to ";
                     Lit (type_name v); Lit ".__format__"]
  end.

Fixpoint str_repeat (s : string) (n : nat) : string :=
  match n with
  | O => ""
  | S n' => s ++ str_repeat s n'
  end.

(** The values of a JSON document that the handlers hand to
    [JsonResponse] or [json.dumps]. *)
Inductive jvalue : Type :=
| JBool (b : bool)
| JText (t : text)
| JValue (v : pyval).

Record AirflowConfig : Type := mkConfig {
  cfg_url : string;
  cfg_username : string;
  cfg_password : string
}.

(** * trigger_sync.py: the management command *)

Module TriggerSync.

(** Modelled from the spec: [opencve.commands.BaseCommand], with its
    methods [info], [error], [blue], [bold] and [style], is not under src/.
    The spec describes the command's output as "human-readable progress
    lines" and a "colored status line": [info] and [error] write one line
    and return, which is also what the statements following each of their
    calls in trigger_sync.py rely on. *)
Definition info (t : text) : M unit := write (mkLine Info t None).

Definition info_ending (t : text) (e : string) : M unit :=
  write (mkLine Info t (Some e)).

Definition error (t : text) : M unit := write (mkLine Err t None).

Definition blue (t : text) : frag := Styled Blue t.
Definition bold (t : text) : frag := Styled Bold t.
Definition style_SUCCESS (t : text) : frag := Styled StyleSuccess t.
Definition style_ERROR (t : text) : frag := Styled StyleError t.

Record Options : Type := mkOptions {
  opt_wait : bool;              (* --wait *)
  opt_timeout : Z               (* --timeout, type=int, default 300 *)
}.

Definition default_timeout : Z := 300.

Definition get_airflow_config (env : Env) : AirflowConfig :=
  mkConfig (environ_get env "AIRFLOW_URL" "http://localhost:8080")
           (environ_get env "AIRFLOW_USERNAME" "airflow")
           (environ_get env "AIRFLOW_PASSWORD" "airflow").

Definition dag_id : string := "opencve".

Definition trigger_url (airflow_config : AirflowConfig) : text :=
  [Lit (cfg_url airflow_config); Lit "/api/v1/dags/"; Lit dag_id;
   Lit "/dagRuns"].

Definition trigger_request (airflow_config : AirflowConfig) (t : Z) : HttpReq :=
  mkReq POST (trigger_url airflow_config)
        (Some (mkPayload t
                 [Lit "Manual trigger via Django management command"]))
        (cfg_username airflow_config, cfg_password airflow_config)
        [("Content-Type", "application/json")]
        10.

Definition trigger_dag (env : Env) (airflow_config : AirflowConfig) : M pyval :=
  t <- now ;;
  try_except
    (response <- request env (trigger_request airflow_config t) ;;
     raise_for_status response ;;
     json env response)
    is_RequestException
    (fun e =>
       error (Lit "Failed to trigger DAG: " :: e_str e) ;;
       match e_response e with
       | Some r => error [Lit "Response: "; Lit (resp_text r)]
       | None => ret tt
       end ;;
       ret PNone).

Definition state_url (airflow_config : AirflowConfig) (dag_run_id : pyval)
    : text :=
  [Lit (cfg_url airflow_config); Lit "/api/v1/dags/"; Lit dag_id;
   Lit "/dagRuns/"; Fmt dag_run_id].

Definition state_request (airflow_config : AirflowConfig)
    (dag_run_id : pyval) : HttpReq :=
  mkReq GET (state_url airflow_config dag_run_id) None
        (cfg_username airflow_config, cfg_password airflow_config)
        []
        10.

Definition get_dag_run_state (env : Env) (airflow_config : AirflowConfig)
    (dag_run_id : pyval) : M pyval :=
  try_except
    (response <- request env (state_request airflow_config dag_run_id) ;;
     raise_for_status response ;;
     data <- json env response ;;
     py_get data "state")
    is_RequestException
    (fun e =>
       error (Lit "Failed to get DAG run state: " :: e_str e) ;;
       ret PNone).

(** ["\r"] *)
Definition carriage_return : string :=
  String (Ascii.ascii_of_nat 13) EmptyString.

(** The lines of [wait_for_completion], by name. *)
Definition query_failed_line : Line :=
  mkLine Err [Lit "Failed to get DAG run state"] None.

Definition success_line (elapsed_ms : Z) : Line :=
  mkLine Info [Lit "DAG run completed "; style_SUCCESS [Lit "successfully"];
               Lit " in "; blue [Secs elapsed_ms; Lit "s"]] None.

Definition run_failed_line (elapsed_ms : Z) : Line :=
  mkLine Err [Lit "DAG run "; style_ERROR [Lit "failed"]; Lit " after ";
              Secs elapsed_ms; Lit "s"] None.

Definition running_line (state : pyval) (elapsed_ms : Z) : Line :=
  mkLine Info [Lit "State: "; blue [Fmt state]; Lit " (elapsed: ";
               Secs elapsed_ms; Lit "s)"] (Some carriage_return).

Definition waiting_line (timeout : Z) : Line :=
  mkLine Info [Lit "Waiting for DAG run to complete (timeout: ";
               Fmt (PInt timeout); Lit "s)..."] None.

Definition timeout_line (timeout : Z) : Line :=
  mkLine Err [Lit "Timeout reached ("; Fmt (PInt timeout); Lit "s)"] None.

(** The [while] loop of [wait_for_completion].  [fuel] bounds the number
    of iterations; [wait_for_completion] supplies enough of it
    ([wait_for_completion_finishes] below). *)
Fixpoint wait_loop (fuel : nat) (env : Env) (airflow_config : AirflowConfig)
    (dag_run_id : pyval) (timeout : Z) (start_time : Z) : M bool :=
  t <- now ;;
  if t - start_time <? timeout * 1000 then
    match fuel with
    | O => unfinished
    | S fuel' =>
        state <- get_dag_run_state env airflow_config dag_run_id ;;
        if is_none state then
          error [Lit "Failed to get DAG run state"] ;;
          ret false
        else if eq_str state "success" then
          t1 <- now ;;
          info [Lit "DAG run completed ";
                style_SUCCESS [Lit "successfully"]; Lit " in ";
                blue [Secs (t1 - start_time); Lit "s"]] ;;
          ret true
        else if eq_str state "failed" then
          t1 <- now ;;
          error [Lit "DAG run "; style_ERROR [Lit "failed"]; Lit " after ";
                 Secs (t1 - start_time); Lit "s"] ;;
          ret false
        else
          t1 <- now ;;
          info_ending [Lit "State: "; blue [Fmt state]; Lit " (elapsed: ";
                       Secs (t1 - start_time); Lit "s)"] carriage_return ;;
          sleep 2 ;;
          wait_loop fuel' env airflow_config dag_run_id timeout start_time
    end
  else
    error [Lit "Timeout reached ("; Fmt (PInt timeout); Lit "s)"] ;;
    ret false.

(** Iterations that can start before the deadline when each one lasts at
    least the two seconds of its sleep: the ceiling of timeout / 2. *)
Definition max_polls (timeout : Z) : nat := Z.to_nat ((timeout + 1) / 2).

Definition wait_for_completion (env : Env) (airflow_config : AirflowConfig)
    (dag_run_id : pyval) (timeout : Z) : M bool :=
  info [Lit "Waiting for DAG run to complete (timeout: ";
        Fmt (PInt timeout); Lit "s)..."] ;;
  start_time <- now ;;
  wait_loop (max_polls timeout) env airflow_config dag_run_id timeout
            start_time.

(** The lines of [handle], by name. *)
Definition triggering_line (airflow_config : AirflowConfig) : Line :=
  mkLine Info [Lit "Triggering CVE sync DAG on ";
               blue [Lit (cfg_url airflow_config)]] None.

Definition not_triggered_line : Line :=
  mkLine Err [Lit "Failed to trigger DAG run"] None.

Definition triggered_line (dag_run_id : pyval) : Line :=
  mkLine Info [Lit "DAG run triggered: "; bold [Fmt dag_run_id]] None.

Definition state_line (state : pyval) : Line :=
  mkLine Info [Lit "State: "; blue [Fmt state]] None.

Definition view_line (airflow_config : AirflowConfig) (dag_run_id : pyval)
    : Line :=
  mkLine Info [Lit "View in Airflow UI: "; Lit (cfg_url airflow_config);
               Lit "/dags/opencve/grid?dag_run_id="; Fmt dag_run_id] None.

Definition not_completed_line : Line :=
  mkLine Err [Lit "DAG run did not complete successfully"] None.

Definition handle (env : Env) (options : Options) : M unit :=
  let airflow_config := get_airflow_config env in
  info [Lit "Triggering CVE sync DAG on ";
        blue [Lit (cfg_url airflow_config)]] ;;
  dag_run <- trigger_dag env airflow_config ;;
  if negb (truthy dag_run) then
    error [Lit "Failed to trigger DAG run"]
  else
    dag_run_id <- py_get dag_run "dag_run_id" ;;
    state <- py_get dag_run "state" ;;
    info [Lit "DAG run triggered: "; bold [Fmt dag_run_id]] ;;
    info [Lit "State: "; blue [Fmt state]] ;;
    info [Lit "View in Airflow UI: "; Lit (cfg_url airflow_config);
          Lit "/dags/opencve/grid?dag_run_id="; Fmt dag_run_id] ;;
    if opt_wait options then
      success <- wait_for_completion env airflow_config dag_run_id
                   (opt_timeout options) ;;
      if negb success then
        error [Lit "DAG run did not complete successfully"]
      else ret tt
    else ret tt.

(** The exit status of [python manage.py trigger_sync]: Django exits with
    status 0 when [handle] returns, and with status 1 when an exception
    leaves it. *)
Definition exit_status (r : Result unit) : option Z :=
  match r with
  | Ret _ => Some 0
  | Raise _ => Some 1
  | Unfinished => None
  end.

Definition initial_world (t0 : Z) : World := mkWorld t0 [] [] 0.

End TriggerSync.

(** * views.py: the admin view *)

Module Views.

(** [JsonResponse(data, status=...)]; the status is 200 when not given. *)
Record JsonResponse : Type := mkJsonResponse {
  js_data : list (string * jvalue);
  js_status : Z
}.

Fixpoint js_get (key : string) (d : list (string * jvalue)) : option jvalue :=
  match d with
  | [] => None
  | (k, v) :: d' => if String.eqb k key then Some v else js_get key d'
  end.

Definition logger_info (t : text) : M unit := write (mkLine Info t None).
Definition logger_error (t : text) : M unit := write (mkLine Err t None).
Definition logger_exception (t : text) : M unit := write (mkLine Exc t None).

Definition get_airflow_config (env : Env) : AirflowConfig :=
  mkConfig (environ_get env "AIRFLOW_URL" "http://airflow-webserver:8080")
           (environ_get env "AIRFLOW_USERNAME" "airflow")
           (environ_get env "AIRFLOW_PASSWORD" "airflow").

Definition dag_id : string := "opencve".

Definition trigger_request (airflow_config : AirflowConfig)
    (username : string) (t : Z) : HttpReq :=
  mkReq POST
        [Lit (cfg_url airflow_config); Lit "/api/v1/dags/"; Lit dag_id;
         Lit "/dagRuns"]
        (Some (mkPayload t
                 [Lit "Manual trigger by "; Lit username; Lit " via web UI"]))
        (cfg_username airflow_config, cfg_password airflow_config)
        [("Content-Type", "application/json")]
        10.

(** The detail shown for an [HTTPError]: the "detail" of the JSON error
    body, else its "title", else [str(e)]; when the body is not a JSON
    object, the response text, or [str(e)] when that is empty. *)
Definition http_error_detail (e : exn) : text :=
  match e_response e with
  | Some r =>
      match resp_json r with
      | Some (PDict d) =>
          match dict_get "detail" d with
          | Some v => [Fmt v]
          | None =>
              match dict_get "title" d with
              | Some v => [Fmt v]
              | None => e_str e
              end
          end
      | _ =>
          if negb (String.eqb (resp_text r) "") then [Lit (resp_text r)]
          else e_str e
      end
  | None => [Lit "Unknown error"]
  end.

Definition post (env : Env) (username : string) : M JsonResponse :=
  let airflow_config := get_airflow_config env in
  t <- now ;;
  try_except
    (logger_info [Lit "User "; Lit username;
                  Lit " triggering CVE sync DAG at ";
                  Lit (cfg_url airflow_config)] ;;
     response <- request env (trigger_request airflow_config username t) ;;
     raise_for_status response ;;
     dag_run <- json env response ;;
     dag_run_id <- py_get dag_run "dag_run_id" ;;
     state <- py_get dag_run "state" ;;
     logger_info [Lit "DAG run triggered successfully: "; Fmt dag_run_id;
                  Lit " (state: "; Fmt state; Lit ")"] ;;
     ret (mkJsonResponse
            [("success", JBool true);
             ("message", JText [Lit "CVE sync triggered successfully"]);
             ("dag_run_id", JValue dag_run_id);
             ("state", JValue state);
             ("airflow_url",
              JText [Lit (cfg_url airflow_config); Lit "/dags/"; Lit dag_id;
                     Lit "/grid?dag_run_id="; Fmt dag_run_id])]
            200))
    (fun _ => true)
    (fun e =>
       if is_ConnectionError (e_class e) then
         logger_error (Lit "Failed to connect to Airflow: " :: e_str e) ;;
         ret (mkJsonResponse
                [("success", JBool false);
                 ("error",
                  JText [Lit "Failed to connect to Airflow. Is the Airflow service running?"])]
                503)
       else
       match e_class e with
       | HTTPError =>
           logger_error (Lit "Airflow API error: " :: e_str e) ;;
           match e_response e with
           | Some r =>
               ret (mkJsonResponse
                      [("success", JBool false);
                       ("error",
                        JText (Lit "Airflow API error: "
                                 :: http_error_detail e))]
                      (status_code r))
           | None => raise (no_attribute PNone "status_code")
           end
       | c =>
           if is_RequestException c then
             logger_error
               (Lit "Request error when triggering DAG: " :: e_str e) ;;
             ret (mkJsonResponse
                    [("success", JBool false);
                     ("error",
                      JText (Lit "Failed to trigger sync: " :: e_str e))]
                    500)
           else
             logger_exception
               (Lit "Unexpected error when triggering DAG: " :: e_str e) ;;
             ret (mkJsonResponse
                    [("success", JBool false);
                     ("error",
                      JText [Lit "An unexpected error occurred. Please check the logs."])]
                    500)
       end).

End Views.

(** * webhook_test_server.py *)

Module WebhookServer.

(** ** class Color *)

Definition esc : string := utf8 [27%nat].
Definition Color_HEADER : string := esc ++ "[95m".
Definition Color_BLUE : string := esc ++ "[94m".
Definition Color_CYAN : string := esc ++ "[96m".
Definition Color_GREEN : string := esc ++ "[92m".
Definition Color_YELLOW : string := esc ++ "[93m".
Definition Color_RED : string := esc ++ "[91m".
Definition Color_BOLD : string := esc ++ "[1m".
Definition Color_UNDERLINE : string := esc ++ "[4m".
Definition Color_END : string := esc ++ "[0m".

Definition megaphone : string := utf8 [240; 159; 147; 162]%nat.
Definition bullet : string := utf8 [226; 128; 162]%nat.
Definition check_mark : string := utf8 [226; 156; 133]%nat.
Definition cross_mark : string := utf8 [226; 157; 140]%nat.

Definition get_severity_color {S} (score : pyval) : ST S string :=
  if is_none score then ret Color_YELLOW
  else
    ge9 <- py_ge score 9 0x4022000000000000 ;;
    if (ge9 : bool) then ret Color_RED
    else
      ge7 <- py_ge score 7 0x401C000000000000 ;;
      if (ge7 : bool) then ret Color_RED
      else
        ge4 <- py_ge score 4 0x4010000000000000 ;;
        if (ge4 : bool) then ret Color_YELLOW
        else ret Color_GREEN.

(** The body of [for event in events:] in [format_cve_alert]. *)
Definition format_event {S} (event : pyval) : ST S (list text) :=
  event_type <- py_get_default event "type" (PStr "unknown") ;;
  event_data <- py_get_default event "data" (PDict []) ;;
  if truthy event_data then
    ret [[Lit "      "; Lit bullet; Lit " "; Fmt event_type; Lit ": ";
          JsonDumps event_data 8 100; Lit "..."]]
  else ret [].

(** The body of [for idx, change in enumerate(changes, 1):]. *)
Definition format_change {S} (idx : Z) (change : pyval) : ST S (list text) :=
  cve <- py_get_default change "cve" (PDict []) ;;
  cve_id <- py_get_default cve "cve_id" (PStr "UNKNOWN") ;;
  description <-
    py_get_default cve "description" (PStr "No description available") ;;
  cvss31 <- py_get cve "cvss31" ;;
  subs <- py_get_default cve "subscriptions" (PDict []) ;;
  subscriptions <- py_get_default subs "human" (PList []) ;;
  events <- py_get_default change "events" (PList []) ;;
  severity_color <- get_severity_color cvss31 ;;
  cvss_display <-
    (if is_none cvss31 then ret (Lit "N/A") else format_1f cvss31) ;;
  let head_line : text :=
    [Lit newline; Lit Color_BOLD; Fmt (PInt idx); Lit ". ";
     Lit severity_color; Fmt cve_id; Lit Color_END; Lit " ";
     Lit Color_BOLD; Lit "[CVSS: "; Lit severity_color; cvss_display;
     Lit Color_END; Lit Color_BOLD; Lit "]"; Lit Color_END] in
  n <- py_len description ;;
  desc_preview <-
    (if n >? 200 then py_slice_plus_str description 200 "..."
     else ret description) ;;
  let desc_line : text :=
    [Lit "   "; Lit Color_BLUE; Lit "Description:"; Lit Color_END; Lit " ";
     Fmt desc_preview] in
  sub_lines <-
    (if truthy subscriptions then
       joined <- py_join ", " subscriptions ;;
       ret [[Lit "   "; Lit Color_BLUE; Lit "Subscriptions:"; Lit Color_END;
             Lit " "; Lit joined]]
     else ret []) ;;
  event_lines <-
    (if truthy events then
       evs <- py_iter events ;;
       event_types <-
         mapM (fun e => py_get_default e "type" (PStr "unknown")) evs ;;
       joined <- py_join ", " (PList event_types) ;;
       details <- mapM format_event evs ;;
       ret ([Lit "   "; Lit Color_BLUE; Lit "Events:"; Lit Color_END;
             Lit " "; Lit joined] :: List.concat details)
     else ret []) ;;
  ret (head_line :: desc_line :: sub_lines ++ event_lines)%list.

Fixpoint format_changes {S} (idx : Z) (changes : list pyval)
    : ST S (list text) :=
  match changes with
  | [] => ret []
  | change :: rest =>
      ls <- format_change idx change ;;
      more <- format_changes (idx + 1) rest ;;
      ret (ls ++ more)%list
  end.

(** [format_cve_alert]: the lines that its final ["\n".join(lines)]
    glues together. *)
Definition format_cve_alert {S} (payload : pyval) : ST S (list text) :=
  let rule := str_repeat "=" 80 in
  organization <- py_get_default payload "organization" (PStr "N/A") ;;
  project <- py_get_default payload "project" (PStr "N/A") ;;
  notification <- py_get_default payload "notification" (PStr "N/A") ;;
  title <- py_get_default payload "title" (PStr "N/A") ;;
  period <- py_get_default payload "period" (PDict []) ;;
  p_start <- py_get_default period "start" (PStr "N/A") ;;
  p_end <- py_get_default period "end" (PStr "N/A") ;;
  matched <- py_get_default payload "matched_subscriptions" (PDict []) ;;
  human <- py_get_default matched "human" (PList []) ;;
  joined <- py_join ", " human ;;
  changes <- py_get_default payload "changes" (PList []) ;;
  n <- py_len changes ;;
  items <- py_iter changes ;;
  change_lines <- format_changes 1 items ;;
  ret ([[Lit newline; Lit rule];
        [Lit Color_BOLD; Lit Color_CYAN; Lit megaphone;
         Lit " NEW OPENCVE WEBHOOK NOTIFICATION"; Lit Color_END];
        [Lit rule];
        [Lit newline; Lit Color_BOLD; Lit "Organization:"; Lit Color_END;
         Lit " "; Fmt organization];
        [Lit Color_BOLD; Lit "Project:"; Lit Color_END; Lit " ";
         Fmt project];
        [Lit Color_BOLD; Lit "Notification:"; Lit Color_END; Lit " ";
         Fmt notification];
        [Lit Color_BOLD; Lit "Title:"; Lit Color_END; Lit " "; Fmt title];
        [Lit newline; Lit Color_BOLD; Lit "Period:"; Lit Color_END];
        [Lit "  Start: "; Fmt p_start];
        [Lit "  End:   "; Fmt p_end];
        [Lit newline; Lit Color_BOLD; Lit "Matched Subscriptions:";
         Lit Color_END; Lit " "; Lit joined];
        [Lit newline; Lit Color_BOLD; Lit "CVE Changes: "; Fmt (PInt n);
         Lit Color_END];
        [Lit (str_repeat "-" 80)]]
         ++ change_lines
         ++ [[Lit newline; Lit rule; Lit newline]])%list.

(** ** class WebhookHandler

    What the handler sends back is kept as the list of the calls it makes
    ([send_response], [send_header], [end_headers], [wfile.write]); what it
    prints is kept as lines, the request log line that [send_response]
    prints through the overridden [log_message] among them.  The client
    stays connected while it is answered, so that writing back does not
    raise, and the terminal takes the texts of the server itself; only
    the text made from a payload may fail to print. *)

Inductive wire_event : Type :=
| SendResponse (code : Z)
| SendHeader (keyword value : string)
| EndHeaders
| WriteJson (d : list (string * jvalue))
| WriteHtml (received : nat) (server_name : string) (server_port : Z)
| SendError (code : Z).

Record Server : Type := mkServer {
  received_count : nat;             (* WebhookHandler.received_count *)
  terminal : list text;             (* lines printed *)
  files : list (string * pyval);    (* files written: name and payload *)
  wire : list wire_event;           (* what went back to the clients *)
  server_name : string;
  server_port : Z
}.

(** [self.command]: GET, POST, or another method, by its name. *)
Inductive command : Type := CmdGET | CmdPOST | CmdOther (name : string).

(** The outcome of [json.loads(body.decode("utf-8"))]: the bytes are no
    UTF-8 ([UnicodeDecodeError]); the text is no JSON ([JSONDecodeError]);
    the text is JSON that [json.loads] gives up on, nested too deep
    ([RecursionError]) or with an integer of too many digits
    ([ValueError]); or a value is returned. *)
Inductive Decoded : Type :=
| BadUnicode
| BadJSON
| TooDeep
| HugeNumber
| Parsed (payload : pyval).

Inductive length_header : Type :=
| NoLength                    (* no Content-Length header *)
| IntLength (n : Z)           (* int() of the header *)
| BadLength.                  (* int() raises ValueError *)

Record Request : Type := mkRequest {
  req_command : command;
  req_path : string;                (* urlparse(self.path).path *)
  authorization : option string;    (* the Authorization header *)
  content_length : length_header;
  decoded : Z -> Decoded;           (* of self.rfile.read(n), for each n *)
  stamp : string;                   (* strftime("%Y%m%d_%H%M%S") *)
  can_save : bool;                  (* open(filename, "w") succeeds *)
  requestline : string;             (* self.requestline *)
  log_stamp : string;               (* strftime("%Y-%m-%d %H:%M:%S") *)
  can_print : bool;                 (* the terminal takes the alert: its
                                       text can be encoded, which a lone
                                       surrogate in the payload prevents *)
  read_error : Z -> option exn      (* what self.rfile.read(n) raises of
                                       its own, if it does: MemoryError
                                       for a length beyond the memory at
                                       hand, an OSError when the
                                       connection breaks *)
}.

Definition emit (e : wire_event) : ST Server unit :=
  fun s => (Ret tt, mkServer (received_count s) (terminal s) (files s)
                             (wire s ++ [e])%list
                             (server_name s) (server_port s)).

Definition print (ls : list text) : ST Server unit :=
  fun s => (Ret tt, mkServer (received_count s) (terminal s ++ ls)%list
                             (files s) (wire s)
                             (server_name s) (server_port s)).

Definition get_received_count : ST Server nat :=
  fun s => (Ret (received_count s), s).

(** [WebhookHandler.received_count += 1] *)
Definition increment_received_count : ST Server unit :=
  fun s => (Ret tt, mkServer (received_count s + 1)%nat (terminal s)
                             (files s) (wire s)
                             (server_name s) (server_port s)).

(** [print(format_cve_alert(payload))]: the alert is printed, unless its
    text cannot be encoded for the terminal. *)
Definition print_alert (ok : bool) (alert : list text) : ST Server unit :=
  if ok then print alert
  else raise (mkExn UnicodeEncodeError
                [Lit "'utf-8' codec can't encode character: surrogates not allowed"]
                None).

(** [with open(filename, "w") as f: json.dump(payload, f, indent=2)] *)
Definition save (ok : bool) (filename : string) (payload : pyval)
    : ST Server unit :=
  if ok then
    fun s => (Ret tt, mkServer (received_count s) (terminal s)
                               (files s ++ [(filename, payload)])%list
                               (wire s) (server_name s) (server_port s))
  else raise (mkExn OSError [Lit "Permission denied: "; Lit filename] None).

(** [log_message(format, *args)], as overridden: one printed line. *)
Definition log_message (req : Request) (message : text) : ST Server unit :=
  print [[Lit "["; Lit (log_stamp req); Lit "] "] ++ message]%list.

(** [send_response(code)] of [http.server]: the request is logged through
    [log_message], then the status line goes out (with the Server and
    Date headers). *)
Definition send_response (req : Request) (code : Z) : ST Server unit :=
  log_message req [Lit dquote; Lit (requestline req); Lit dquote; Lit " ";
                   Fmt (PInt code); Lit " -"] ;;
  emit (SendResponse code).

(** [send_error(code, message)] of [http.server]: the error is logged,
    then the response is sent, which logs the request. *)
Definition send_error (req : Request) (code : Z) (message : text)
    : ST Server unit :=
  log_message req ([Lit "code "; Fmt (PInt code); Lit ", message "]
                     ++ message)%list ;;
  log_message req [Lit dquote; Lit (requestline req); Lit dquote; Lit " ";
                   Fmt (PInt code); Lit " -"] ;;
  emit (SendError code).

(** The four calls that every JSON response of the handler is made of. *)
Definition send_json (req : Request) (code : Z) (d : list (string * jvalue))
    : ST Server unit :=
  send_response req code ;;
  emit (SendHeader "Content-type" "application/json") ;;
  emit EndHeaders ;;
  emit (WriteJson d).

Definition do_GET (req : Request) : ST Server unit :=
  if String.eqb (req_path req) "/health" then
    send_response req 200 ;;
    emit (SendHeader "Content-type" "application/json") ;;
    emit EndHeaders ;;
    count <- get_received_count ;;
    emit (WriteJson
            [("status", JText [Lit "healthy"]);
             ("server", JText [Lit "OpenCVE Webhook Test Server"]);
             ("received_webhooks", JValue (PInt (Z.of_nat count)))])
  else
    send_response req 200 ;;
    emit (SendHeader "Content-type" "text/html") ;;
    emit EndHeaders ;;
    fun s => emit (WriteHtml (received_count s) (server_name s)
                             (server_port s)) s.

(** [json.loads(body.decode("utf-8"))] *)
Definition json_loads (d : Decoded) : ST Server pyval :=
  match d with
  | BadUnicode =>
      raise (mkExn UnicodeDecodeError
               [Lit "'utf-8' codec can't decode byte"] None)
  | BadJSON => raise (mkExn StdJSONDecodeError [Lit "Expecting value"] None)
  | TooDeep =>
      raise (mkExn RecursionError
               [Lit "maximum recursion depth exceeded"] None)
  | HugeNumber =>
      raise (mkExn ValueError
               [Lit "Exceeds the limit for integer string conversion"] None)
  | Parsed payload => ret payload
  end.

(** [sys.maxsize] *)
Definition sys_maxsize : Z := 2 ^ 63 - 1.

(** [self.rfile.read(n)]: a length below -1 is refused with [ValueError],
    one beyond [sys.maxsize] with [OverflowError]; otherwise the bytes are
    read, unless the read raises of its own.  With -1 the read lasts to
    the end of the stream. *)
Definition rfile_read (req : Request) (n : Z) : ST Server unit :=
  if n <? -1 then
    raise (mkExn ValueError
             [Lit "read length must be non-negative or -1"] None)
  else if sys_maxsize <? n then
    raise (mkExn OverflowError
             [Lit "cannot fit 'int' into an index-sized integer"] None)
  else
    match read_error req n with
    | Some e => raise e
    | None => ret tt
    end.

(** What decoding and parsing the [n] bytes read comes to.  With a length
    of 0 nothing is read, and the empty text is no JSON. *)
Definition body_read (req : Request) (n : Z) : Decoded :=
  if n =? 0 then BadJSON else decoded req n.

(** The [try] statement of [do_POST], on the body that was read. *)
Definition process_webhook (req : Request) (body : Decoded)
    : ST Server unit :=
  try_except
    (payload <- json_loads body ;;
     increment_received_count ;;
     alert <- format_cve_alert payload ;;
     print_alert (can_print req) alert ;;
     let filename := "webhook_" ++ stamp req ++ ".json" in
     save (can_save req) filename payload ;;
     print [[Lit Color_GREEN; Lit check_mark; Lit " Webhook saved to: ";
             Lit filename; Lit Color_END; Lit newline]] ;;
     send_response req 200 ;;
     emit (SendHeader "Content-type" "application/json") ;;
     emit EndHeaders ;;
     changes <- py_get_default payload "changes" (PList []) ;;
     cve_count <- py_len changes ;;
     count <- get_received_count ;;
     emit (WriteJson
             [("status", JText [Lit "received"]);
              ("message", JText [Lit "Webhook processed successfully"]);
              ("cve_count", JValue (PInt cve_count));
              ("received_count", JValue (PInt (Z.of_nat count)))]))
    (fun _ => true)
    (fun e =>
       if is_JSONDecodeError (e_class e) then
         print [[Lit Color_RED; Lit cross_mark; Lit " Error: Invalid JSON";
                 Lit Color_END];
                Lit "   " :: e_str e] ;;
         send_json req 400 [("error", JText [Lit "Invalid JSON"])]
       else
         print [[Lit Color_RED; Lit cross_mark;
                 Lit " Error processing webhook:"; Lit Color_END];
                Lit "   " :: e_str e] ;;
         send_json req 500 [("error", JText (e_str e))]).

(** The Authorization header is printed when it is there and not empty. *)
Definition print_authorization (req : Request) : ST Server unit :=
  match authorization req with
  | Some auth_header =>
      if negb (String.eqb auth_header "") then
        print [[Lit Color_CYAN; Lit "Auth Header:"; Lit Color_END; Lit " ";
                Lit auth_header]]
      else ret tt
  | None => ret tt
  end.

Definition do_POST (req : Request) : ST Server unit :=
  if negb (String.eqb (req_path req) "/webhook") then
    send_json req 404 [("error", JText [Lit "Not found"])]
  else
    print_authorization req ;;
    content_length <-
      match content_length req with
      | NoLength => ret 0
      | IntLength n => ret n
      | BadLength =>
          raise (mkExn ValueError
                   [Lit "invalid literal for int() with base 10"] None)
      end ;;
    rfile_read req content_length ;;
    process_webhook req (body_read req content_length).

(** One request, as [http.server] and [socketserver] run it once its
    request line and headers are parsed: the method selects [do_GET] or
    [do_POST], any other method is answered 501, and an exception that
    leaves the handler is reported on the terminal while the server goes
    on.  (What [http.server] cannot parse it answers itself, and no
    handler is called.) *)
Definition handle_one_request (req : Request) : ST Server unit :=
  try_except
    (match req_command req with
     | CmdGET => do_GET req
     | CmdPOST => do_POST req
     | CmdOther name =>
         send_error req 501 [Lit "Unsupported method ('"; Lit name; Lit "')"]
     end)
    (fun _ => true)
    (fun e =>
       print [[Lit "Exception occurred during processing of request"];
              e_str e]).

(** [httpd.serve_forever()], over the requests that arrive. *)
Fixpoint serve_forever (reqs : list Request) : ST Server unit :=
  match reqs with
  | [] => ret tt
  | req :: rest => handle_one_request req ;; serve_forever rest
  end.

Definition initial_server (name : string) (port : Z) : Server :=
  mkServer 0 [] [] [] name port.

End WebhookServer.

(** * Vocabulary of the statements *)

(** The status codes at which [raise_for_status] raises. *)
Definition http_error_status (status : Z) : bool :=
  (400 <=? status) && (status <? 600).

(** A transport error: the request gets no answer, or an answer with an
    error status. *)
Definition transport_error (a : Answer) : bool :=
  match a with
  | Fails _ _ => true
  | Answers r => http_error_status (r_status r)
  end.

(** The JSON object an answer delivers: its status is no error status and
    its body decodes to an object. *)
Definition json_object (a : Answer) : option (list (string * pyval)) :=
  match a with
  | Fails _ _ => None
  | Answers r =>
      if http_error_status (r_status r) then None
      else match r_json r with
           | Some (PDict d) => Some d
           | _ => None
           end
  end.

(** An answer without error status whose body does not decode. *)
Definition undecodable (a : Answer) : bool :=
  match a with
  | Fails _ _ => false
  | Answers r =>
      negb (http_error_status (r_status r))
      && match r_json r with Some _ => false | None => true end
  end.

(** The value of a field of a JSON object, [None] when it is absent. *)
Definition field (key : string) (d : list (string * pyval)) : pyval :=
  match dict_get key d with
  | Some v => v
  | None => PNone
  end.

(** A state that keeps the wait loop polling. *)
Definition non_terminal (state : pyval) : bool :=
  negb (is_none state) && negb (eq_str state "success")
  && negb (eq_str state "failed").

(** An answer to a state query that keeps the wait loop polling. *)
Definition pending (a : Answer) : bool :=
  match json_object a with
  | Some d => non_terminal (field "state" d)
  | None => false
  end.

(** The requests issued between two worlds. *)
Definition issued_since (w w' : World) : list (Z * HttpReq) :=
  skipn (List.length (sent w)) (sent w').

(** The last line written, if any. *)
Definition last_line (w : World) : option Line :=
  last (map Some (output w)) None.

(** The outcome of a computation that returns a boolean, as its caller
    and its reader get it: the value returned (or the exception), and the
    closing line. *)
Definition outcome (r : Result bool * World) : Result bool * option Line :=
  (fst r, last_line (snd r)).

(** Two texts that start with literals neither of which is a prefix of the
    other read differently, however their other parts are rendered. *)
Definition reads_apart (a b : text) : bool :=
  match leading_literal a, leading_literal b with
  | Some x, Some y => negb (String.prefix x y) && negb (String.prefix y x)
  | _, _ => false
  end.

(** The ceiling of [a / b], for positive [b]. *)
Definition ceil_div (a b : Z) : Z := (a + b - 1) / b.

(** [str(e)] of the exception a transport error raises: the message of
    the network failure, or what [raise_for_status] words for an error
    status. *)
Definition error_text (a : Answer) (u : text) : text :=
  match a with
  | Fails _ msg => [Lit msg]
  | Answers r =>
      [Fmt (PInt (r_status r));
       Lit (if r_status r <? 500 then " Client Error: "
            else " Server Error: ");
       Lit (r_reason r); Lit " for url: "] ++ u
  end%list.

(** The lines [trigger_dag] writes for the response of a failed trigger:
    one when the exception holds a response, none otherwise. *)
Definition response_lines (a : Answer) : list Line :=
  match a with
  | Fails _ _ => []
  | Answers r => [mkLine Err [Lit "Response: "; Lit (r_text r)] None]
  end.

(** The world of the command once the trigger has delivered the JSON
    object [d] and the three lines about the run are written. *)
Definition announced (env : Env) (w : World) (d : list (string * pyval))
    : World :=
  let airflow_config := TriggerSync.get_airflow_config env in
  let req := TriggerSync.trigger_request airflow_config (clock w) in
  let ex := exchange env (List.length (sent w)) req in
  put_line (TriggerSync.view_line airflow_config (field "dag_run_id" d))
    (put_line (TriggerSync.state_line (field "state" d))
       (put_line (TriggerSync.triggered_line (field "dag_run_id" d))
          (exchanged (latency ex) req
             (put_line (TriggerSync.triggering_line airflow_config) w)))).

(** A computation that comes to an end (it returns or raises) and leaves
    a measure of the state as it is, however it ends. *)
Definition preserves {S A : Type} (f : S -> nat) (m : ST S A) : Prop :=
  forall s, f (snd (m s)) = f s /\ fst (m s) <> Unfinished.

(** What [do_POST] reads as the body of a request to /webhook: nothing
    when the Content-Length is no integer or [self.rfile.read] raises (a
    length below -1 or beyond [sys.maxsize], or a read that fails of its
    own), else the outcome of decoding and parsing the bytes read. *)
Definition read_body (req : WebhookServer.Request)
    : option WebhookServer.Decoded :=
  let read (n : Z) :=
    if (n <? -1) || (WebhookServer.sys_maxsize <? n) then None
    else match WebhookServer.read_error req n with
         | Some _ => None
         | None => Some (WebhookServer.body_read req n)
         end in
  match WebhookServer.content_length req with
  | WebhookServer.BadLength => None
  | WebhookServer.NoLength => read 0
  | WebhookServer.IntLength n => read n
  end.

(** The payload that [do_POST] gets out of a request to /webhook, if it
    gets one. *)
Definition parsed_payload (req : WebhookServer.Request) : option pyval :=
  match read_body req with
  | Some (WebhookServer.Parsed payload) => Some payload
  | _ => None
  end.

(** A POST to /webhook whose body is read and parses as JSON. *)
Definition is_webhook_delivery (req : WebhookServer.Request) : bool :=
  match WebhookServer.req_command req with
  | WebhookServer.CmdPOST =>
      String.eqb (WebhookServer.req_path req) "/webhook"
      && match parsed_payload req with
         | Some _ => true
         | None => false
         end
  | _ => false
  end.

(** The status codes sent back between two states of the server. *)
Fixpoint status_codes (events : list WebhookServer.wire_event) : list Z :=
  match events with
  | [] => []
  | WebhookServer.SendResponse code :: rest => code :: status_codes rest
  | WebhookServer.SendError code :: rest => code :: status_codes rest
  | _ :: rest => status_codes rest
  end.

Definition answered_since (s s' : WebhookServer.Server) : list Z :=
  status_codes (skipn (List.length (WebhookServer.wire s))
                      (WebhookServer.wire s')).

(** Requests whose starts are at least [gap] milliseconds apart, each from
    the next. *)
Fixpoint spaced (gap : Z) (l : list (Z * HttpReq)) : Prop :=
  match l with
  | [] => True
  | a :: rest =>
      match rest with
      | [] => True
      | b :: _ => fst a + gap <= fst b
      end /\ spaced gap rest
  end.

(** Whether a line is an error line. *)
Definition is_error_line (l : Line) : bool :=
  match lvl l with
  | Err => true
  | _ => false
  end.



(** A computation that neither reads nor changes the state: it ends the
    same way from every state, and leaves the state as it is. *)
Definition reads_nothing {S A : Type} (m : ST S A) : Prop :=
  exists r : Result A, forall s : S, m s = (r, s).

(** Two states of the server that differ at most in what was printed on
    the terminal. *)
Definition same_but_terminal (s s' : WebhookServer.Server) : Prop :=
  WebhookServer.received_count s = WebhookServer.received_count s'
  /\ WebhookServer.files s = WebhookServer.files s'
  /\ WebhookServer.wire s = WebhookServer.wire s'
  /\ WebhookServer.server_name s = WebhookServer.server_name s'
  /\ WebhookServer.server_port s = WebhookServer.server_port s'.

(** A handler on which what was printed before has no influence: from two
    states that differ at most in the terminal it ends the same way, in
    two states that differ at most in the terminal. *)
Definition ignores_terminal {A : Type} (m : ST WebhookServer.Server A)
    : Prop :=
  forall s s' : WebhookServer.Server,
    same_but_terminal s s' ->
    fst (m s) = fst (m s')
    /\ same_but_terminal (snd (m s)) (snd (m s')).

(** The same request with another Authorization header. *)
Definition with_authorization (a : option string)
    (req : WebhookServer.Request) : WebhookServer.Request :=
  WebhookServer.mkRequest
    (WebhookServer.req_command req) (WebhookServer.req_path req) a
    (WebhookServer.content_length req) (WebhookServer.decoded req)
    (WebhookServer.stamp req) (WebhookServer.can_save req)
    (WebhookServer.requestline req) (WebhookServer.log_stamp req)
    (WebhookServer.can_print req) (WebhookServer.read_error req).

(** The document last written back to a client, if the last thing written
    is a JSON document. *)
Definition last_json (s : WebhookServer.Server)
    : option (list (string * jvalue)) :=
  match last (map Some (WebhookServer.wire s)) None with
  | Some (WebhookServer.WriteJson d) => Some d
  | _ => None
  end.

(** * Scenarios *)

Module Scenario.

Definition no_environ : string -> option string := fun _ => None.

(** The configuration of the command when no variable is set. *)
Definition config : AirflowConfig :=
  mkConfig "http://localhost:8080" "airflow" "airflow".

Definition run_id : pyval := PStr "manual__2024-01-01".

Definition ok (d : list (string * pyval)) : Answer :=
  Answers (mkReply 200 "OK" "" (Some (PDict d))).

Definition triggered : Answer :=
  ok [("dag_run_id", run_id); ("state", PStr "queued")].

Definition state_is (st : string) : Answer := ok [("state", PStr st)].

Definition status (code : Z) (why : string) : Answer :=
  Answers (mkReply code why "" None).

Definition refused : Answer := Fails Refused "Connection refused".

Definition garbled : Answer := Answers (mkReply 200 "OK" "<html>" None).

(** Every request is answered after [lat] milliseconds, the [i]-th one
    with [answers i]. *)
Definition network (lat : N) (answers : nat -> Answer) (compat : bool) : Env :=
  mkEnv (fun i _ => mkExchange lat (answers i)) compat no_environ.

(** The trigger is accepted, then the [k]-th state query gets
    [queries k]. *)
Definition after_trigger (queries : nat -> Answer) (i : nat) : Answer :=
  match i with
  | O => triggered
  | S k => queries k
  end.

Definition start : World := TriggerSync.initial_world 0.

(** A POST to the webhook test server whose body parses to [payload]. *)
Definition delivery (path : string) (payload : pyval)
    : WebhookServer.Request :=
  WebhookServer.mkRequest WebhookServer.CmdPOST path None
    (WebhookServer.IntLength 2) (fun _ => WebhookServer.Parsed payload)
    "20240101_000000" true ("POST " ++ path ++ " HTTP/1.1")
    "2024-01-01 00:00:00" true (fun _ => None).

Definition test_server : WebhookServer.Server :=
  WebhookServer.initial_server "localhost" 8888.

End Scenario.

(** * Properties *)

Import TriggerSync.

Ltac world_simpl :=
  unfold put_line, asleep, exchanged, unfinished in *;
  cbn [fst snd sent output clock slept List.length app] in *.

Lemma ceil_div_nonpos (a b : Z) :
  0 < b -> a <= 0 -> Z.to_nat (ceil_div a b) = 0%nat.
Proof.
  intros Hb Ha. unfold ceil_div.
  assert ((a + b - 1) / b < 1) by (apply Z.div_lt_upper_bound; lia).
  lia.
Qed.

Lemma ceil_div_step (a b : Z) :
  0 < b -> 0 < a ->
  Z.to_nat (ceil_div a b) = S (Z.to_nat (ceil_div (a - b) b)).
Proof.
  intros Hb Ha. unfold ceil_div.
  replace (a + b - 1) with (a - b + b - 1 + 1 * b) by lia.
  rewrite Z.div_add by lia.
  assert (0 <= (a - b + b - 1) / b) by (apply Z.div_pos; lia).
  lia.
Qed.

Lemma ceil_div_seconds (timeout : Z) :
  ceil_div (timeout * 1000) 2000 = ceil_div timeout 2.
Proof.
  unfold ceil_div.
  assert (H : forall q, q * 2 <= timeout + 1 < (q + 1) * 2 ->
                        (timeout * 1000 + 2000 - 1) / 2000 = q).
  { intros q Hq. symmetry. apply Z.div_unique with
      (r := timeout * 1000 + 2000 - 1 - 2000 * q); lia. }
  apply H.
  pose proof (Z.div_mod (timeout + 2 - 1) 2 ltac:(lia)).
  pose proof (Z.mod_pos_bound (timeout + 2 - 1) 2 ltac:(lia)).
  lia.
Qed.

Ltac split_assumption :=
  repeat (split; [assumption|]); assumption.

Ltac settle :=
  repeat split; auto; try lia; try discriminate; try (intros; lia).

Section StateQuery.

Variables (env : Env) (airflow_config : AirflowConfig) (dag_run_id : pyval).

Let req := state_request airflow_config dag_run_id.
Let ex (w : World) := exchange env (List.length (sent w)) req.

Lemma raise_for_status_ok (S : Type) (r : Response) (s : S) :
  http_error_status (status_code r) = false ->
  raise_for_status r s = (Ret tt, s).
Proof.
  unfold http_error_status, raise_for_status. intros H.
  destruct (400 <=? status_code r) eqn:E4; simpl in *.
  - destruct (status_code r <? 500) eqn:E5; simpl.
    + assert ((status_code r <? 600) = true) by lia. congruence.
    + destruct (500 <=? status_code r) eqn:E6; simpl; [|reflexivity].
      rewrite H. reflexivity.
  - destruct (500 <=? status_code r) eqn:E6; simpl; [|reflexivity].
    lia.
Qed.

Lemma raise_for_status_error (S : Type) (r : Response) (s : S) :
  http_error_status (status_code r) = true ->
  exists kind,
    raise_for_status r s =
      (Raise (mkExn HTTPError
                ([Fmt (PInt (status_code r)); Lit kind; Lit (reason r);
                  Lit " for url: "] ++ resp_url r)%list (Some r)), s).
Proof.
  unfold http_error_status, raise_for_status. intros H.
  destruct (400 <=? status_code r) eqn:E4; simpl in *; [|discriminate].
  destruct (status_code r <? 500) eqn:E5; simpl.
  - eexists; reflexivity.
  - assert ((500 <=? status_code r) = true) as -> by lia. rewrite H; simpl.
    eexists; reflexivity.
Qed.

(** A state query that is answered with a JSON object returns the value
    of its "state" field and writes nothing. *)
Lemma get_dag_run_state_object (w : World) (d : list (string * pyval)) :
  json_object (answer (ex w)) = Some d ->
  get_dag_run_state env airflow_config dag_run_id w =
    (Ret (field "state" d), exchanged (latency (ex w)) req w).
Proof.
  unfold json_object, get_dag_run_state, try_except, bind, request.
  subst ex req; simpl.
  destruct (answer _) as [f msg | r]; [discriminate|].
  destruct (http_error_status (r_status r)) eqn:Est; [discriminate|].
  destruct (r_json r) as [[| | | | | |d']|] eqn:Ej; try discriminate.
  intros [= ->].
  rewrite raise_for_status_ok by exact Est.
  reflexivity.
Qed.

(** A state query that meets a transport error writes the exception in an
    error line and returns [None], whatever the error was.  The text of
    the exception is the message of the network failure, or, for an error
    status, the status code, the reason and the url. *)
Lemma get_dag_run_state_transport_error (w : World) :
  transport_error (answer (ex w)) = true ->
  exists e_text,
    get_dag_run_state env airflow_config dag_run_id w =
      (Ret PNone,
       put_line (mkLine Err (Lit "Failed to get DAG run state: " :: e_text)
                        None)
                (exchanged (latency (ex w)) req w))
    /\ e_text = error_text (answer (ex w)) (url req).
Proof.
  unfold transport_error, get_dag_run_state, try_except, bind, request.
  subst ex req; simpl.
  destruct (answer _) as [f msg | r].
  - intros _. exists [Lit msg]. destruct f; split; reflexivity.
  - intros Est.
    pose proof Est as Est'. unfold http_error_status in Est'.
    apply andb_prop in Est' as [E4 E6].
    unfold raise_for_status, error_text; cbn [status_code reason resp_url].
    rewrite E4. cbn [andb].
    destruct (r_status r <? 500) eqn:E5.
    + eexists; split; reflexivity.
    + assert ((500 <=? r_status r) = true) as -> by lia.
      rewrite E6. eexists; split; reflexivity.
Qed.

(** Whatever the answer, a state query issues exactly one request, takes
    the latency of its exchange, may write lines, and comes to an end. *)
Lemma get_dag_run_state_world (w : World) :
  exists r ls,
    get_dag_run_state env airflow_config dag_run_id w =
      (r, mkWorld (clock w + Z.of_N (latency (ex w)))
                  (sent w ++ [(clock w, req)])%list
                  (output w ++ ls)%list (slept w))
    /\ r <> Unfinished.
Proof.
  destruct (transport_error (answer (ex w))) eqn:Et.
  - destruct (get_dag_run_state_transport_error w Et) as (e_text & -> & _).
    exists (Ret PNone). eexists. split; [reflexivity | discriminate].
  - unfold get_dag_run_state, try_except, bind, request.
    subst ex req; simpl in *.
    destruct (answer _) as [f msg | r]; [discriminate|]. simpl in Et.
    rewrite raise_for_status_ok by exact Et.
    unfold json; simpl.
    destruct (r_json r) as [v|].
    + unfold py_get, py_get_default.
      destruct v; simpl;
        match goal with
        | |- exists r0 ls, (?a, _) = _ /\ _ =>
            exists a, []; rewrite app_nil_r; split;
            [reflexivity | discriminate]
        end.
    + destruct (json_error_is_request_exception env); simpl.
      * eexists (Ret PNone), [_]. split; [reflexivity | discriminate].
      * eexists (Raise _), []. rewrite app_nil_r.
        split; [reflexivity | discriminate].
Qed.

End StateQuery.

Section WaitLoop.

Variables (env : Env) (airflow_config : AirflowConfig) (dag_run_id : pyval).
Variables (timeout start_time : Z).

Let req := state_request airflow_config dag_run_id.
Let ex (w : World) := exchange env (List.length (sent w)) req.
Let loop (fuel : nat) :=
  wait_loop fuel env airflow_config dag_run_id timeout start_time.

(** Past the deadline the loop is left at once, whatever the fuel. *)
Lemma wait_loop_expired (fuel : nat) (w : World) :
  timeout * 1000 <= clock w - start_time ->
  loop fuel w = (Ret false, put_line (timeout_line timeout) w).
Proof.
  intros H. subst loop.
  destruct fuel; cbn [wait_loop]; unfold bind, now;
    assert ((clock w - start_time <? timeout * 1000) = false) as -> by lia;
    reflexivity.
Qed.

(** One iteration of the loop, before the deadline. *)
Lemma wait_loop_step (fuel : nat) (w : World) :
  clock w - start_time < timeout * 1000 ->
  loop (S fuel) w =
    match get_dag_run_state env airflow_config dag_run_id w with
    | (Ret state, w1) =>
        if is_none state then (Ret false, put_line query_failed_line w1)
        else if eq_str state "success" then
          (Ret true, put_line (success_line (clock w1 - start_time)) w1)
        else if eq_str state "failed" then
          (Ret false, put_line (run_failed_line (clock w1 - start_time)) w1)
        else
          loop fuel
            (asleep 2 (put_line (running_line state (clock w1 - start_time))
                                w1))
    | (Raise e, w1) => (Raise e, w1)
    | (Unfinished, w1) => (Unfinished, w1)
    end.
Proof.
  intros H. subst loop. cbn [wait_loop]. unfold bind at 1. unfold now at 1.
  assert ((clock w - start_time <? timeout * 1000) = true) as -> by lia.
  unfold bind at 1.
  destruct (get_dag_run_state env airflow_config dag_run_id w)
    as [[state | e |] w1]; try reflexivity.
  destruct (is_none state); [reflexivity|].
  destruct (eq_str state "success"); [reflexivity|].
  destruct (eq_str state "failed"); reflexivity.
Qed.

(** What every run of the loop keeps, whatever the network does: it only
    issues state queries for this run identifier, each started before the
    deadline; it only adds lines; queries are two seconds apart or more, so
    that [k] of them suffice once the time left is at most [2 k] seconds;
    and with that much fuel the loop comes to an end. *)
Lemma wait_loop_invariant (fuel : nat) :
  forall w : World,
  exists l ls,
    sent (snd (loop fuel w)) = (sent w ++ l)%list
    /\ output (snd (loop fuel w)) = (output w ++ ls)%list
    /\ Forall (fun tq => snd tq = req
                        /\ clock w <= fst tq
                        /\ fst tq - start_time < timeout * 1000) l
    /\ clock w <= clock (snd (loop fuel w))
    /\ (forall k : nat,
          timeout * 1000 - (clock w - start_time) <= 2000 * Z.of_nat k ->
          (List.length l <= k)%nat)
    /\ (timeout * 1000 - (clock w - start_time) <= 2000 * Z.of_nat fuel ->
        fst (loop fuel w) <> Unfinished).
Proof.
  induction fuel as [|fuel IH]; intros w.
  - destruct (Z_lt_le_dec (clock w - start_time) (timeout * 1000)) as [Hlt|Hge].
    + exists [], []. subst loop. cbn [wait_loop]. unfold bind, now.
      assert ((clock w - start_time <? timeout * 1000) = true) as -> by lia.
      world_simpl. rewrite !app_nil_r.
      settle.
    + rewrite wait_loop_expired by exact Hge.
      exists [], [timeout_line timeout]. world_simpl. rewrite app_nil_r.
      settle.
  - destruct (Z_lt_le_dec (clock w - start_time) (timeout * 1000)) as [Hlt|Hge].
    2:{ rewrite wait_loop_expired by exact Hge.
        exists [], [timeout_line timeout]. world_simpl. rewrite app_nil_r.
        settle. }
    rewrite wait_loop_step by exact Hlt.
    destruct (get_dag_run_state_world env airflow_config dag_run_id w)
      as (r & ls & -> & Hr).
    fold req.
    set (lat := Z.of_N (latency _)).
    assert (0 <= lat) by (subst lat; lia).
    assert (Hone : forall k : nat,
               timeout * 1000 - (clock w - start_time) <= 2000 * Z.of_nat k ->
               (1 <= k)%nat) by (intros; lia).
    assert (Hq : Forall (fun tq => snd tq = req
                                  /\ clock w <= fst tq
                                  /\ fst tq - start_time < timeout * 1000)
                        [(clock w, req)]).
    { constructor; [|constructor]. world_simpl. repeat split; auto; lia. }
    destruct r as [state | e |]; [| |congruence].
    2:{ exists [(clock w, req)], ls. world_simpl.
        settle. }
    destruct (is_none state).
    { exists [(clock w, req)], (ls ++ [query_failed_line])%list. world_simpl.
      rewrite app_assoc.
      settle. }
    destruct (eq_str state "success").
    { eexists [(clock w, req)], (ls ++ [_])%list. world_simpl.
      rewrite app_assoc.
      settle. }
    destruct (eq_str state "failed").
    { eexists [(clock w, req)], (ls ++ [_])%list. world_simpl.
      rewrite app_assoc.
      settle. }
    match goal with
    | |- context [loop fuel ?w2] =>
        destruct (IH w2) as (l2 & ls2 & Hs & Ho & Hf & Hc & Hk & Hu)
    end.
    world_simpl.
    eexists ((clock w, req) :: l2), (ls ++ _ :: ls2)%list.
    split; [rewrite Hs, <- app_assoc; reflexivity|].
    split; [rewrite Ho, <- !app_assoc; reflexivity|].
    split; [|split; [lia|split]].
    + constructor.
      * world_simpl. settle.
      * eapply Forall_impl; [|exact Hf]. intros tq (? & ? & ?). settle.
    + intros k Hk'. specialize (Hone k Hk').
      destruct k as [|k]; [lia|].
      cbn [List.length]. apply le_n_S, Hk. lia.
    + intros Hfuel. apply Hu. lia.
Qed.

(** An answer that keeps the loop polling: the iteration writes the
    progress line, sleeps two seconds and goes round again. *)
Lemma wait_loop_pending_step (fuel : nat) (w : World) :
  clock w - start_time < timeout * 1000 ->
  pending (answer (ex w)) = true ->
  exists state,
    non_terminal state = true
    /\ loop (S fuel) w =
       loop fuel
         (asleep 2
            (put_line
               (running_line state
                  (clock w + Z.of_N (latency (ex w)) - start_time))
               (exchanged (latency (ex w)) req w))).
Proof.
  intros Hlt Hp. unfold pending in Hp.
  destruct (json_object (answer (ex w))) as [d|] eqn:Ed; [|discriminate].
  exists (field "state" d). split; [exact Hp|].
  rewrite wait_loop_step by exact Hlt.
  subst ex req. cbv beta in Ed.
  rewrite (get_dag_run_state_object env airflow_config dag_run_id w d Ed).
  unfold non_terminal in Hp.
  apply andb_prop in Hp as [Hp Hf]. apply andb_prop in Hp as [Hn Hs].
  apply negb_true_iff in Hn, Hs, Hf. rewrite Hn, Hs, Hf.
  reflexivity.
Qed.

(** When every answer keeps the loop polling, the loop ends by the
    deadline test: it returns [False] after the timeout line, not before
    the deadline, having slept two seconds per query.  When moreover the
    exchanges take no time, the queries are as many as the two-second
    steps that fit in the time left. *)
Lemma wait_loop_pending (fuel : nat) :
  (forall i q, pending (answer (exchange env i q)) = true) ->
  forall w : World,
  timeout * 1000 - (clock w - start_time) <= 2000 * Z.of_nat fuel ->
  exists l ls c,
    loop fuel w =
      (Ret false,
       mkWorld c (sent w ++ l)%list
               (output w ++ ls ++ [timeout_line timeout])%list
               (slept w + 2000 * Z.of_nat (List.length l)))
    /\ timeout * 1000 <= c - start_time
    /\ clock w <= c
    /\ ((forall i q, latency (exchange env i q) = 0%N) ->
        List.length l =
          Z.to_nat (ceil_div (timeout * 1000 - (clock w - start_time)) 2000)
        /\ c = clock w + 2000 * Z.of_nat (List.length l)).
Proof.
  intros Hp. induction fuel as [|fuel IH]; intros w Hfuel.
  - rewrite wait_loop_expired by lia.
    exists [], [], (clock w). unfold put_line. cbn [List.length app].
    rewrite app_nil_r, Z.add_0_r.
    split; [reflexivity|]. split; [lia|]. split; [lia|].
    intros _. split; [|lia].
    symmetry. apply ceil_div_nonpos; lia.
  - destruct (Z_lt_le_dec (clock w - start_time) (timeout * 1000)) as [Hlt|Hge].
    2:{ rewrite wait_loop_expired by lia.
        exists [], [], (clock w). unfold put_line. cbn [List.length app].
        rewrite app_nil_r, Z.add_0_r.
        split; [reflexivity|]. split; [lia|]. split; [lia|].
        intros _. split; [|lia].
        symmetry. apply ceil_div_nonpos; lia. }
    destruct (wait_loop_pending_step fuel w Hlt (Hp _ _)) as (state & _ & ->).
    set (lat := Z.of_N (latency (ex w))).
    assert (Hlat : 0 <= lat) by (subst lat; lia).
    match goal with
    | |- context [loop fuel ?w2] =>
        destruct (IH w2) as (l2 & ls2 & c & -> & Hc & Hw & Hz)
    end.
    { world_simpl. lia. }
    world_simpl.
    exists ((clock w, req) :: l2), (running_line state (clock w + lat - start_time) :: ls2), c.
    split.
    { f_equal. f_equal.
      - rewrite <- app_assoc. reflexivity.
      - rewrite <- !app_assoc. reflexivity.
      - cbn [List.length]. lia. }
    split; [exact Hc|]. split; [lia|].
    intros H0. destruct (Hz H0) as [Hl Hc'].
    assert (lat = 0) as Hlat0 by (subst lat ex; cbv beta; rewrite H0; reflexivity).
    cbn [List.length]. rewrite Hl. split.
    + rewrite (ceil_div_step (timeout * 1000 - (clock w - start_time)) 2000)
        by lia.
      do 3 f_equal. lia.
    + rewrite Hc', Hl. lia.
Qed.

End WaitLoop.

(** ** The poller *)

Lemma issued_since_app (w w' : World) (l : list (Z * HttpReq)) :
  sent w' = (sent w ++ l)%list -> issued_since w w' = l.
Proof.
  intros H. unfold issued_since. rewrite H.
  rewrite skipn_app, skipn_all, Nat.sub_diag. reflexivity.
Qed.

Lemma last_line_put (l : Line) (w : World) :
  last_line (put_line l w) = Some l.
Proof.
  unfold last_line, put_line. cbn [output].
  rewrite map_app. apply last_last.
Qed.

Section Iteration.

Variables (env : Env) (airflow_config : AirflowConfig) (dag_run_id : pyval).
Variables (timeout start_time : Z) (fuel : nat) (w : World).

Let req := state_request airflow_config dag_run_id.
Let ex := exchange env (List.length (sent w)) req.
Let r := wait_loop (S fuel) env airflow_config dag_run_id timeout
                   start_time w.

Hypothesis in_progress : clock w - start_time < timeout * 1000.

(** The iteration of a state query that meets a transport error. *)
Lemma wait_loop_transport_error :
  transport_error (answer ex) = true ->
  r = (Ret false,
       put_line query_failed_line
         (put_line
            (mkLine Err (Lit "Failed to get DAG run state: "
                           :: error_text (answer ex) (url req)) None)
            (exchanged (latency ex) req w))).
Proof.
  intros Herr. subst r.
  rewrite wait_loop_step by exact in_progress.
  destruct (get_dag_run_state_transport_error env airflow_config dag_run_id
              w Herr) as (e_text & -> & ->).
  reflexivity.
Qed.

(** The iteration of a state query answered with the state "failed". *)
Lemma wait_loop_failed (d : list (string * pyval)) :
  json_object (answer ex) = Some d ->
  dict_get "state" d = Some (PStr "failed") ->
  r = (Ret false,
       put_line
         (run_failed_line (clock w + Z.of_N (latency ex) - start_time))
         (exchanged (latency ex) req w)).
Proof.
  intros Hd Hst. subst r.
  rewrite wait_loop_step by exact in_progress.
  rewrite (get_dag_run_state_object env airflow_config dag_run_id w d Hd).
  unfold field. rewrite Hst. reflexivity.
Qed.

End Iteration.

(** C1, as amended.  In a polling loop in progress, a state query that
    meets a transport error (no answer, or an answer with error status
    400..599) ends the loop at once: the loop returns [False] after that
    single query, without sleeping or asking again.  What is written is
    the error line with the text of the exception (for an error status:
    the status code, the reason and the url) and the line
    "Failed to get DAG run state".  The state query itself returns [None],
    and the outcome of the loop (the value [False] and its closing line)
    is the same whatever the failure was: it holds neither a kind nor a
    status code. *)
Theorem query_failure_ends_polling
    (env : Env) (airflow_config : AirflowConfig) (dag_run_id : pyval)
    (timeout start_time : Z) (fuel : nat) (w : World) :
  let req := state_request airflow_config dag_run_id in
  let ex := exchange env (List.length (sent w)) req in
  let r := wait_loop (S fuel) env airflow_config dag_run_id timeout
                     start_time w in
  clock w - start_time < timeout * 1000 ->
  transport_error (answer ex) = true ->
  fst (get_dag_run_state env airflow_config dag_run_id w) = Ret PNone
  /\ outcome r = (Ret false, Some query_failed_line)
  /\ issued_since w (snd r) = [(clock w, req)]
  /\ output (snd r) =
       (output w
        ++ [mkLine Err (Lit "Failed to get DAG run state: "
                          :: error_text (answer ex) (url req)) None;
            query_failed_line])%list
  /\ slept (snd r) = slept w
  /\ clock (snd r) = clock w + Z.of_N (latency ex).
Proof.
  intros req ex r Hlt Herr. subst r.
  rewrite (wait_loop_transport_error env airflow_config dag_run_id timeout
             start_time fuel w Hlt Herr).
  destruct (get_dag_run_state_transport_error env airflow_config dag_run_id
              w Herr) as (e_text & -> & _).
  unfold outcome. cbn [fst snd]. rewrite last_line_put. world_simpl.
  rewrite <- app_assoc.
  repeat split; try reflexivity.
  apply issued_since_app. reflexivity.
Qed.

Lemma query_failure_ends_polling_witness :
  let env :=
    Scenario.network 250
      (fun _ => Scenario.status 500 "Internal Server Error") true in
  let req := state_request Scenario.config Scenario.run_id in
  let r := wait_loop 1 env Scenario.config Scenario.run_id 10 0
                     Scenario.start in
  clock Scenario.start - 0 < 10 * 1000
  /\ transport_error (answer (exchange env 0%nat req)) = true
  /\ outcome r = (Ret false, Some query_failed_line)
  /\ issued_since Scenario.start (snd r) = [(0, req)]
  /\ clock (snd r) = 250.
Proof.
  cbv zeta.
  assert (H1 : clock Scenario.start - 0 < 10 * 1000) by reflexivity.
  assert (H2 : transport_error
                 (answer
                    (exchange
                       (Scenario.network 250
                          (fun _ => Scenario.status 500
                                      "Internal Server Error") true)
                       (List.length (sent Scenario.start))
                       (state_request Scenario.config Scenario.run_id)))
               = true) by reflexivity.
  destruct (query_failure_ends_polling _ Scenario.config Scenario.run_id
              10 0 0%nat Scenario.start H1 H2)
    as (_ & Hr & Hq & _ & _ & Hc).
  split_assumption.
Defined.

(** C1 as stated fails: the wait ends with the same outcome (the value
    [False] and the closing line "Failed to get DAG run state") when the
    state query is answered 500, when it is answered 503 and when the
    connection is refused, and the state query returns [None] each time.
    No status code and no kind can be read off what is returned. *)
Lemma poller_result_forgets_status_code :
  let run a :=
    wait_for_completion (Scenario.network 0 (fun _ => a) true)
      Scenario.config Scenario.run_id 10 Scenario.start in
  let query a :=
    fst (get_dag_run_state (Scenario.network 0 (fun _ => a) true)
           Scenario.config Scenario.run_id Scenario.start) in
  let http500 := Scenario.status 500 "Internal Server Error" in
  let http503 := Scenario.status 503 "Service Unavailable" in
  outcome (run http500) = outcome (run http503)
  /\ outcome (run http500) = outcome (run Scenario.refused)
  /\ query http500 = Ret PNone
  /\ query http503 = Ret PNone
  /\ query Scenario.refused = Ret PNone
  /\ ~ (exists status_of : Result bool -> Z,
          status_of (fst (run http500)) = 500
          /\ status_of (fst (run http503)) = 503)
  /\ ~ (exists is_http_error : Result bool -> bool,
          is_http_error (fst (run http500)) = true
          /\ is_http_error (fst (run Scenario.refused)) = false).
Proof.
  cbv zeta. repeat split; try reflexivity.
  - intros (f & H1 & H2). vm_compute in H1, H2. congruence.
  - intros (f & H1 & H2). vm_compute in H1, H2. congruence.
Qed.

(** C3, as amended.  In a polling loop in progress, a state query
    answered with the state "failed" ends the loop at once: the loop
    returns [False] after that single query, without sleeping or asking
    again.  [False] is all it returns, and it is what the loop returns on
    every transport error and at the timeout as well: the value holds no
    kind of outcome.  That the run failed is told by the closing error
    line only, "DAG run failed after ...s", which neither a transport
    error nor the timeout ends with, and which starts with a literal that
    tells it apart from the lines written for a query failure and for a
    timeout. *)
Theorem failed_state_ends_polling
    (env : Env) (airflow_config : AirflowConfig) (dag_run_id : pyval)
    (timeout start_time : Z) (fuel : nat) (w : World)
    (d : list (string * pyval)) :
  let req := state_request airflow_config dag_run_id in
  let ex := exchange env (List.length (sent w)) req in
  let r := wait_loop (S fuel) env airflow_config dag_run_id timeout
                     start_time w in
  let line :=
    run_failed_line (clock w + Z.of_N (latency ex) - start_time) in
  clock w - start_time < timeout * 1000 ->
  json_object (answer ex) = Some d ->
  dict_get "state" d = Some (PStr "failed") ->
  r = (Ret false, put_line line (exchanged (latency ex) req w))
  /\ issued_since w (snd r) = [(clock w, req)]
  /\ slept (snd r) = slept w
  /\ last_line (snd r) = Some line
  /\ lvl line = Err
  /\ (forall env' config' id' timeout' start' fuel' w',
        clock w' - start' < timeout' * 1000 ->
        transport_error
          (answer (exchange env' (List.length (sent w'))
                     (state_request config' id'))) = true ->
        let r' := wait_loop (S fuel') env' config' id' timeout' start' w' in
        fst r' = fst r /\ last_line (snd r') <> last_line (snd r))
  /\ (forall env' config' id' timeout' start' fuel' w',
        timeout' * 1000 <= clock w' - start' ->
        let r' := wait_loop fuel' env' config' id' timeout' start' w' in
        fst r' = fst r /\ last_line (snd r') <> last_line (snd r))
  /\ reads_apart (body line) (body query_failed_line) = true
  /\ (forall a u,
        reads_apart (body line)
          (Lit "Failed to get DAG run state: " :: error_text a u) = true)
  /\ reads_apart (body line) (body (timeout_line timeout)) = true.
Proof.
  intros req ex r line Hlt Hd Hst. subst r.
  rewrite (wait_loop_failed env airflow_config dag_run_id timeout start_time
             fuel w Hlt d Hd Hst).
  fold req. fold ex. fold line.
  cbn [fst snd]. rewrite last_line_put.
  split; [reflexivity|].
  split; [apply issued_since_app; reflexivity|].
  split; [reflexivity|]. split; [reflexivity|]. split; [reflexivity|].
  split; [|split; [|repeat split; reflexivity]].
  - intros env' config' id' timeout' start' fuel' w' Hlt' Herr. cbv zeta.
    rewrite (wait_loop_transport_error env' config' id' timeout' start'
               fuel' w' Hlt' Herr).
    cbn [fst snd]. rewrite last_line_put.
    split; [reflexivity | discriminate].
  - intros env' config' id' timeout' start' fuel' w' Hge'. cbv zeta.
    rewrite (wait_loop_expired env' config' id' timeout' start' fuel' w'
               Hge').
    cbn [fst snd]. rewrite last_line_put.
    split; [reflexivity | discriminate].
Qed.

Lemma failed_state_ends_polling_witness :
  let env := Scenario.network 100 (fun _ => Scenario.state_is "failed") true in
  let req := state_request Scenario.config Scenario.run_id in
  let r := wait_loop 5 env Scenario.config Scenario.run_id 10 0
                     Scenario.start in
  clock Scenario.start - 0 < 10 * 1000
  /\ json_object (answer (exchange env 0%nat req))
     = Some [("state", PStr "failed")]
  /\ dict_get "state" [("state", PStr "failed")] = Some (PStr "failed")
  /\ fst r = Ret false
  /\ issued_since Scenario.start (snd r) = [(0, req)]
  /\ last_line (snd r) = Some (run_failed_line 100).
Proof.
  cbv zeta.
  assert (H1 : clock Scenario.start - 0 < 10 * 1000) by reflexivity.
  assert (H2 : json_object
                 (answer
                    (exchange
                       (Scenario.network 100
                          (fun _ => Scenario.state_is "failed") true)
                       (List.length (sent Scenario.start))
                       (state_request Scenario.config Scenario.run_id)))
               = Some [("state", PStr "failed")]) by reflexivity.
  assert (H3 : dict_get "state" [("state", PStr "failed")]
               = Some (PStr "failed")) by reflexivity.
  destruct (failed_state_ends_polling _ Scenario.config Scenario.run_id
              10 0 4%nat Scenario.start _ H1 H2 H3)
    as (Hr & Hq & _ & Hl & _).
  apply (f_equal fst) in Hr. cbn [fst] in Hr.
  split_assumption.
Defined.

(** C3 as stated fails: the loop has no outcome kinds.  For a run reported
    failed, for a state query answered with status 500 and for a run that
    stays running up to the timeout, the wait returns the same [False]. *)
Lemma failed_run_returns_what_every_failure_returns :
  let failed := Scenario.network 100 (fun _ => Scenario.state_is "failed")
                  true in
  let broken := Scenario.network 100
                  (fun _ => Scenario.status 500 "INTERNAL SERVER ERROR")
                  true in
  let stuck := Scenario.network 100 (fun _ => Scenario.state_is "running")
                 true in
  let wait env :=
    fst (wait_for_completion env Scenario.config Scenario.run_id 10
           Scenario.start) in
  wait failed = Ret false
  /\ wait broken = wait failed
  /\ wait stuck = wait failed.
Proof.
  vm_compute. repeat split.
Qed.

(** C7, as amended.  There is no synthetic state and no count of
    consecutive occurrences.  In a polling loop in progress, a state query
    whose answer does not decode ends the loop after that single query:
    with [False] and the two error lines when the decoding error is a
    [RequestException], with the decoding error itself otherwise.  An
    answer without a "state" ends the loop with [False] as well.  Any
    state other than [None], "success" and "failed" (the string "unknown"
    among them) is non-terminal: it is written in the progress line of
    that iteration, and the loop sleeps two seconds and goes on. *)
Theorem undecodable_answer_ends_polling
    (env : Env) (airflow_config : AirflowConfig) (dag_run_id : pyval)
    (timeout start_time : Z) (fuel : nat) (w : World) :
  let req := state_request airflow_config dag_run_id in
  let ex := exchange env (List.length (sent w)) req in
  let loop n := wait_loop n env airflow_config dag_run_id timeout
                          start_time in
  let r := loop (S fuel) w in
  let w1 := exchanged (latency ex) req w in
  clock w - start_time < timeout * 1000 ->
  (undecodable (answer ex) = true ->
     issued_since w (snd r) = [(clock w, req)]
     /\ slept (snd r) = slept w
     /\ (json_error_is_request_exception env = true ->
         r = (Ret false,
              put_line query_failed_line
                (put_line
                   (mkLine Err [Lit "Failed to get DAG run state: ";
                                Lit "Expecting value"] None) w1)))
     /\ (json_error_is_request_exception env = false ->
         r = (Raise (mkExn StdJSONDecodeError [Lit "Expecting value"] None),
              w1)))
  /\ (forall d,
        json_object (answer ex) = Some d ->
        dict_get "state" d = None ->
        r = (Ret false, put_line query_failed_line w1))
  /\ (forall d state,
        json_object (answer ex) = Some d ->
        dict_get "state" d = Some state ->
        non_terminal state = true ->
        r = loop fuel
              (asleep 2
                 (put_line
                    (running_line state
                       (clock w + Z.of_N (latency ex) - start_time)) w1)))
  /\ non_terminal (PStr "unknown") = true.
Proof.
  intros req ex loop r w1 Hlt. subst r loop. cbv beta.
  rewrite wait_loop_step by exact Hlt.
  split; [|split; [|split]].
  - intros Hu. unfold undecodable in Hu.
    unfold get_dag_run_state, try_except, bind, request.
    fold req. fold ex. destruct (answer ex) as [f msg | r]; [discriminate|].
    apply andb_prop in Hu as [Hs Hj]. apply negb_true_iff in Hs.
    rewrite raise_for_status_ok by exact Hs.
    unfold json. cbn [resp_json].
    destruct (r_json r); [discriminate|].
    destruct (json_error_is_request_exception env); cbn.
    + split; [apply issued_since_app; reflexivity|].
      split; [reflexivity|]. split; [reflexivity | discriminate].
    + split; [apply issued_since_app; reflexivity|].
      split; [reflexivity|]. split; [discriminate | reflexivity].
  - intros d Hd Hst.
    rewrite (get_dag_run_state_object env airflow_config dag_run_id w d Hd).
    unfold field. rewrite Hst. reflexivity.
  - intros d state Hd Hst Hn.
    rewrite (get_dag_run_state_object env airflow_config dag_run_id w d Hd).
    unfold field. rewrite Hst.
    unfold non_terminal in Hn.
    apply andb_prop in Hn as [Hn Hf]. apply andb_prop in Hn as [Hn Hs].
    apply negb_true_iff in Hn, Hs, Hf. rewrite Hn, Hs, Hf. reflexivity.
  - reflexivity.
Qed.

Lemma undecodable_answer_ends_polling_witness :
  let env := Scenario.network 100 (fun _ => Scenario.garbled) true in
  let req := state_request Scenario.config Scenario.run_id in
  let r := wait_loop 5 env Scenario.config Scenario.run_id 10 0
                     Scenario.start in
  clock Scenario.start - 0 < 10 * 1000
  /\ undecodable (answer (exchange env 0%nat req)) = true
  /\ issued_since Scenario.start (snd r) = [(0, req)]
  /\ fst r = Ret false.
Proof.
  cbv zeta.
  assert (H1 : clock Scenario.start - 0 < 10 * 1000) by reflexivity.
  assert (H2 : undecodable
                 (answer
                    (exchange
                       (Scenario.network 100 (fun _ => Scenario.garbled) true)
                       (List.length (sent Scenario.start))
                       (state_request Scenario.config Scenario.run_id)))
               = true) by reflexivity.
  destruct (undecodable_answer_ends_polling
              (Scenario.network 100 (fun _ => Scenario.garbled) true)
              Scenario.config Scenario.run_id
              10 0 4%nat Scenario.start H1) as (Hu & _).
  destruct (Hu H2) as (Hq & _ & Hr & _).
  specialize (Hr eq_refl). apply (f_equal fst) in Hr.
  split_assumption.
Defined.

(** C7 as stated fails: when the first state query gets an answer that
    does not decode and the next one would report "success", the command
    stops after the first query and reports that the run did not complete
    (or, when the decoding error is no [RequestException], the error leaves
    the command).  The loop does not poll on. *)
Lemma undecodable_answer_is_not_polled_again :
  let queries k :=
    match k with
    | O => Scenario.garbled
    | S _ => Scenario.state_is "success"
    end in
  let run compat :=
    handle (Scenario.network 0 (Scenario.after_trigger queries) compat)
           (mkOptions true 10) Scenario.start in
  fst (run true) = Ret tt
  /\ List.length (sent (snd (run true))) = 2%nat
  /\ last (output (snd (run true))) query_failed_line
     = mkLine Err [Lit "DAG run did not complete successfully"] None
  /\ fst (run false)
     = Raise (mkExn StdJSONDecodeError [Lit "Expecting value"] None)
  /\ List.length (sent (snd (run false))) = 2%nat.
Proof.
  vm_compute. repeat split; reflexivity.
Qed.

(** ** The wait as a whole *)

Lemma wait_for_completion_unfold
    (env : Env) (airflow_config : AirflowConfig) (dag_run_id : pyval)
    (timeout : Z) (w : World) :
  wait_for_completion env airflow_config dag_run_id timeout w =
    wait_loop (max_polls timeout) env airflow_config dag_run_id timeout
              (clock w) (put_line (waiting_line timeout) w).
Proof. reflexivity. Qed.

Lemma max_polls_ceil (timeout : Z) :
  max_polls timeout = Z.to_nat (ceil_div timeout 2).
Proof. unfold max_polls, ceil_div. do 2 f_equal. lia. Qed.

Lemma max_polls_enough (timeout : Z) :
  timeout * 1000 <= 2000 * Z.of_nat (max_polls timeout).
Proof.
  unfold max_polls.
  destruct (Z_le_gt_dec timeout 0) as [H|H]; [lia|].
  assert (0 <= (timeout + 1) / 2) by (apply Z.div_pos; lia).
  rewrite Z2Nat.id by assumption.
  pose proof (Z.div_mod (timeout + 1) 2 ltac:(lia)).
  pose proof (Z.mod_pos_bound (timeout + 1) 2 ltac:(lia)).
  lia.
Qed.

(** The wait always comes to an end: the fuel it gives the loop is
    enough, whatever the network answers. *)
Lemma wait_for_completion_finishes
    (env : Env) (airflow_config : AirflowConfig) (dag_run_id : pyval)
    (timeout : Z) (w : World) :
  fst (wait_for_completion env airflow_config dag_run_id timeout w)
  <> Unfinished.
Proof.
  rewrite wait_for_completion_unfold.
  destruct (wait_loop_invariant env airflow_config dag_run_id timeout
              (clock w) (max_polls timeout)
              (put_line (waiting_line timeout) w))
    as (l & ls & _ & _ & _ & _ & _ & Hu).
  apply Hu. world_simpl. pose proof (max_polls_enough timeout). lia.
Qed.

(** Whatever the network answers, the wait only issues state queries for
    the run identifier it was given, each of them started before the
    deadline, and at most the ceiling of timeout / 2 of them. *)
Lemma wait_for_completion_queries
    (env : Env) (airflow_config : AirflowConfig) (dag_run_id : pyval)
    (timeout : Z) (w : World) :
  let r := wait_for_completion env airflow_config dag_run_id timeout w in
  exists l,
    sent (snd r) = (sent w ++ l)%list
    /\ Forall (fun tq => snd tq = state_request airflow_config dag_run_id
                        /\ clock w <= fst tq
                        /\ fst tq - clock w < timeout * 1000) l
    /\ (List.length l <= Z.to_nat (ceil_div timeout 2))%nat.
Proof.
  cbv zeta. rewrite wait_for_completion_unfold.
  destruct (wait_loop_invariant env airflow_config dag_run_id timeout
              (clock w) (max_polls timeout)
              (put_line (waiting_line timeout) w))
    as (l & ls & Hs & _ & Hf & _ & Hk & _).
  exists l. world_simpl. split; [exact Hs|]. split; [exact Hf|].
  rewrite <- max_polls_ceil. apply Hk.
  pose proof (max_polls_enough timeout). lia.
Qed.

(** C2, as amended.  When no state query ever reports a terminal state
    (every answer is a JSON object with a state other than "success" and
    "failed"), the wait returns [False] after the line
    "Timeout reached (<timeout>s)", at or after the deadline.  Every query
    starts before the deadline, the loop sleeps two seconds after each
    query, and the queries are at most the ceiling of timeout / 2; they
    are exactly that many when the exchanges take no time, and the wait
    then lasts two seconds per query. *)
Theorem never_terminal_times_out
    (env : Env) (airflow_config : AirflowConfig) (dag_run_id : pyval)
    (timeout : Z) (w : World) :
  let r := wait_for_completion env airflow_config dag_run_id timeout w in
  let queries := issued_since w (snd r) in
  (forall i q, pending (answer (exchange env i q)) = true) ->
  outcome r = (Ret false, Some (timeout_line timeout))
  /\ timeout * 1000 <= clock (snd r) - clock w
  /\ Forall (fun tq => snd tq = state_request airflow_config dag_run_id
                       /\ fst tq - clock w < timeout * 1000) queries
  /\ slept (snd r) = slept w + 2000 * Z.of_nat (List.length queries)
  /\ (List.length queries <= Z.to_nat (ceil_div timeout 2))%nat
  /\ ((forall i q, latency (exchange env i q) = 0%N) ->
      List.length queries = Z.to_nat (ceil_div timeout 2)
      /\ clock (snd r) - clock w = 2000 * Z.of_nat (List.length queries)).
Proof.
  intros r queries Hp.
  destruct (wait_for_completion_queries env airflow_config dag_run_id
              timeout w) as (l & Hs & Hf & Hk).
  fold r in Hs.
  assert (Hq : queries = l) by (apply issued_since_app; exact Hs).
  rewrite Hq. subst r. clear queries Hq.
  rewrite wait_for_completion_unfold in *.
  destruct (wait_loop_pending env airflow_config dag_run_id timeout
              (clock w) (max_polls timeout) Hp
              (put_line (waiting_line timeout) w))
    as (l' & ls & c & Hr & Hc & Hw & Hz).
  { world_simpl. pose proof (max_polls_enough timeout). lia. }
  rewrite Hr in *. world_simpl.
  apply app_inv_head in Hs. subst l'.
  split.
  { unfold outcome, last_line. cbn [fst snd output]. f_equal.
    rewrite !app_assoc, map_app. apply last_last. }
  split; [lia|].
  split; [eapply Forall_impl; [|exact Hf]; intros tq (? & ? & ?); auto|].
  split; [reflexivity|].
  split; [exact Hk|].
  intros H0. destruct (Hz H0) as [Hl Hc'].
  rewrite Hl.
  replace (timeout * 1000 - (clock w - clock w)) with (timeout * 1000) by lia.
  rewrite ceil_div_seconds. split; [reflexivity|].
  rewrite Hc', Hl.
  replace (timeout * 1000 - (clock w - clock w)) with (timeout * 1000) by lia.
  rewrite ceil_div_seconds. lia.
Qed.

Lemma never_terminal_times_out_witness :
  let env := Scenario.network 0 (fun _ => Scenario.state_is "running") true in
  let r := wait_for_completion env Scenario.config Scenario.run_id 10
                               Scenario.start in
  (forall i q, pending (answer (exchange env i q)) = true)
  /\ outcome r = (Ret false, Some (timeout_line 10))
  /\ List.length (issued_since Scenario.start (snd r))
     = Z.to_nat (ceil_div 10 2).
Proof.
  cbv zeta.
  assert (Hp : forall i q,
             pending
               (answer
                  (exchange
                     (Scenario.network 0
                        (fun _ => Scenario.state_is "running") true) i q))
             = true) by (intros; reflexivity).
  destruct (never_terminal_times_out _ Scenario.config Scenario.run_id 10
              Scenario.start Hp) as (Hr & _ & _ & _ & _ & Hz).
  destruct Hz as [Hl _]; [intros; reflexivity|].
  split_assumption.
Defined.

(** C2 as stated fails.  With state queries that take one second each and
    a deadline of 10 seconds, the wait issues 4 queries, not the
    ceiling of 10 / 2, and returns 12 seconds after its start.  Even with
    exchanges that take no time, a deadline of 5 seconds ends the wait
    after 6 seconds. *)
Lemma slow_queries_are_fewer :
  let slow := Scenario.network 1000 (fun _ => Scenario.state_is "running")
                               true in
  let fast := Scenario.network 0 (fun _ => Scenario.state_is "running")
                               true in
  let r := wait_for_completion slow Scenario.config Scenario.run_id 10
                               Scenario.start in
  let r' := wait_for_completion fast Scenario.config Scenario.run_id 5
                                Scenario.start in
  (forall i q, pending (answer (exchange slow i q)) = true)
  /\ fst r = Ret false
  /\ List.length (issued_since Scenario.start (snd r)) = 4%nat
  /\ ceil_div 10 2 = 5
  /\ clock (snd r) - clock Scenario.start = 12000
  /\ fst r' = Ret false
  /\ clock (snd r') - clock Scenario.start = 6000.
Proof.
  cbv zeta. split; [intros; reflexivity|].
  vm_compute. repeat split; reflexivity.
Qed.

(** ** The command *)

Section Trigger.

Variables (env : Env) (airflow_config : AirflowConfig).

Let req (w : World) := trigger_request airflow_config (clock w).
Let ex (w : World) := exchange env (List.length (sent w)) (req w).

Lemma trigger_dag_object (w : World) (d : list (string * pyval)) :
  json_object (answer (ex w)) = Some d ->
  trigger_dag env airflow_config w =
    (Ret (PDict d), exchanged (latency (ex w)) (req w) w).
Proof.
  unfold json_object, trigger_dag, try_except, bind, request, now.
  subst ex req; simpl.
  destruct (answer _) as [f msg | r]; [discriminate|].
  destruct (http_error_status (r_status r)) eqn:Est; [discriminate|].
  destruct (r_json r) as [[| | | | | |d']|] eqn:Ej; try discriminate.
  intros [= ->].
  rewrite raise_for_status_ok by exact Est.
  reflexivity.
Qed.

Lemma trigger_dag_transport_error (w : World) :
  transport_error (answer (ex w)) = true ->
  trigger_dag env airflow_config w =
    (Ret PNone,
     mkWorld (clock w + Z.of_N (latency (ex w)))
             (sent w ++ [(clock w, req w)])%list
             (output w
              ++ mkLine Err (Lit "Failed to trigger DAG: "
                               :: error_text (answer (ex w)) (url (req w)))
                        None
              :: response_lines (answer (ex w)))%list
             (slept w)).
Proof.
  unfold transport_error, trigger_dag, try_except, bind, request, now.
  subst ex req; simpl.
  destruct (answer _) as [f msg | r].
  - intros _. destruct f; reflexivity.
  - intros Est.
    pose proof Est as Est'. unfold http_error_status in Est'.
    apply andb_prop in Est' as [E4 E6].
    unfold raise_for_status, error_text; cbn [status_code reason resp_url].
    rewrite E4. cbn [andb].
    destruct (r_status r <? 500) eqn:E5.
    + cbn. unfold put_line; cbn. rewrite <- app_assoc. reflexivity.
    + assert ((500 <=? r_status r) = true) as -> by lia.
      rewrite E6. cbn. unfold put_line; cbn. rewrite <- app_assoc.
      reflexivity.
Qed.

(** Whatever the answer, the trigger issues exactly one request, and it
    returns a dict only when the answer delivers that JSON object. *)
Lemma trigger_dag_world (w : World) :
  exists r ls,
    trigger_dag env airflow_config w =
      (r, mkWorld (clock w + Z.of_N (latency (ex w)))
                  (sent w ++ [(clock w, req w)])%list
                  (output w ++ ls)%list (slept w))
    /\ r <> Unfinished
    /\ (forall d, r = Ret (PDict d) -> json_object (answer (ex w)) = Some d).
Proof.
  destruct (transport_error (answer (ex w))) eqn:Et.
  - rewrite (trigger_dag_transport_error w Et).
    eexists _, _. split; [reflexivity|]. split; discriminate.
  - unfold trigger_dag, try_except, bind, request, now.
    unfold json_object. subst ex req; simpl in *.
    destruct (answer _) as [f msg | r]; [discriminate|]. simpl in Et.
    rewrite raise_for_status_ok by exact Et. rewrite Et.
    unfold json; simpl.
    destruct (r_json r) as [v|].
    + exists (Ret v), []. rewrite app_nil_r.
      split; [reflexivity|]. split; [discriminate|].
      intros d [= ->]. reflexivity.
    + destruct (json_error_is_request_exception env); simpl.
      * eexists (Ret PNone), [_].
        split; [reflexivity|]. split; discriminate.
      * eexists (Raise _), []. rewrite app_nil_r.
        split; [reflexivity|]. split; discriminate.
Qed.

End Trigger.

Section Handle.

Variables (env : Env) (options : Options) (w : World).

Let airflow_config := TriggerSync.get_airflow_config env.
Let req := trigger_request airflow_config (clock w).
Let ex := exchange env (List.length (sent w)) req.

(** What [handle] does once [trigger_dag] has returned a truthy value. *)
Let proceed (dag_run : pyval) : M unit :=
  dag_run_id <- py_get dag_run "dag_run_id" ;;
  state <- py_get dag_run "state" ;;
  write (triggered_line dag_run_id) ;;
  write (state_line state) ;;
  write (view_line airflow_config dag_run_id) ;;
  if opt_wait options then
    success <- wait_for_completion env airflow_config dag_run_id
                 (opt_timeout options) ;;
    if negb success then write not_completed_line else ret tt
  else ret tt.

Lemma handle_unfold :
  handle env options w =
    match trigger_dag env airflow_config
            (put_line (triggering_line airflow_config) w) with
    | (Ret dag_run, w1) =>
        if negb (truthy dag_run) then
          (Ret tt, put_line not_triggered_line w1)
        else proceed dag_run w1
    | (Raise e, w1) => (Raise e, w1)
    | (Unfinished, w1) => (Unfinished, w1)
    end.
Proof.
  unfold handle. unfold bind at 1. unfold info at 1, write at 1.
  unfold bind at 1.
  change (put_line _ w) with (put_line (triggering_line airflow_config) w).
  destruct (trigger_dag _ _ _) as [[dag_run | e |] w1]; try reflexivity.
  destruct (truthy dag_run); reflexivity.
Qed.


(** A trigger that delivers a JSON object with at least one field: the
    command writes the three lines about the run, then waits if asked to,
    and adds one error line when the wait returns [False]. *)
Lemma handle_object (d : list (string * pyval)) :
  json_object (answer ex) = Some d ->
  d <> [] ->
  handle env options w =
    if opt_wait options then
      match wait_for_completion env airflow_config (field "dag_run_id" d)
              (opt_timeout options) (announced env w d) with
      | (Ret true, w') => (Ret tt, w')
      | (Ret false, w') => (Ret tt, put_line not_completed_line w')
      | (Raise e, w') => (Raise e, w')
      | (Unfinished, w') => (Unfinished, w')
      end
    else (Ret tt, announced env w d).
Proof.
  intros Hd Hne. rewrite handle_unfold.
  rewrite (trigger_dag_object env airflow_config
             (put_line (triggering_line airflow_config) w) d Hd).
  assert (Ht : truthy (PDict d) = true)
    by (destruct d; [contradiction|reflexivity]).
  rewrite Ht. cbn [negb].
  unfold proceed, py_get, py_get_default.
  unfold bind at 1. unfold ret at 1. unfold bind at 1. unfold ret at 1.
  fold (field "dag_run_id" d). fold (field "state" d).
  unfold bind at 1. unfold write at 1.
  unfold bind at 1. unfold write at 1.
  unfold bind at 1. unfold write at 1.
  change (put_line _ (put_line _ (put_line _ (exchanged _ _ _))))
    with (announced env w d).
  destruct (opt_wait options); [|reflexivity].
  unfold bind at 1.
  destruct (wait_for_completion env airflow_config (field "dag_run_id" d)
              (opt_timeout options) (announced env w d))
    as [[[|]| |] w']; reflexivity.
Qed.

End Handle.

(** The command always comes to an end: it returns, or an exception
    leaves it. *)
Lemma handle_finishes (env : Env) (options : Options) (w : World) :
  fst (handle env options w) <> Unfinished.
Proof.
  rewrite handle_unfold.
  set (airflow_config := TriggerSync.get_airflow_config env).
  destruct (trigger_dag_world env airflow_config
              (put_line (triggering_line airflow_config) w))
    as (r & ls & -> & Hr & _).
  destruct r as [v | e |]; [|discriminate|congruence].
  destruct (truthy v); cbn [negb]; [|discriminate].
  destruct v; try discriminate.
  unfold py_get, py_get_default.
  unfold bind at 1. unfold ret at 1. unfold bind at 1. unfold ret at 1.
  unfold bind at 1. unfold write at 1.
  unfold bind at 1. unfold write at 1.
  unfold bind at 1. unfold write at 1.
  destruct (opt_wait options); [|discriminate].
  unfold bind at 1.
  match goal with
  | |- context [wait_for_completion ?e ?c ?i ?t ?w1] =>
      pose proof (wait_for_completion_finishes e c i t w1) as Hf;
      destruct (wait_for_completion e c i t w1) as [[[|]| |] w2]
  end; cbn [fst] in *; try discriminate. congruence.
Qed.

(** C8.  Whatever the network answers, the requests of one run of the
    command are the trigger request followed by state queries only, and
    every state query is made for the value that the trigger's JSON
    object holds under "dag_run_id": each of them has the same url, ending
    in that very value. *)
Theorem run_identifier_is_kept
    (env : Env) (options : Options) (w : World) :
  let airflow_config := TriggerSync.get_airflow_config env in
  let req := trigger_request airflow_config (clock w) in
  let ex := exchange env (List.length (sent w)) req in
  exists l,
    sent (snd (handle env options w)) = (sent w ++ (clock w, req) :: l)%list
    /\ forall t q,
         In (t, q) l ->
         exists d,
           json_object (answer ex) = Some d
           /\ q = state_request airflow_config (field "dag_run_id" d)
           /\ url q = [Lit (cfg_url airflow_config); Lit "/api/v1/dags/";
                       Lit "opencve"; Lit "/dagRuns/";
                       Fmt (field "dag_run_id" d)].
Proof.
  intros airflow_config req ex.
  destruct (json_object (answer ex)) as [d|] eqn:Ed.
  - destruct d as [|kv d'].
    + exists []. split; [|intros t q []].
      rewrite handle_unfold. fold airflow_config.
      rewrite (trigger_dag_object env airflow_config
                 (put_line (triggering_line airflow_config) w) [] Ed).
      reflexivity.
    + rewrite (handle_object env options w (kv :: d') Ed) by discriminate.
      set (d := kv :: d') in *.
      destruct (opt_wait options).
      * destruct (wait_for_completion_queries env airflow_config
                    (field "dag_run_id" d) (opt_timeout options)
                    (announced env w d)) as (l & Hs & Hf & _).
        exists l. split.
        -- destruct (wait_for_completion _ _ _ _ _) as [[[|]| |] w'];
             cbn [snd fst] in *; unfold put_line; cbn [sent];
             rewrite Hs; unfold announced; world_simpl;
             rewrite <- app_assoc; reflexivity.
        -- intros t q Hin. exists d. split; [reflexivity|].
           rewrite Forall_forall in Hf. destruct (Hf _ Hin) as (Hq & _).
           cbn [snd] in Hq. subst q. split; reflexivity.
      * exists []. split; [reflexivity | intros t q []].
  - exists []. split; [|intros t q []].
    rewrite handle_unfold. fold airflow_config.
    destruct (trigger_dag_world env airflow_config
                (put_line (triggering_line airflow_config) w))
      as (r & ls & -> & _ & Hd).
    destruct r as [v | e |]; [|reflexivity|reflexivity].
    destruct (truthy v) eqn:Ev; [|reflexivity].
    cbn [negb].
    destruct v; try reflexivity.
    specialize (Hd _ eq_refl). world_simpl. fold airflow_config in Hd.
    fold req in Hd. fold ex in Hd. congruence.
Qed.


(** ** The admin view *)

Section Post.

Variables (env : Env) (username : string) (w : World).

Let airflow_config := Views.get_airflow_config env.
Let req := Views.trigger_request airflow_config username (clock w).
Let ex := exchange env (List.length (sent w)) req.

(** A trigger that delivers a JSON object: the view answers 200 with
    success, and with what the object holds under "dag_run_id" and
    "state". *)
Lemma post_object (d : list (string * pyval)) :
  json_object (answer ex) = Some d ->
  Views.post env username w =
    (Ret (Views.mkJsonResponse
            [("success", JBool true);
             ("message", JText [Lit "CVE sync triggered successfully"]);
             ("dag_run_id", JValue (field "dag_run_id" d));
             ("state", JValue (field "state" d));
             ("airflow_url",
              JText [Lit (cfg_url airflow_config); Lit "/dags/";
                     Lit Views.dag_id; Lit "/grid?dag_run_id=";
                     Fmt (field "dag_run_id" d)])]
            200),
     mkWorld (clock w + Z.of_N (latency ex))
             (sent w ++ [(clock w, req)])%list
             (output w
              ++ [mkLine Info [Lit "User "; Lit username;
                               Lit " triggering CVE sync DAG at ";
                               Lit (cfg_url airflow_config)] None;
                  mkLine Info [Lit "DAG run triggered successfully: ";
                               Fmt (field "dag_run_id" d); Lit " (state: ";
                               Fmt (field "state" d); Lit ")"] None])%list
             (slept w)).
Proof.
  unfold json_object, Views.post, try_except, bind, request, now,
    Views.logger_info, write.
  subst ex req airflow_config; simpl.
  destruct (answer _) as [f msg | r]; [discriminate|].
  destruct (http_error_status (r_status r)) eqn:Est; [discriminate|].
  destruct (r_json r) as [[| | | | | |d']|] eqn:Ej; try discriminate.
  intros [= ->].
  rewrite raise_for_status_ok by exact Est.
  unfold put_line; cbn. rewrite <- app_assoc. reflexivity.
Qed.

End Post.

(** ** The trigger answered 2xx *)

Lemma field_present (key : string) (d : list (string * pyval)) (v : pyval) :
  dict_get key d = Some v -> field key d = v /\ d <> [].
Proof.
  intros H. unfold field. rewrite H. split; [reflexivity|].
  intros ->. discriminate.
Qed.

(** C6, as amended.  When the trigger is answered with a JSON object that
    holds a run identifier and a state, and no wait is asked for, both
    the command and the view report that state and that run identifier
    as they are.  The trigger request, made with a timeout of 10 seconds,
    is the only request, and nothing sleeps.  No elapsed time is part of
    what is reported, and the time taken is the latency of that one
    exchange, whatever it is: nothing in the code bounds it by the
    transport timeout. *)
Theorem fire_and_forget_reports_initial_state
    (env : Env) (timeout : Z) (username : string) (w : World)
    (d : list (string * pyval)) (dag_run_id state : pyval) :
  dict_get "dag_run_id" d = Some dag_run_id ->
  dict_get "state" d = Some state ->
  (let airflow_config := TriggerSync.get_airflow_config env in
   let req := trigger_request airflow_config (clock w) in
   let ex := exchange env (List.length (sent w)) req in
   let r := handle env (mkOptions false timeout) w in
   json_object (answer ex) = Some d ->
   fst r = Ret tt
   /\ output (snd r) =
        (output w
         ++ [triggering_line airflow_config; triggered_line dag_run_id;
             state_line state; view_line airflow_config dag_run_id])%list
   /\ issued_since w (snd r) = [(clock w, req)]
   /\ timeout_s req = 10
   /\ slept (snd r) = slept w
   /\ clock (snd r) - clock w = Z.of_N (latency ex))
  /\ (let airflow_config := Views.get_airflow_config env in
      let req := Views.trigger_request airflow_config username (clock w) in
      let ex := exchange env (List.length (sent w)) req in
      let r := Views.post env username w in
      json_object (answer ex) = Some d ->
      exists response,
        fst r = Ret response
        /\ Views.js_status response = 200
        /\ Views.js_get "success" (Views.js_data response)
           = Some (JBool true)
        /\ Views.js_get "state" (Views.js_data response)
           = Some (JValue state)
        /\ Views.js_get "dag_run_id" (Views.js_data response)
           = Some (JValue dag_run_id)
        /\ issued_since w (snd r) = [(clock w, req)]
        /\ timeout_s req = 10
        /\ slept (snd r) = slept w
        /\ clock (snd r) - clock w = Z.of_N (latency ex)).
Proof.
  intros Hid Hst.
  destruct (field_present _ _ _ Hid) as [Fid Hne].
  destruct (field_present _ _ _ Hst) as [Fst _].
  split.
  - intros airflow_config req ex r Hd. subst r.
    rewrite (handle_object env (mkOptions false timeout) w d Hd Hne).
    cbn [opt_wait fst snd]. unfold announced.
    rewrite Fid, Fst. fold airflow_config. fold req. fold ex. world_simpl.
    split; [reflexivity|].
    split; [rewrite <- !app_assoc; reflexivity|].
    split; [apply issued_since_app; reflexivity|].
    split; [reflexivity|]. split; [reflexivity|].
    lia.
  - intros airflow_config req ex r Hd. subst r.
    rewrite (post_object env username w d Hd).
    rewrite Fid, Fst. cbn [fst snd]. eexists. split; [reflexivity|].
    cbn [Views.js_status Views.js_data sent slept clock].
    split; [reflexivity|]. split; [reflexivity|]. split; [reflexivity|].
    split; [reflexivity|].
    split; [apply issued_since_app; reflexivity|].
    split; [reflexivity|]. split; [reflexivity|].
    fold airflow_config. fold req. fold ex. lia.
Qed.

Lemma fire_and_forget_reports_initial_state_witness :
  let env := Scenario.network 40 (fun _ => Scenario.triggered) true in
  let d := [("dag_run_id", Scenario.run_id); ("state", PStr "queued")] in
  let r := handle env (mkOptions false 300) Scenario.start in
  dict_get "dag_run_id" d = Some Scenario.run_id
  /\ dict_get "state" d = Some (PStr "queued")
  /\ json_object
       (answer (exchange env 0%nat (trigger_request Scenario.config 0)))
     = Some d
  /\ fst r = Ret tt
  /\ output (snd r) =
       [triggering_line Scenario.config; triggered_line Scenario.run_id;
        state_line (PStr "queued");
        view_line Scenario.config Scenario.run_id]
  /\ slept (snd r) = 0.
Proof.
  cbv zeta.
  assert (H1 : dict_get "dag_run_id"
                 [("dag_run_id", Scenario.run_id); ("state", PStr "queued")]
               = Some Scenario.run_id) by reflexivity.
  assert (H2 : dict_get "state"
                 [("dag_run_id", Scenario.run_id); ("state", PStr "queued")]
               = Some (PStr "queued")) by reflexivity.
  destruct (fire_and_forget_reports_initial_state
              (Scenario.network 40 (fun _ => Scenario.triggered) true)
              300 "admin" Scenario.start _ _ _ H1 H2) as [Hc _].
  destruct (Hc eq_refl) as (Hr & Ho & _ & _ & Hs & _).
  split; [exact H1|]. split; [exact H2|]. split; [reflexivity|].
  split; [exact Hr|]. split; [exact Ho | exact Hs].
Defined.

(** C6 as stated fails: a trigger answered with a well-formed body after
    20 seconds is reported as a success by the command and by the view
    alike, 20 seconds after the start, that is later than the one
    transport timeout of 10 seconds; and neither reports an elapsed
    time. *)
Lemma slow_trigger_outlasts_the_timeout :
  let env := Scenario.network 20000 (fun _ => Scenario.triggered) true in
  let r := handle env (mkOptions false 300) Scenario.start in
  let v := Views.post env "admin" Scenario.start in
  fst r = Ret tt
  /\ last_line (snd r) = Some (view_line Scenario.config Scenario.run_id)
  /\ clock (snd r) - clock Scenario.start = 20000
  /\ (exists response,
        fst v = Ret response
        /\ Views.js_status response = 200
        /\ map fst (Views.js_data response)
           = ["success"; "message"; "dag_run_id"; "state"; "airflow_url"])
  /\ clock (snd v) - clock Scenario.start = 20000
  /\ Forall (fun tq => timeout_s (snd tq) = 10)
            (sent (snd r) ++ sent (snd v))
  /\ 10 * 1000 < 20000.
Proof.
  vm_compute.
  split; [reflexivity|]. split; [reflexivity|]. split; [reflexivity|].
  split; [eexists; repeat split|].
  split; [reflexivity|]. split; [repeat constructor | reflexivity].
Qed.

(** C5, as amended.  A trigger answered with a JSON object that lacks
    "dag_run_id" is not turned into an error: the view answers 200 with
    success and a null run identifier, and the command (when the object
    has some field, and no wait is asked for) writes
    "DAG run triggered: None" and returns without any error line. *)
Theorem missing_run_identifier_is_accepted
    (env : Env) (timeout : Z) (username : string) (w : World)
    (d : list (string * pyval)) :
  dict_get "dag_run_id" d = None ->
  (let airflow_config := TriggerSync.get_airflow_config env in
   let req := trigger_request airflow_config (clock w) in
   let ex := exchange env (List.length (sent w)) req in
   let r := handle env (mkOptions false timeout) w in
   json_object (answer ex) = Some d ->
   d <> [] ->
   fst r = Ret tt
   /\ output (snd r) =
        (output w
         ++ [triggering_line airflow_config; triggered_line PNone;
             state_line (field "state" d);
             view_line airflow_config PNone])%list)
  /\ (let airflow_config := Views.get_airflow_config env in
      let req := Views.trigger_request airflow_config username (clock w) in
      let ex := exchange env (List.length (sent w)) req in
      let r := Views.post env username w in
      json_object (answer ex) = Some d ->
      exists response,
        fst r = Ret response
        /\ Views.js_status response = 200
        /\ Views.js_get "success" (Views.js_data response)
           = Some (JBool true)
        /\ Views.js_get "dag_run_id" (Views.js_data response)
           = Some (JValue PNone)).
Proof.
  intros Hid.
  assert (Fid : field "dag_run_id" d = PNone)
    by (unfold field; rewrite Hid; reflexivity).
  split.
  - intros airflow_config req ex r Hd Hne. subst r.
    rewrite (handle_object env (mkOptions false timeout) w d Hd Hne).
    cbn [opt_wait fst snd]. unfold announced.
    rewrite Fid. fold airflow_config. world_simpl.
    split; [reflexivity|]. rewrite <- !app_assoc. reflexivity.
  - intros airflow_config req ex r Hd. subst r.
    rewrite (post_object env username w d Hd).
    rewrite Fid. cbn [fst snd]. eexists. split; [reflexivity|].
    repeat split.
Qed.

Lemma missing_run_identifier_is_accepted_witness :
  let env := Scenario.network 0 (fun _ => Scenario.state_is "queued") true in
  let r := Views.post env "admin" Scenario.start in
  dict_get "dag_run_id" [("state", PStr "queued")] = None
  /\ exists response,
       fst r = Ret response
       /\ Views.js_status response = 200
       /\ Views.js_get "success" (Views.js_data response) = Some (JBool true)
       /\ Views.js_get "dag_run_id" (Views.js_data response)
          = Some (JValue PNone).
Proof.
  cbv zeta.
  assert (H : dict_get "dag_run_id" [("state", PStr "queued")] = None)
    by reflexivity.
  destruct (missing_run_identifier_is_accepted
              (Scenario.network 0 (fun _ => Scenario.state_is "queued") true)
              300 "admin" Scenario.start _ H) as [_ Hv].
  split; [exact H|]. exact (Hv eq_refl).
Defined.

(** C5 as stated fails: answered 201 with the body {"state": "queued"},
    the view returns a success (status 200, "success": true) whose run
    identifier is null, and the command writes no error line. *)
Lemma missing_run_identifier_is_no_error :
  let accepted :=
    Answers (mkReply 201 "Created" ""
               (Some (PDict [("state", PStr "queued")]))) in
  let env := Scenario.network 0 (fun _ => accepted) true in
  fst (Views.post env "admin" Scenario.start)
  = Ret (Views.mkJsonResponse
           [("success", JBool true);
            ("message", JText [Lit "CVE sync triggered successfully"]);
            ("dag_run_id", JValue PNone);
            ("state", JValue (PStr "queued"));
            ("airflow_url",
             JText [Lit "http://airflow-webserver:8080"; Lit "/dags/";
                    Lit "opencve"; Lit "/grid?dag_run_id="; Fmt PNone])]
           200)
  /\ fst (handle env (mkOptions false 300) Scenario.start) = Ret tt
  /\ existsb (fun l => match lvl l with Err => true | _ => false end)
       (output (snd (handle env (mkOptions false 300) Scenario.start)))
     = false.
Proof.
  vm_compute. repeat split; reflexivity.
Qed.

(** ** The webhook test server *)

Section Preserves.

Context {S : Type} (f : S -> nat).

Ltac by_cases v :=
  intros s; destruct v; (split; [reflexivity | discriminate]).

Lemma preserves_ret {A} (a : A) : preserves f (@ret S A a).
Proof. intros s. split; [reflexivity | discriminate]. Qed.

Lemma preserves_raise {A} (e : exn) : preserves f (@raise S A e).
Proof. intros s. split; [reflexivity | discriminate]. Qed.

Lemma preserves_bind {A B} (m : ST S A) (k : A -> ST S B) :
  preserves f m -> (forall a, preserves f (k a)) -> preserves f (bind m k).
Proof.
  intros Hm Hk s. unfold bind. destruct (Hm s) as [Hf Hu].
  destruct (m s) as [[a | e |] s']; cbn [fst snd] in *.
  - destruct (Hk a s') as [Hf' Hu']. split; congruence.
  - split; [assumption | discriminate].
  - congruence.
Qed.

Lemma preserves_try_except {A} (m : ST S A) (handles : exc_class -> bool)
    (handler : exn -> ST S A) :
  preserves f m -> (forall e, preserves f (handler e)) ->
  preserves f (try_except m handles handler).
Proof.
  intros Hm Hh s. unfold try_except. destruct (Hm s) as [Hf Hu].
  destruct (m s) as [[a | e |] s']; cbn [fst snd] in *.
  - split; [assumption | discriminate].
  - destruct (handles (e_class e)); cbn [fst snd].
    + destruct (Hh e s') as [Hf' Hu']. split; congruence.
    + split; [assumption | discriminate].
  - congruence.
Qed.

Lemma preserves_type_error {A} (msg : text) :
  preserves f (@type_error S A msg).
Proof. intros s. split; [reflexivity | discriminate]. Qed.

Lemma preserves_mapM {A B} (g : A -> ST S B) (l : list A) :
  (forall a, preserves f (g a)) -> preserves f (mapM g l).
Proof.
  intros Hg. induction l as [|a l IH]; cbn [mapM].
  - apply preserves_ret.
  - apply preserves_bind; [apply Hg|]. intros b.
    apply preserves_bind; [exact IH|]. intros bs. apply preserves_ret.
Qed.

Lemma preserves_py_get_default (v : pyval) (key : string) (default : pyval) :
  preserves f (@py_get_default S v key default).
Proof. by_cases v. Qed.

Lemma preserves_py_get (v : pyval) (key : string) :
  preserves f (@py_get S v key).
Proof. apply preserves_py_get_default. Qed.

Lemma preserves_py_iter (v : pyval) : preserves f (@py_iter S v).
Proof. by_cases v. Qed.

Lemma preserves_py_len (v : pyval) : preserves f (@py_len S v).
Proof. by_cases v. Qed.

Lemma preserves_py_ge (v : pyval) (c c_bits : Z) :
  preserves f (@py_ge S v c c_bits).
Proof. by_cases v. Qed.

Lemma preserves_py_slice_plus_str (v : pyval) (n : nat) (suffix : string) :
  preserves f (@py_slice_plus_str S v n suffix).
Proof. by_cases v. Qed.

Lemma preserves_format_1f (v : pyval) : preserves f (@format_1f S v).
Proof.
  intros s. unfold format_1f.
  destruct v; try (split; [reflexivity | discriminate]).
  destruct (Z.abs z <? 2 ^ 1024 - 2 ^ 970);
    (split; [reflexivity | discriminate]).
Qed.

Lemma preserves_py_join (sep : string) (v : pyval) :
  preserves f (@py_join S sep v).
Proof.
  assert (H : preserves f
                (items <- @py_iter S v ;;
                 match all_strs items with
                 | Some l => ret (String.concat sep l)
                 | None =>
                     type_error [Lit "sequence item: expected str instance"]
                 end)).
  { apply preserves_bind; [apply preserves_py_iter|].
    intros items. destruct (all_strs items);
      [apply preserves_ret | apply preserves_type_error]. }
  destruct v; try exact H; apply preserves_type_error.
Qed.

End Preserves.

Create HintDb preserve.
#[export] Hint Resolve preserves_ret preserves_raise preserves_type_error
  preserves_py_get_default
  preserves_py_get preserves_py_iter preserves_py_len preserves_py_ge
  preserves_py_slice_plus_str preserves_py_join preserves_format_1f
  : preserve.

Ltac preserve :=
  repeat first
    [ solve [auto with preserve]
    | apply preserves_bind; [|intro]
    | apply preserves_mapM; intro
    | match goal with
      | |- preserves _ (if ?b then _ else _) => destruct b
      | |- preserves _ (match ?x with _ => _ end) => destruct x
      end ].

Section Formatting.

Context {S : Type} (f : S -> nat).

Lemma preserves_get_severity_color (score : pyval) :
  preserves f (@WebhookServer.get_severity_color S score).
Proof. unfold WebhookServer.get_severity_color. preserve. Qed.

Lemma preserves_format_event (event : pyval) :
  preserves f (@WebhookServer.format_event S event).
Proof. unfold WebhookServer.format_event. preserve. Qed.

Lemma preserves_format_change (idx : Z) (change : pyval) :
  preserves f (@WebhookServer.format_change S idx change).
Proof.
  unfold WebhookServer.format_change.
  pose proof preserves_get_severity_color.
  pose proof preserves_format_event.
  preserve.
Qed.

Lemma preserves_format_changes (changes : list pyval) :
  forall idx, preserves f (@WebhookServer.format_changes S idx changes).
Proof.
  induction changes as [|change rest IH]; intros idx;
    cbn [WebhookServer.format_changes].
  - apply preserves_ret.
  - pose proof preserves_format_change. preserve.
Qed.

(** Formatting an alert reads the payload only: it may raise, but it
    leaves the server as it is. *)
Lemma preserves_format_cve_alert (payload : pyval) :
  preserves f (@WebhookServer.format_cve_alert S payload).
Proof.
  unfold WebhookServer.format_cve_alert.
  pose proof preserves_format_changes.
  preserve.
Qed.

End Formatting.

Import WebhookServer.

Lemma bind_ret {S A B} (a : A) (k : A -> ST S B) : bind (ret a) k = k a.
Proof. reflexivity. Qed.

Lemma preserves_emit (e : wire_event) : preserves received_count (emit e).
Proof. intros s. split; [reflexivity | discriminate]. Qed.

Lemma preserves_print (ls : list text) : preserves received_count (print ls).
Proof. intros s. split; [reflexivity | discriminate]. Qed.

Lemma preserves_get_received_count :
  preserves received_count get_received_count.
Proof. intros s. split; [reflexivity | discriminate]. Qed.

Lemma preserves_print_alert (ok : bool) (alert : list text) :
  preserves received_count (print_alert ok alert).
Proof. intros s. destruct ok; split; (reflexivity || discriminate). Qed.

Lemma preserves_save (ok : bool) (filename : string) (payload : pyval) :
  preserves received_count (save ok filename payload).
Proof. intros s. destruct ok; split; (reflexivity || discriminate). Qed.

#[export] Hint Resolve preserves_emit preserves_print
  preserves_print_alert
  preserves_get_received_count preserves_save preserves_format_cve_alert
  : preserve.

Lemma preserves_log_message (req : Request) (message : text) :
  preserves received_count (log_message req message).
Proof. apply preserves_print. Qed.

#[export] Hint Resolve preserves_log_message : preserve.

Lemma preserves_send_response (req : Request) (code : Z) :
  preserves received_count (send_response req code).
Proof. unfold send_response. preserve. Qed.

Lemma preserves_send_error (req : Request) (code : Z) (message : text) :
  preserves received_count (send_error req code message).
Proof. unfold send_error. preserve. Qed.

Lemma preserves_rfile_read (req : Request) (n : Z) :
  preserves received_count (rfile_read req n).
Proof. unfold rfile_read. preserve. Qed.

#[export] Hint Resolve preserves_send_response preserves_send_error
  preserves_rfile_read : preserve.

Lemma preserves_send_json (req : Request) (code : Z)
    (d : list (string * jvalue)) :
  preserves received_count (send_json req code d).
Proof. unfold send_json. preserve. Qed.

#[export] Hint Resolve preserves_send_json : preserve.

(** A GET never touches the counter. *)
Lemma preserves_do_GET (req : Request) : preserves received_count (do_GET req).
Proof.
  unfold do_GET. destruct (String.eqb (req_path req) "/health").
  - preserve.
  - apply preserves_bind; [preserve|]. intros _.
    apply preserves_bind; [preserve|]. intros _.
    apply preserves_bind; [preserve|]. intros _.
    intros s. split; [reflexivity | discriminate].
Qed.

(** Once the counter is incremented, whatever follows in the [try] block
    and in its handlers leaves it incremented, and comes to an end. *)
Lemma incremented_stays {A} (rest : ST Server A)
    (handles : exc_class -> bool) (handler : exn -> ST Server A)
    (s : Server) :
  preserves received_count rest ->
  (forall e, preserves received_count (handler e)) ->
  let r := try_except (bind increment_received_count (fun _ => rest))
                      handles handler s in
  received_count (snd r) = S (received_count s) /\ fst r <> Unfinished.
Proof.
  intros Hr Hh. cbv zeta.
  unfold try_except, bind, increment_received_count.
  match goal with
  | |- context [rest ?s1] =>
      destruct (Hr s1) as [Hc Hu]; destruct (rest s1) as [[a | e |] s2]
  end; cbn [fst snd received_count] in *; try congruence.
  - split; [lia | discriminate].
  - destruct (handles (e_class e)); cbn [fst snd].
    + destruct (Hh e s2) as [Hc' Hu']. split; [lia | assumption].
    + split; [lia | discriminate].
Qed.

(** After the headers, [do_POST] on /webhook comes down to its [try]
    statement on the body read; when nothing is read, an exception leaves
    it before the [try].  Until then only the terminal may have changed. *)
Lemma do_POST_read (req : Request) (s : Server) :
  String.eqb (req_path req) "/webhook" = true ->
  exists s1 : Server,
    same_but_terminal s s1
    /\ match read_body req with
       | Some body => do_POST req s = process_webhook req body s1
       | None => exists e, do_POST req s = (Raise e, s1)
       end.
Proof.
  intros Hp. unfold do_POST, read_body. rewrite Hp. cbn [negb]. cbv zeta.
  assert (Ha : exists s1, print_authorization req s = (Ret tt, s1)
                          /\ same_but_terminal s s1).
  { unfold print_authorization.
    destruct (authorization req) as [a|];
      [destruct (negb (String.eqb a ""))|];
      eexists; (split; [reflexivity|]); repeat split. }
  destruct Ha as (s1 & Ha & Hs). exists s1. split; [exact Hs|].
  assert (Hdo : forall k : unit -> ST Server unit,
             bind (print_authorization req) k s = k tt s1).
  { intros k. unfold bind. rewrite Ha. reflexivity. }
  rewrite !Hdo.
  assert (Hread : forall n : Z,
             match
               (if (n <? -1) || (sys_maxsize <? n) then None
                else match read_error req n with
                     | Some _ => None
                     | None => Some (body_read req n)
                     end)
             with
             | Some body =>
                 bind (rfile_read req n)
                      (fun _ => process_webhook req (body_read req n)) s1
                 = process_webhook req body s1
             | None =>
                 exists e,
                   bind (rfile_read req n)
                        (fun _ => process_webhook req (body_read req n)) s1
                   = (Raise e, s1)
             end).
  { intros n. unfold bind, rfile_read.
    destruct (n <? -1); cbn [orb]; [eexists; reflexivity|].
    destruct (sys_maxsize <? n); [eexists; reflexivity|].
    destruct (read_error req n); [eexists; reflexivity | reflexivity]. }
  destruct (content_length req) as [|n|]; rewrite ?bind_ret; cbv beta.
  - apply Hread.
  - apply Hread.
  - eexists. reflexivity.
Qed.

(** The handlers of the [try] statement leave the counter as it is. *)
Lemma preserves_process_handler (req : Request) (e : exn) :
  preserves received_count
    (if is_JSONDecodeError (e_class e) then
       print [[Lit Color_RED; Lit cross_mark; Lit " Error: Invalid JSON";
               Lit Color_END];
              Lit "   " :: e_str e] ;;
       send_json req 400 [("error", JText [Lit "Invalid JSON"])]
     else
       print [[Lit Color_RED; Lit cross_mark;
               Lit " Error processing webhook:"; Lit Color_END];
              Lit "   " :: e_str e] ;;
       send_json req 500 [("error", JText (e_str e))]).
Proof. destruct (is_JSONDecodeError (e_class e)); preserve. Qed.

(** What the [try] statement does to the counter: one more exactly when
    [json.loads] returned; the statement comes to an end. *)
Lemma process_webhook_count (req : Request) (body : Decoded) (s : Server) :
  received_count (snd (process_webhook req body s))
  = (received_count s
     + match body with Parsed _ => 1 | _ => 0 end)%nat
  /\ fst (process_webhook req body s) <> Unfinished.
Proof.
  unfold process_webhook.
  assert (Hraise : forall (e : exn) (k : pyval -> ST Server unit)
                          (h : exn -> ST Server unit),
             (forall e', preserves received_count (h e')) ->
             received_count
               (snd (try_except (bind (raise e) k) (fun _ => true) h s))
             = (received_count s + 0)%nat
             /\ fst (try_except (bind (raise e) k) (fun _ => true) h s)
                <> Unfinished).
  { intros e k h Hh. unfold try_except, bind, raise.
    destruct (Hh e s) as [H1 H2]. split; [lia | assumption]. }
  destruct body as [| | | |payload]; cbn [json_loads];
    try (apply Hraise; intros e'; apply preserves_process_handler).
  rewrite bind_ret.
  match goal with
  | |- context [try_except (bind increment_received_count
                              (fun _ => ?rest)) ?hs ?h s] =>
      destruct (incremented_stays rest hs h s) as [H1 H2];
        [preserve | intros e'; apply preserves_process_handler |]
  end.
  cbv zeta in H1, H2. split; [lia | exact H2].
Qed.

(** What goes back for a body that [json.loads] does not return from: 400
    for text that is no JSON, 500 otherwise.  Nothing is counted or
    saved. *)
Lemma process_webhook_unparsed (req : Request) (body : Decoded)
    (s : Server) :
  (forall payload, body <> Parsed payload) ->
  let r := process_webhook req body s in
  fst r = Ret tt
  /\ wire (snd r)
     = (wire s
        ++ [SendResponse match body with BadJSON => 400 | _ => 500 end;
            SendHeader "Content-type" "application/json"; EndHeaders;
            WriteJson
              [("error",
                JText match body with
                      | BadJSON => [Lit "Invalid JSON"]
                      | BadUnicode =>
                          [Lit "'utf-8' codec can't decode byte"]
                      | TooDeep => [Lit "maximum recursion depth exceeded"]
                      | _ =>
                          [Lit "Exceeds the limit for integer string conversion"]
                      end)]])%list
  /\ received_count (snd r) = received_count s
  /\ files (snd r) = files s.
Proof.
  intros Hn. destruct body as [| | | |payload];
    [| | | |destruct (Hn payload eq_refl)];
    cbn; rewrite <- !app_assoc; repeat split.
Qed.

(** What one POST does to the counter; the handler comes to an end. *)
Lemma do_POST_count (req : Request) (s : Server) :
  received_count (snd (do_POST req s))
  = (received_count s
     + (if String.eqb (req_path req) "/webhook"
           && match parsed_payload req with Some _ => true | None => false end
        then 1 else 0))%nat
  /\ fst (do_POST req s) <> Unfinished.
Proof.
  destruct (String.eqb (req_path req) "/webhook") eqn:Ep; cbn [andb].
  - destruct (do_POST_read req s Ep) as (s1 & (Hc & _) & Hm).
    unfold parsed_payload.
    destruct (read_body req) as [body|].
    + rewrite Hm.
      destruct (process_webhook_count req body s1) as [H1 H2].
      split; [|exact H2]. rewrite H1, Hc. destruct body; reflexivity.
    + destruct Hm as (e & ->). cbn [fst snd].
      split; [lia | discriminate].
  - unfold do_POST. rewrite Ep. cbn [negb].
    destruct (preserves_send_json req 404
                [("error", JText [Lit "Not found"])] s) as [H1 H2].
    split; [lia | exact H2].
Qed.

Lemma answered_since_app (s s' : Server) (l : list wire_event) :
  wire s' = (wire s ++ l)%list -> answered_since s s' = status_codes l.
Proof.
  intros H. unfold answered_since. rewrite H.
  rewrite skipn_app, skipn_all, Nat.sub_diag. reflexivity.
Qed.

(** What one request does to the counter: [handle_one_request] always
    returns, and the counter goes up by one exactly for a POST to /webhook
    whose body parses. *)
Lemma handle_one_request_count (req : Request) (s : Server) :
  fst (handle_one_request req s) = Ret tt
  /\ received_count (snd (handle_one_request req s))
     = (received_count s + (if is_webhook_delivery req then 1 else 0))%nat.
Proof.
  unfold handle_one_request, is_webhook_delivery, try_except.
  assert (Hout : forall (m : ST Server unit) (n : nat),
             received_count (snd (m s)) = (received_count s + n)%nat ->
             fst (m s) <> Unfinished ->
             fst (match m s with
                  | (Raise e, s') =>
                      print [[Lit "Exception occurred during processing of request"];
                             e_str e] s'
                  | other => other
                  end) = Ret tt
             /\ received_count
                  (snd (match m s with
                        | (Raise e, s') =>
                            print [[Lit "Exception occurred during processing of request"];
                                   e_str e] s'
                        | other => other
                        end)) = (received_count s + n)%nat).
  { intros m n Hc Hu. destruct (m s) as [[[] | e |] s']; cbn [fst snd] in *.
    - split; [reflexivity | assumption].
    - split; [reflexivity | assumption].
    - congruence. }
  destruct (req_command req).
  - destruct (preserves_do_GET req s) as [Hc Hu].
    apply Hout; [lia | exact Hu].
  - destruct (do_POST_count req s) as [Hc Hu].
    apply Hout; [exact Hc | exact Hu].
  - destruct (preserves_send_error req 501
                [Lit "Unsupported method ('"; Lit name; Lit "')"] s)
      as [Hc Hu].
    apply Hout; [lia | exact Hu].
Qed.

(** What [handle_one_request] adds around the handler changes nothing of
    what goes back to the client. *)
Lemma handle_one_request_wire (req : Request) (s : Server) :
  wire (snd (handle_one_request req s))
  = wire (snd (match req_command req with
               | CmdGET => do_GET req
               | CmdPOST => do_POST req
               | CmdOther name =>
                    send_error req 501
                      [Lit "Unsupported method ('"; Lit name; Lit "')"]
               end s)).
Proof.
  unfold handle_one_request, try_except.
  destruct (match req_command req with
            | CmdGET => do_GET req
            | CmdPOST => do_POST req
            | CmdOther name =>
                    send_error req 501
                      [Lit "Unsupported method ('"; Lit name; Lit "')"]
            end s) as [[[] | e |] s1]; reflexivity.
Qed.

Ltac wire_codes :=
  erewrite answered_since_app
    by (cbn; rewrite <- ?app_assoc;
        first [reflexivity | symmetry; apply app_nil_r]).

(** A POST that is no delivery is not answered 200. *)
Lemma rejected_post_is_not_answered_200 (req : Request) (s : Server) :
  req_command req = CmdPOST ->
  is_webhook_delivery req = false ->
  let codes := answered_since s (snd (handle_one_request req s)) in
  (String.eqb (req_path req) "/webhook" = false -> codes = [404])
  /\ (String.eqb (req_path req) "/webhook" = true ->
      read_body req = Some BadJSON -> codes = [400])
  /\ (String.eqb (req_path req) "/webhook" = true ->
      read_body req = None -> codes = [])
  /\ ~ In 200 codes.
Proof.
  intros Hc Hd. cbv zeta. unfold answered_since.
  rewrite handle_one_request_wire, Hc.
  fold (answered_since s (snd (do_POST req s))).
  unfold is_webhook_delivery, parsed_payload in Hd. rewrite Hc in Hd.
  destruct (String.eqb (req_path req) "/webhook") eqn:Ep; cbn [andb] in Hd.
  - split; [discriminate|].
    destruct (do_POST_read req s Ep) as (s1 & (_ & _ & Hw & _) & Hm).
    destruct (read_body req) as [body|].
    + rewrite Hm.
      destruct (process_webhook_unparsed req body s1) as (_ & Hwire & _).
      { intros payload ->. discriminate Hd. }
      rewrite <- Hw in Hwire.
      rewrite (answered_since_app _ _ _ Hwire). cbn [status_codes].
      split; [intros _ [= ->]; reflexivity|].
      split; [intros _ H; discriminate H|].
      destruct body; cbn; intuition discriminate.
    + destruct Hm as (e & ->). cbn [snd].
      unfold answered_since. rewrite <- Hw, skipn_all. cbn.
      split; [intros _ H; discriminate H|].
      split; [reflexivity | intros []].
  - unfold do_POST. rewrite Ep. cbn [negb].
    split; [intros _|split; [discriminate|split; [discriminate|]]].
    + wire_codes. reflexivity.
    + wire_codes. cbn. intuition discriminate.
Qed.

(** C10, as amended.  Every request is handled to its end.  The counter
    goes up by exactly one when the request is a POST to /webhook whose
    body is read and parsed: the Content-Length is an integer that
    [self.rfile.read] accepts, the read returns, and [json.loads] returns
    a value.  It stays as it is for every other request: a POST to
    another path (answered 404), a body that is not JSON (answered 400),
    a body that is not read (no response at all), a GET.  Over any
    sequence of requests the counter never decreases and equals its first
    value plus the number of such POSTs, whether or not what follows the
    parsing (formatting the alert, saving the file) succeeds; a POST that
    is not counted is never answered 200. *)
Theorem counter_counts_parsed_deliveries :
  (forall (req : Request) (s : Server),
     let r := handle_one_request req s in
     fst r = Ret tt
     /\ received_count (snd r)
        = (received_count s + (if is_webhook_delivery req then 1 else 0))%nat
     /\ (is_webhook_delivery req = true <->
         req_command req = CmdPOST
         /\ String.eqb (req_path req) "/webhook" = true
         /\ exists payload, read_body req = Some (Parsed payload))
     /\ (req_command req = CmdPOST ->
         String.eqb (req_path req) "/webhook" = false ->
         answered_since s (snd r) = [404]
         /\ received_count (snd r) = received_count s)
     /\ (req_command req = CmdPOST ->
         String.eqb (req_path req) "/webhook" = true ->
         read_body req = Some BadJSON ->
         answered_since s (snd r) = [400]
         /\ received_count (snd r) = received_count s)
     /\ (req_command req = CmdPOST ->
         String.eqb (req_path req) "/webhook" = true ->
         read_body req = None ->
         answered_since s (snd r) = []
         /\ received_count (snd r) = received_count s)
     /\ (req_command req = CmdPOST ->
         is_webhook_delivery req = false ->
         ~ In 200 (answered_since s (snd r))))
  /\ (forall (reqs : list Request) (s : Server),
        let r := serve_forever reqs s in
        fst r = Ret tt
        /\ received_count (snd r)
           = (received_count s
              + List.length (filter is_webhook_delivery reqs))%nat
        /\ (received_count s <= received_count (snd r))%nat).
Proof.
  split.
  - intros req s r. subst r.
    destruct (handle_one_request_count req s) as [Hr Hc].
    split; [exact Hr|]. split; [exact Hc|].
    split; [|split; [|split; [|split]]].
    + unfold is_webhook_delivery, parsed_payload.
      destruct (req_command req);
        try (split; [discriminate | intros (H & _); discriminate H]).
      destruct (String.eqb (req_path req) "/webhook"); cbn [andb];
        [|split; [discriminate | intros (_ & H & _); discriminate H]].
      destruct (read_body req) as [[| | | |payload]|];
        try (split; [discriminate | intros (_ & _ & p & H); discriminate H]).
      split; [intros _; repeat split; exists payload; reflexivity
             | reflexivity].
    + intros Hp Hpath.
      assert (Hd : is_webhook_delivery req = false)
        by (unfold is_webhook_delivery; rewrite Hp, Hpath; reflexivity).
      destruct (rejected_post_is_not_answered_200 req s Hp Hd) as (H404 & _).
      split; [exact (H404 Hpath)|]. rewrite Hc, Hd. lia.
    + intros Hp Hpath Hb.
      assert (Hd : is_webhook_delivery req = false).
      { unfold is_webhook_delivery, parsed_payload.
        rewrite Hp, Hpath, Hb. reflexivity. }
      destruct (rejected_post_is_not_answered_200 req s Hp Hd)
        as (_ & H400 & _).
      split; [exact (H400 Hpath Hb)|]. rewrite Hc, Hd. lia.
    + intros Hp Hpath Hb.
      assert (Hd : is_webhook_delivery req = false).
      { unfold is_webhook_delivery, parsed_payload.
        rewrite Hp, Hpath, Hb. reflexivity. }
      destruct (rejected_post_is_not_answered_200 req s Hp Hd)
        as (_ & _ & Hnone & _).
      split; [exact (Hnone Hpath Hb)|]. rewrite Hc, Hd. lia.
    + intros Hp Hd.
      destruct (rejected_post_is_not_answered_200 req s Hp Hd)
        as (_ & _ & _ & H).
      exact H.
  - intros reqs. induction reqs as [|req rest IH]; intros s r; subst r.
    + cbn. split; [reflexivity|]. split; lia.
    + cbn [serve_forever filter]. unfold bind.
      destruct (handle_one_request_count req s) as [Hr Hc].
      destruct (handle_one_request req s) as [res s1].
      cbn [fst snd] in Hr, Hc. subst res.
      destruct (IH s1) as (Hr' & Hc' & Hm).
      split; [exact Hr'|].
      destruct (is_webhook_delivery req); cbn [List.length]; split; lia.
Qed.

Lemma counter_counts_parsed_deliveries_witness :
  let garbage := mkRequest CmdPOST "/webhook" None (IntLength 3)
                   (fun _ => BadJSON) "20240101_000000" true
                   "POST /webhook HTTP/1.1" "2024-01-01 00:00:00" true
                   (fun _ => None) in
  let negative := mkRequest CmdPOST "/webhook" None (IntLength (-5))
                    (fun _ => Parsed (PDict [])) "20240101_000000" true
                    "POST /webhook HTTP/1.1" "2024-01-01 00:00:00" true
                    (fun _ => None) in
  let after req := snd (handle_one_request req Scenario.test_server) in
  answered_since Scenario.test_server (after garbage) = [400]
  /\ received_count (after garbage) = 0%nat
  /\ answered_since Scenario.test_server (after negative) = []
  /\ received_count (after negative) = 0%nat.
Proof.
  cbv zeta.
  destruct counter_counts_parsed_deliveries as [Hone _].
  destruct (Hone (mkRequest CmdPOST "/webhook" None (IntLength 3)
                    (fun _ => BadJSON) "20240101_000000" true
                    "POST /webhook HTTP/1.1" "2024-01-01 00:00:00" true
                    (fun _ => None)) Scenario.test_server)
    as (_ & _ & _ & _ & H400 & _).
  destruct (H400 eq_refl eq_refl eq_refl) as (Ha & Hc).
  destruct (Hone (mkRequest CmdPOST "/webhook" None (IntLength (-5))
                    (fun _ => Parsed (PDict [])) "20240101_000000" true
                    "POST /webhook HTTP/1.1" "2024-01-01 00:00:00" true
                    (fun _ => None)) Scenario.test_server)
    as (_ & _ & _ & _ & _ & Hnone & _).
  destruct (Hnone eq_refl eq_refl eq_refl) as (Ha' & Hc').
  split; [exact Ha|]. split; [exact Hc|]. split; [exact Ha' | exact Hc'].
Defined.

(** C10 as stated fails at both ends.  A POST to /webhook whose body is
    the JSON array [[]] is counted, though formatting it raises and the
    request is answered 500, nothing being saved: the counter is then 1
    while no delivery was processed successfully.  And a POST to /webhook
    whose body is JSON is not counted when the body is never read, as
    with a Content-Length of -5: no response goes back at all. *)
Lemma counted_delivery_may_fail :
  let req := Scenario.delivery "/webhook" (PList []) in
  let r := serve_forever [req] Scenario.test_server in
  let unread := mkRequest CmdPOST "/webhook" None (IntLength (-5))
                  (fun _ => Parsed (PDict [])) "20240101_000000" true
                  "POST /webhook HTTP/1.1" "2024-01-01 00:00:00" true
                  (fun _ => None) in
  let r' := serve_forever [unread] Scenario.test_server in
  is_webhook_delivery req = true
  /\ fst r = Ret tt
  /\ received_count (snd r) = 1%nat
  /\ answered_since Scenario.test_server (snd r) = [500]
  /\ List.length (filter (Z.eqb 200)
                    (answered_since Scenario.test_server (snd r))) = 0%nat
  /\ files (snd r) = []
  /\ decoded unread (-5) = Parsed (PDict [])
  /\ received_count (snd r') = 0%nat
  /\ answered_since Scenario.test_server (snd r') = [].
Proof.
  vm_compute. repeat split; reflexivity.
Qed.

(** * Further properties of the command *)

Section MoreOfTheLoop.

Variables (env : Env) (airflow_config : AirflowConfig) (dag_run_id : pyval).
Variables (timeout start_time : Z).

Let req := state_request airflow_config dag_run_id.
Let ex (w : World) := exchange env (List.length (sent w)) req.
Let loop (fuel : nat) :=
  wait_loop fuel env airflow_config dag_run_id timeout start_time.

(** A state query returns something else than [None] only when its
    answer is a JSON object, and it is then the "state" of that object. *)
Lemma get_dag_run_state_some (w w1 : World) (state : pyval) :
  get_dag_run_state env airflow_config dag_run_id w = (Ret state, w1) ->
  is_none state = false ->
  exists d, json_object (answer (ex w)) = Some d /\ state = field "state" d.
Proof.
  intros Hg Hn.
  destruct (transport_error (answer (ex w))) eqn:Et.
  - destruct (get_dag_run_state_transport_error env airflow_config dag_run_id
                w Et) as (e_text & Hr & _).
    rewrite Hr in Hg. injection Hg as <- _. discriminate.
  - destruct (json_object (answer (ex w))) as [d|] eqn:Ed.
    + rewrite (get_dag_run_state_object env airflow_config dag_run_id w d Ed)
        in Hg.
      injection Hg as <- _. exists d. split; reflexivity.
    + exfalso. revert Hg.
      unfold get_dag_run_state, try_except, bind, request.
      unfold json_object in Ed. subst ex req; simpl in *.
      destruct (answer _) as [f msg | r]; [discriminate|]. simpl in Et.
      rewrite raise_for_status_ok by exact Et. rewrite Et in Ed.
      unfold json; simpl.
      destruct (r_json r) as [v|].
      * destruct v; try discriminate; simpl; intros [= <- _]; discriminate.
      * destruct (json_error_is_request_exception env); simpl;
          intros [= <- _]; discriminate.
Qed.

(** The loop returns [True] only from the iteration whose state query was
    answered "success": that query is the last one issued. *)
Lemma wait_loop_true (fuel : nat) :
  forall w : World,
  fst (loop fuel w) = Ret true ->
  exists l0 t d,
    issued_since w (snd (loop fuel w)) = (l0 ++ [(t, req)])%list
    /\ json_object
         (answer (exchange env (List.length (sent w) + List.length l0) req))
       = Some d
    /\ dict_get "state" d = Some (PStr "success").
Proof.
  unfold loop. induction fuel as [|fuel IH]; intros w.
  - destruct (Z_lt_le_dec (clock w - start_time) (timeout * 1000)) as [Hlt|Hge].
    + cbn [wait_loop]. unfold bind, now.
      assert ((clock w - start_time <? timeout * 1000) = true) as -> by lia.
      discriminate.
    + rewrite wait_loop_expired by exact Hge. discriminate.
  - destruct (Z_lt_le_dec (clock w - start_time) (timeout * 1000)) as [Hlt|Hge].
    2:{ rewrite wait_loop_expired by exact Hge. discriminate. }
    rewrite wait_loop_step by exact Hlt.
    destruct (get_dag_run_state env airflow_config dag_run_id w)
      as [[state | e |] w1] eqn:Eg; try discriminate.
    destruct (get_dag_run_state_world env airflow_config dag_run_id w)
      as (r' & ls & Hw & _).
    rewrite Eg in Hw. injection Hw as _ Hw1.
    destruct (is_none state) eqn:En; [discriminate|].
    destruct (get_dag_run_state_some w w1 state Eg En) as (d & Hd & Hs).
    destruct (eq_str state "success") eqn:Es.
    + intros _. exists [], (clock w), d.
      split; [|split].
      * apply issued_since_app. subst w1. reflexivity.
      * rewrite Nat.add_0_r. exact Hd.
      * subst state. unfold field in Es.
        destruct (dict_get "state" d) as [[| | | |s| |]|]; try discriminate.
        cbn in Es. apply String.eqb_eq in Es. subst s. reflexivity.
    + destruct (eq_str state "failed"); [discriminate|].
      intros Ht.
      destruct (IH _ Ht) as (l0 & t & d' & Hi & Hd' & Hs').
      destruct (wait_loop_invariant env airflow_config dag_run_id timeout
                  start_time fuel
                  (asleep 2
                     (put_line (running_line state (clock w1 - start_time))
                               w1)))
        as (l2 & _ & Hsent & _).
      pose proof (issued_since_app _ _ _ Hsent) as Hi2.
      rewrite Hi in Hi2.
      exists ((clock w, req) :: l0), t, d'.
      split; [|split; [|exact Hs']].
      * apply issued_since_app. rewrite Hsent, <- Hi2. subst w1.
        world_simpl. rewrite <- app_assoc. reflexivity.
      * subst w1. world_simpl. rewrite length_app in Hd'.
        cbn [List.length] in *.
        replace (List.length (sent w) + S (List.length l0))%nat
          with (List.length (sent w) + 1 + List.length l0)%nat by lia.
        exact Hd'.
Qed.

(** Two state queries in a row start at least two seconds apart. *)
Lemma wait_loop_spaced (fuel : nat) :
  forall w : World, spaced 2000 (issued_since w (snd (loop fuel w))).
Proof.
  unfold loop. induction fuel as [|fuel IH]; intros w.
  - destruct (wait_loop_invariant env airflow_config dag_run_id timeout
                start_time 0 w) as (l & _ & Hs & _ & _ & _ & Hk & _).
    rewrite (issued_since_app _ _ _ Hs).
    destruct (Z_lt_le_dec (clock w - start_time) (timeout * 1000)) as [Hlt|Hge].
    + revert Hs. cbn [wait_loop]. unfold bind, now.
      assert ((clock w - start_time <? timeout * 1000) = true) as -> by lia.
      cbn [snd unfinished]. intros Hs.
      rewrite <- (app_nil_r (sent w)) in Hs at 1.
      apply app_inv_head in Hs. subst l. exact I.
    + specialize (Hk 0%nat ltac:(lia)). destruct l; [exact I|].
      cbn [List.length] in Hk. lia.
  - destruct (Z_lt_le_dec (clock w - start_time) (timeout * 1000)) as [Hlt|Hge].
    2:{ rewrite wait_loop_expired by exact Hge.
        rewrite (issued_since_app _ _ []); [exact I|].
        cbn. symmetry. apply app_nil_r. }
    rewrite wait_loop_step by exact Hlt.
    destruct (get_dag_run_state_world env airflow_config dag_run_id w)
      as (r & ls & -> & Hr).
    fold req.
    assert (Hone : forall w', sent w' = (sent w ++ [(clock w, req)])%list ->
                              spaced 2000 (issued_since w w')).
    { intros w' Hw. rewrite (issued_since_app _ _ _ Hw). cbn. auto. }
    destruct r as [state | e |]; [|apply Hone; reflexivity|congruence].
    destruct (is_none state); [apply Hone; reflexivity|].
    destruct (eq_str state "success"); [apply Hone; reflexivity|].
    destruct (eq_str state "failed"); [apply Hone; reflexivity|].
    match goal with
    | |- context [wait_loop fuel _ _ _ _ _ ?w2] =>
        pose proof (IH w2) as Hsp;
        destruct (wait_loop_invariant env airflow_config dag_run_id timeout
                    start_time fuel w2)
          as (l2 & _ & Hs & _ & Hf & _)
    end.
    rewrite (issued_since_app _ _ _ Hs) in Hsp.
    rewrite (issued_since_app _ _ ((clock w, req) :: l2)).
    2:{ rewrite Hs. world_simpl. rewrite <- app_assoc. reflexivity. }
    cbn [spaced]. split; [|exact Hsp].
    destruct l2 as [|b l2]; [exact I|].
    apply Forall_inv in Hf. destruct Hf as (_ & Hb & _).
    world_simpl.
    assert (0 <= Z.of_N (latency (exchange env (List.length (sent w)) req)))
      by lia.
    lia.
Qed.

End MoreOfTheLoop.

(** X1.  In a polling loop in progress, a state query answered with the
    state "success" ends the loop at once: the loop returns [True] after
    that single query, without sleeping, and its closing line is the
    information line "DAG run completed successfully in ...s" with the
    time elapsed since the start of the wait. *)
Theorem success_state_ends_polling
    (env : Env) (airflow_config : AirflowConfig) (dag_run_id : pyval)
    (timeout start_time : Z) (fuel : nat) (w : World)
    (d : list (string * pyval)) :
  let req := state_request airflow_config dag_run_id in
  let ex := exchange env (List.length (sent w)) req in
  let r := wait_loop (S fuel) env airflow_config dag_run_id timeout
                     start_time w in
  let line := success_line (clock w + Z.of_N (latency ex) - start_time) in
  clock w - start_time < timeout * 1000 ->
  json_object (answer ex) = Some d ->
  dict_get "state" d = Some (PStr "success") ->
  r = (Ret true, put_line line (exchanged (latency ex) req w))
  /\ outcome r = (Ret true, Some line)
  /\ issued_since w (snd r) = [(clock w, req)]
  /\ slept (snd r) = slept w
  /\ is_error_line line = false.
Proof.
  intros req ex r line Hlt Hd Hst. subst r.
  rewrite wait_loop_step by exact Hlt.
  rewrite (get_dag_run_state_object env airflow_config dag_run_id w d Hd).
  unfold field. rewrite Hst. cbn [is_none eq_str String.eqb Ascii.eqb Bool.eqb].
  fold req. fold ex. fold line.
  unfold outcome. cbn [fst snd]. rewrite last_line_put.
  split; [reflexivity|]. split; [reflexivity|].
  split; [apply issued_since_app; reflexivity|].
  split; reflexivity.
Qed.

Lemma success_state_ends_polling_witness :
  let env := Scenario.network 100 (fun _ => Scenario.state_is "success") true in
  let req := state_request Scenario.config Scenario.run_id in
  let r := wait_loop 5 env Scenario.config Scenario.run_id 10 0
                     Scenario.start in
  clock Scenario.start - 0 < 10 * 1000
  /\ json_object (answer (exchange env 0%nat req))
     = Some [("state", PStr "success")]
  /\ dict_get "state" [("state", PStr "success")] = Some (PStr "success")
  /\ outcome r = (Ret true, Some (success_line 100))
  /\ issued_since Scenario.start (snd r) = [(0, req)].
Proof.
  cbv zeta.
  assert (H1 : clock Scenario.start - 0 < 10 * 1000) by reflexivity.
  assert (H2 : json_object
                 (answer
                    (exchange
                       (Scenario.network 100
                          (fun _ => Scenario.state_is "success") true)
                       (List.length (sent Scenario.start))
                       (state_request Scenario.config Scenario.run_id)))
               = Some [("state", PStr "success")]) by reflexivity.
  assert (H3 : dict_get "state" [("state", PStr "success")]
               = Some (PStr "success")) by reflexivity.
  destruct (success_state_ends_polling _ Scenario.config Scenario.run_id
              10 0 4%nat Scenario.start _ H1 H2 H3)
    as (_ & Ho & Hq & _).
  split_assumption.
Defined.

(** X2.  The wait returns [True] only when it has itself seen the state
    "success": its last state query was answered with a JSON object whose
    "state" is "success". *)
Theorem wait_returns_true_only_on_success
    (env : Env) (airflow_config : AirflowConfig) (dag_run_id : pyval)
    (timeout : Z) (w : World) :
  let req := state_request airflow_config dag_run_id in
  let r := wait_for_completion env airflow_config dag_run_id timeout w in
  fst r = Ret true ->
  exists l0 t d,
    issued_since w (snd r) = (l0 ++ [(t, req)])%list
    /\ json_object
         (answer (exchange env (List.length (sent w) + List.length l0) req))
       = Some d
    /\ dict_get "state" d = Some (PStr "success").
Proof.
  intros req r. subst r. rewrite wait_for_completion_unfold. intros Ht.
  exact (wait_loop_true env airflow_config dag_run_id timeout (clock w)
           (max_polls timeout) (put_line (waiting_line timeout) w) Ht).
Qed.

Lemma wait_returns_true_only_on_success_witness :
  let queries k :=
    match k with
    | O => Scenario.state_is "running"
    | S _ => Scenario.state_is "success"
    end in
  let env := Scenario.network 50 queries true in
  let req := state_request Scenario.config Scenario.run_id in
  let r := wait_for_completion env Scenario.config Scenario.run_id 10
                               Scenario.start in
  fst r = Ret true
  /\ exists l0 t d,
       issued_since Scenario.start (snd r) = (l0 ++ [(t, req)])%list
       /\ json_object
            (answer (exchange env (0 + List.length l0) req)) = Some d
       /\ dict_get "state" d = Some (PStr "success").
Proof.
  cbv zeta.
  assert (H : fst (wait_for_completion
                     (Scenario.network 50
                        (fun k => match k with
                                  | O => Scenario.state_is "running"
                                  | S _ => Scenario.state_is "success"
                                  end) true)
                     Scenario.config Scenario.run_id 10 Scenario.start)
              = Ret true) by (vm_compute; reflexivity).
  split; [exact H|].
  exact (wait_returns_true_only_on_success _ Scenario.config Scenario.run_id
           10 Scenario.start H).
Defined.

(** X3.  Whatever the network answers, the wait comes to an end, and it
    issues state queries only: each for the run identifier it was given,
    each started before the deadline, and at most the ceiling of
    timeout / 2 of them. *)
Theorem polling_is_bounded
    (env : Env) (airflow_config : AirflowConfig) (dag_run_id : pyval)
    (timeout : Z) (w : World) :
  let r := wait_for_completion env airflow_config dag_run_id timeout w in
  let queries := issued_since w (snd r) in
  fst r <> Unfinished
  /\ sent (snd r) = (sent w ++ queries)%list
  /\ Forall (fun tq => snd tq = state_request airflow_config dag_run_id
                       /\ clock w <= fst tq
                       /\ fst tq - clock w < timeout * 1000) queries
  /\ (List.length queries <= Z.to_nat (ceil_div timeout 2))%nat.
Proof.
  intros r queries.
  destruct (wait_for_completion_queries env airflow_config dag_run_id
              timeout w) as (l & Hs & Hf & Hk).
  fold r in Hs.
  assert (Hq : queries = l) by (apply issued_since_app; exact Hs).
  rewrite Hq.
  split; [apply wait_for_completion_finishes|].
  split; [exact Hs|]. split; assumption.
Qed.

(** X4.  Whatever the network answers, two state queries in a row start
    at least two seconds apart. *)
Theorem queries_are_two_seconds_apart
    (env : Env) (airflow_config : AirflowConfig) (dag_run_id : pyval)
    (timeout : Z) (w : World) :
  spaced 2000
    (issued_since w
       (snd (wait_for_completion env airflow_config dag_run_id timeout w))).
Proof.
  rewrite wait_for_completion_unfold.
  exact (wait_loop_spaced env airflow_config dag_run_id timeout (clock w)
           (max_polls timeout) (put_line (waiting_line timeout) w)).
Qed.

(** X5.  With a timeout of zero or less the wait makes no state query at
    all: it writes its first line and the timeout line, and returns
    [False] without any time passing. *)
Theorem nonpositive_timeout_never_polls
    (env : Env) (airflow_config : AirflowConfig) (dag_run_id : pyval)
    (timeout : Z) (w : World) :
  timeout <= 0 ->
  wait_for_completion env airflow_config dag_run_id timeout w
  = (Ret false,
     put_line (timeout_line timeout) (put_line (waiting_line timeout) w)).
Proof.
  intros H. rewrite wait_for_completion_unfold.
  apply wait_loop_expired. cbn [clock put_line]. lia.
Qed.

Lemma nonpositive_timeout_never_polls_witness :
  0 <= 0
  /\ sent (snd (wait_for_completion
                  (Scenario.network 0 (fun _ => Scenario.state_is "success")
                     true)
                  Scenario.config Scenario.run_id 0 Scenario.start)) = [].
Proof.
  assert (H : 0 <= 0) by lia.
  split; [exact H|].
  rewrite (nonpositive_timeout_never_polls
             (Scenario.network 0 (fun _ => Scenario.state_is "success") true)
             Scenario.config Scenario.run_id 0 Scenario.start H).
  reflexivity.
Defined.

(** ** Answers that are JSON, but not the object expected *)

Section NotAnObject.

Variables (env : Env) (airflow_config : AirflowConfig).

(** A trigger answered without error status returns whatever the body
    decodes to, object or not, and writes nothing. *)
Lemma trigger_dag_value (w : World) (r0 : Reply) (v : pyval) :
  let req := trigger_request airflow_config (clock w) in
  let ex := exchange env (List.length (sent w)) req in
  answer ex = Answers r0 ->
  http_error_status (r_status r0) = false ->
  r_json r0 = Some v ->
  trigger_dag env airflow_config w = (Ret v, exchanged (latency ex) req w).
Proof.
  intros req ex Ha Hs Hj.
  unfold trigger_dag, try_except, bind, request, now.
  subst ex req; simpl in *. rewrite Ha.
  rewrite raise_for_status_ok by exact Hs.
  unfold json; simpl. rewrite Hj. reflexivity.
Qed.

(** A state query answered without error status by JSON that is no object:
    the [AttributeError] of [data.get] is no [RequestException] and leaves
    the query. *)
Lemma get_dag_run_state_not_object (dag_run_id : pyval) (w : World)
    (r0 : Reply) (v : pyval) :
  let req := state_request airflow_config dag_run_id in
  let ex := exchange env (List.length (sent w)) req in
  answer ex = Answers r0 ->
  http_error_status (r_status r0) = false ->
  r_json r0 = Some v ->
  (forall d, v <> PDict d) ->
  get_dag_run_state env airflow_config dag_run_id w =
    (Raise (no_attribute v "get"), exchanged (latency ex) req w).
Proof.
  intros req ex Ha Hs Hj Hv.
  unfold get_dag_run_state, try_except, bind, request.
  subst ex req; simpl in *. rewrite Ha.
  rewrite raise_for_status_ok by exact Hs.
  unfold json; simpl. rewrite Hj.
  destruct v; try reflexivity. exfalso. exact (Hv _ eq_refl).
Qed.

End NotAnObject.

Section ClosingLine.

Variables (env : Env) (airflow_config : AirflowConfig) (dag_run_id : pyval).
Variables (timeout start_time : Z).

(** The value the loop returns can be read off its closing line: an
    error line when it is [False], an information line when it is
    [True]. *)
Lemma wait_loop_closing_line (fuel : nat) :
  forall (w : World) (b : bool),
  fst (wait_loop fuel env airflow_config dag_run_id timeout start_time w)
  = Ret b ->
  exists line,
    last_line
      (snd (wait_loop fuel env airflow_config dag_run_id timeout start_time w))
    = Some line
    /\ is_error_line line = negb b.
Proof.
  induction fuel as [|fuel IH]; intros w b.
  - destruct (Z_lt_le_dec (clock w - start_time) (timeout * 1000)) as [Hlt|Hge].
    + cbn [wait_loop]. unfold bind, now.
      assert ((clock w - start_time <? timeout * 1000) = true) as -> by lia.
      discriminate.
    + rewrite wait_loop_expired by exact Hge. cbn [fst snd].
      intros [= <-]. eexists. rewrite last_line_put.
      split; reflexivity.
  - destruct (Z_lt_le_dec (clock w - start_time) (timeout * 1000)) as [Hlt|Hge].
    2:{ rewrite wait_loop_expired by exact Hge. cbn [fst snd].
        intros [= <-]. eexists. rewrite last_line_put.
        split; reflexivity. }
    rewrite wait_loop_step by exact Hlt.
    destruct (get_dag_run_state env airflow_config dag_run_id w)
      as [[state | e |] w1]; try discriminate.
    destruct (is_none state);
      [|destruct (eq_str state "success");
        [|destruct (eq_str state "failed")]];
      try (cbn [fst snd]; intros [= <-]; eexists; rewrite last_line_put;
           split; reflexivity).
    apply IH.
Qed.

End ClosingLine.

(** X6.  The wait tells its verdict twice, and the two agree: whenever it
    returns, its closing line is an error line if it returned [False] and
    an information line if it returned [True]. *)
Theorem wait_verdict_matches_closing_line
    (env : Env) (airflow_config : AirflowConfig) (dag_run_id : pyval)
    (timeout : Z) (w : World) (b : bool) :
  let r := wait_for_completion env airflow_config dag_run_id timeout w in
  fst r = Ret b ->
  exists line, last_line (snd r) = Some line /\ is_error_line line = negb b.
Proof.
  cbv zeta. rewrite wait_for_completion_unfold.
  apply wait_loop_closing_line.
Qed.

Lemma wait_verdict_matches_closing_line_witness :
  let env := Scenario.network 50 (fun _ => Scenario.state_is "failed") true in
  let r := wait_for_completion env Scenario.config Scenario.run_id 10
                               Scenario.start in
  fst r = Ret false
  /\ exists line,
       last_line (snd r) = Some line /\ is_error_line line = negb false.
Proof.
  cbv zeta.
  assert (H : fst (wait_for_completion
                     (Scenario.network 50
                        (fun _ => Scenario.state_is "failed") true)
                     Scenario.config Scenario.run_id 10 Scenario.start)
              = Ret false) by (vm_compute; reflexivity).
  split; [exact H|].
  exact (wait_verdict_matches_closing_line _ Scenario.config Scenario.run_id
           10 Scenario.start false H).
Defined.

(** X7.  A state query answered without error status by JSON that is not
    an object (a list, a string, a number, null) is no failed query for
    the loop: the [AttributeError] of [data.get] leaves the loop at once,
    after that single query, and no line is written for it. *)
Theorem non_object_state_answer_raises
    (env : Env) (airflow_config : AirflowConfig) (dag_run_id : pyval)
    (timeout start_time : Z) (fuel : nat) (w : World)
    (r0 : Reply) (v : pyval) :
  let req := state_request airflow_config dag_run_id in
  let ex := exchange env (List.length (sent w)) req in
  let r := wait_loop (S fuel) env airflow_config dag_run_id timeout
                     start_time w in
  clock w - start_time < timeout * 1000 ->
  answer ex = Answers r0 ->
  http_error_status (r_status r0) = false ->
  r_json r0 = Some v ->
  (forall d, v <> PDict d) ->
  r = (Raise (no_attribute v "get"), exchanged (latency ex) req w)
  /\ e_class (no_attribute v "get") = AttributeError
  /\ is_RequestException (e_class (no_attribute v "get")) = false
  /\ issued_since w (snd r) = [(clock w, req)]
  /\ output (snd r) = output w.
Proof.
  intros req ex r Hlt Ha Hs Hj Hv. subst r.
  rewrite wait_loop_step by exact Hlt.
  rewrite (get_dag_run_state_not_object env airflow_config dag_run_id w r0 v
             Ha Hs Hj Hv).
  fold req. fold ex. cbn [snd].
  split; [reflexivity|]. split; [reflexivity|]. split; [reflexivity|].
  split; [apply issued_since_app; reflexivity | reflexivity].
Qed.

Lemma non_object_state_answer_raises_witness :
  let reply := mkReply 200 "OK" "[]" (Some (PList [])) in
  let env := Scenario.network 100 (fun _ => Answers reply) true in
  let r := wait_loop 5 env Scenario.config Scenario.run_id 10 0
                     Scenario.start in
  clock Scenario.start - 0 < 10 * 1000
  /\ fst r = Raise (no_attribute (PList []) "get")
  /\ output (snd r) = [].
Proof.
  cbv zeta.
  assert (H1 : clock Scenario.start - 0 < 10 * 1000) by reflexivity.
  assert (Hv : forall d, PList [] <> PDict d) by discriminate.
  destruct (non_object_state_answer_raises
              (Scenario.network 100
                 (fun _ => Answers (mkReply 200 "OK" "[]" (Some (PList []))))
                 true)
              Scenario.config Scenario.run_id 10 0 4%nat Scenario.start
              (mkReply 200 "OK" "[]" (Some (PList []))) (PList [])
              H1 eq_refl eq_refl eq_refl Hv)
    as (Hr & _ & _ & _ & Ho).
  apply (f_equal fst) in Hr. cbn [fst] in Hr.
  split_assumption.
Defined.

(** X8.  A trigger answered without error status by a body that decodes
    to a falsy value (the empty object, the empty list, null, 0, false,
    the empty string) counts as a failed trigger: the command writes
    "Failed to trigger DAG run" right after its first line and returns,
    having issued the trigger request only. *)
Theorem empty_trigger_answer_is_a_failed_trigger
    (env : Env) (options : Options) (w : World) (r0 : Reply) (v : pyval) :
  let airflow_config := TriggerSync.get_airflow_config env in
  let req := trigger_request airflow_config (clock w) in
  let ex := exchange env (List.length (sent w)) req in
  let r := handle env options w in
  answer ex = Answers r0 ->
  http_error_status (r_status r0) = false ->
  r_json r0 = Some v ->
  truthy v = false ->
  fst r = Ret tt
  /\ output (snd r)
     = (output w ++ [triggering_line airflow_config; not_triggered_line])%list
  /\ issued_since w (snd r) = [(clock w, req)]
  /\ exit_status (fst r) = Some 0.
Proof.
  intros airflow_config req ex r Ha Hs Hj Hv. subst r.
  rewrite handle_unfold. fold airflow_config.
  rewrite (trigger_dag_value env airflow_config
             (put_line (triggering_line airflow_config) w) r0 v Ha Hs Hj).
  rewrite Hv. cbn [negb fst snd].
  split; [reflexivity|].
  split; [world_simpl; rewrite <- app_assoc; reflexivity|].
  split; [apply issued_since_app; reflexivity | reflexivity].
Qed.

Lemma empty_trigger_answer_is_a_failed_trigger_witness :
  let reply := mkReply 200 "OK" "{}" (Some (PDict [])) in
  let env := Scenario.network 100 (fun _ => Answers reply) true in
  let r := handle env (mkOptions true 10) Scenario.start in
  truthy (PDict []) = false
  /\ fst r = Ret tt
  /\ output (snd r)
     = [triggering_line (TriggerSync.get_airflow_config env);
        not_triggered_line].
Proof.
  cbv zeta.
  assert (Hv : truthy (PDict []) = false) by reflexivity.
  destruct (empty_trigger_answer_is_a_failed_trigger
              (Scenario.network 100
                 (fun _ => Answers (mkReply 200 "OK" "{}" (Some (PDict []))))
                 true)
              (mkOptions true 10) Scenario.start
              (mkReply 200 "OK" "{}" (Some (PDict []))) (PDict [])
              eq_refl eq_refl eq_refl Hv)
    as (Hr & Ho & _).
  split_assumption.
Defined.

(** X9.  A trigger answered without error status by JSON that is truthy
    but not an object (a non-empty list or string, a number other than
    0, true) is not reported as a failed trigger: the [AttributeError] of
    [dag_run.get] leaves the command, which so ends with exit status 1,
    having written its first line only and issued the trigger request
    only. *)
Theorem non_object_trigger_answer_raises
    (env : Env) (options : Options) (w : World) (r0 : Reply) (v : pyval) :
  let airflow_config := TriggerSync.get_airflow_config env in
  let req := trigger_request airflow_config (clock w) in
  let ex := exchange env (List.length (sent w)) req in
  let r := handle env options w in
  answer ex = Answers r0 ->
  http_error_status (r_status r0) = false ->
  r_json r0 = Some v ->
  truthy v = true ->
  (forall d, v <> PDict d) ->
  fst r = Raise (no_attribute v "get")
  /\ exit_status (fst r) = Some 1
  /\ output (snd r) = (output w ++ [triggering_line airflow_config])%list
  /\ issued_since w (snd r) = [(clock w, req)].
Proof.
  intros airflow_config req ex r Ha Hs Hj Hv Hd. subst r.
  rewrite handle_unfold. fold airflow_config.
  rewrite (trigger_dag_value env airflow_config
             (put_line (triggering_line airflow_config) w) r0 v Ha Hs Hj).
  rewrite Hv. cbn [negb].
  destruct v; try (exfalso; exact (Hd _ eq_refl));
    (split; [reflexivity|]; split; [reflexivity|];
     split; [reflexivity | apply issued_since_app; reflexivity]).
Qed.

Lemma non_object_trigger_answer_raises_witness :
  let v := PList [PStr "queued"] in
  let reply := mkReply 200 "OK" "" (Some v) in
  let env := Scenario.network 100 (fun _ => Answers reply) true in
  let r := handle env (mkOptions false 300) Scenario.start in
  truthy v = true
  /\ fst r = Raise (no_attribute v "get")
  /\ exit_status (fst r) = Some 1.
Proof.
  cbv zeta.
  assert (Hv : truthy (PList [PStr "queued"]) = true) by reflexivity.
  assert (Hd : forall d, PList [PStr "queued"] <> PDict d) by discriminate.
  destruct (non_object_trigger_answer_raises
              (Scenario.network 100
                 (fun _ => Answers (mkReply 200 "OK" ""
                                      (Some (PList [PStr "queued"]))))
                 true)
              (mkOptions false 300) Scenario.start
              (mkReply 200 "OK" "" (Some (PList [PStr "queued"])))
              (PList [PStr "queued"])
              eq_refl eq_refl eq_refl Hv Hd)
    as (Hr & He & _).
  split_assumption.
Defined.

(** ** The requests of the command *)

(** Whatever the network answers, the command issues its trigger request
    and then nothing but the state queries of its wait. *)
Lemma handle_requests (env : Env) (options : Options) (w : World) :
  let airflow_config := TriggerSync.get_airflow_config env in
  let r := handle env options w in
  exists (dag_run_id : pyval) (queries : list (Z * HttpReq)),
    sent (snd r)
    = (sent w
       ++ (clock w, trigger_request airflow_config (clock w)) :: queries)%list
    /\ Forall (fun tq => snd tq = state_request airflow_config dag_run_id)
              queries
    /\ (List.length queries
        <= if opt_wait options
           then Z.to_nat (ceil_div (opt_timeout options) 2) else 0)%nat.
Proof.
  intros airflow_config r. subst r. rewrite handle_unfold.
  fold airflow_config.
  destruct (trigger_dag_world env airflow_config
              (put_line (triggering_line airflow_config) w))
    as (r & ls & -> & Hr & _).
  assert (Hnone : forall (res : Result unit) (w' : World),
             sent w'
             = (sent w
                ++ [(clock w, trigger_request airflow_config (clock w))])%list ->
             exists (dag_run_id : pyval) (queries : list (Z * HttpReq)),
               sent (snd (res, w'))
               = (sent w
                  ++ (clock w, trigger_request airflow_config (clock w))
                     :: queries)%list
               /\ Forall (fun tq => snd tq
                                    = state_request airflow_config dag_run_id)
                         queries
               /\ (List.length queries
                   <= if opt_wait options
                      then Z.to_nat (ceil_div (opt_timeout options) 2)
                      else 0)%nat).
  { intros res w' Hs. exists PNone, []. cbn [snd List.length].
    split; [exact Hs|]. split; [constructor | lia]. }
  destruct r as [v | e |]; [|apply Hnone; reflexivity|congruence].
  destruct (truthy v); cbn [negb]; [|apply Hnone; reflexivity].
  destruct v; try (apply Hnone; reflexivity).
  unfold py_get, py_get_default.
  unfold bind at 1. unfold ret at 1. unfold bind at 1. unfold ret at 1.
  unfold bind at 1. unfold write at 1.
  unfold bind at 1. unfold write at 1.
  unfold bind at 1. unfold write at 1.
  destruct (opt_wait options); [|apply Hnone; reflexivity].
  unfold bind at 1.
  match goal with
  | |- context [wait_for_completion ?e ?c ?i ?t ?w1] =>
      destruct (wait_for_completion_queries e c i t w1) as (l & Hs & Hf & Hk);
      exists i, l;
      destruct (wait_for_completion e c i t w1) as [[[|]| |] w2]
  end; cbn [negb]; unfold write, ret; cbn [fst snd] in *;
    (split; [|split; [|exact Hk]]);
    try (world_simpl; rewrite Hs; rewrite <- app_assoc; reflexivity);
    (eapply Forall_impl; [|exact Hf]; intros a Ha; exact (proj1 Ha)).
Qed.

(** X10.  Whatever the network answers, the command comes to an end and
    issues one trigger request followed by state queries only: none
    without --wait, at most the ceiling of timeout / 2 with it, all for
    one run identifier.  Every request carries the configured credentials
    and a timeout of ten seconds. *)
Theorem command_request_budget (env : Env) (options : Options) (w : World) :
  let airflow_config := TriggerSync.get_airflow_config env in
  let r := handle env options w in
  exists (dag_run_id : pyval) (queries : list (Z * HttpReq)),
    fst r <> Unfinished
    /\ issued_since w (snd r)
       = (clock w, trigger_request airflow_config (clock w)) :: queries
    /\ Forall (fun tq => snd tq = state_request airflow_config dag_run_id)
              queries
    /\ (List.length queries
        <= if opt_wait options
           then Z.to_nat (ceil_div (opt_timeout options) 2) else 0)%nat
    /\ Forall (fun tq => timeout_s (snd tq) = 10
                         /\ auth (snd tq)
                            = (cfg_username airflow_config,
                               cfg_password airflow_config))
              (issued_since w (snd r)).
Proof.
  intros airflow_config r.
  destruct (handle_requests env options w) as (id & queries & Hs & Hf & Hk).
  fold airflow_config in Hs, Hf. fold r in Hs.
  pose proof (issued_since_app _ _ _ Hs) as Hi.
  exists id, queries.
  split; [apply handle_finishes|].
  split; [exact Hi|]. split; [exact Hf|]. split; [exact Hk|].
  rewrite Hi. constructor; [split; reflexivity|].
  eapply Forall_impl; [|exact Hf].
  intros a Ha. rewrite Ha. split; reflexivity.
Qed.

(** * Further properties of the admin view *)

Ltac run_post :=
  unfold Views.post, try_except, bind, request, now, Views.logger_info,
    Views.logger_error, Views.logger_exception, write;
  cbn [clock sent output slept put_line exchanged fst snd].

(** X11.  When the connection to Airflow is refused, the view answers 503
    with success false and a fixed error text that asks whether the
    service is running; the message of the exception goes to the log
    only.  The trigger request is the only request issued. *)
Theorem unreachable_service_is_503
    (env : Env) (username : string) (w : World) (msg : string) :
  let airflow_config := Views.get_airflow_config env in
  let req := Views.trigger_request airflow_config username (clock w) in
  let ex := exchange env (List.length (sent w)) req in
  let r := Views.post env username w in
  answer ex = Fails Refused msg ->
  fst r
  = Ret (Views.mkJsonResponse
           [("success", JBool false);
            ("error",
             JText [Lit "Failed to connect to Airflow. Is the Airflow service running?"])]
           503)
  /\ issued_since w (snd r) = [(clock w, req)]
  /\ last_line (snd r)
     = Some (mkLine Err [Lit "Failed to connect to Airflow: "; Lit msg] None).
Proof.
  intros airflow_config req ex r Ha. subst r.
  revert Ha. subst ex req airflow_config. run_post. intros ->.
  cbn. split; [reflexivity|].
  split; [apply issued_since_app; reflexivity|].
  unfold last_line. cbn [output]. rewrite !map_app. cbn [map].
  apply last_last.
Qed.

Lemma unreachable_service_is_503_witness :
  let env := Scenario.network 5 (fun _ => Scenario.refused) true in
  let r := Views.post env "admin" Scenario.start in
  answer (exchange env 0%nat
            (Views.trigger_request (Views.get_airflow_config env) "admin" 0))
  = Fails Refused "Connection refused"
  /\ fst r
     = Ret (Views.mkJsonResponse
              [("success", JBool false);
               ("error",
                JText [Lit "Failed to connect to Airflow. Is the Airflow service running?"])]
              503).
Proof.
  cbv zeta.
  destruct (unreachable_service_is_503
              (Scenario.network 5 (fun _ => Scenario.refused) true)
              "admin" Scenario.start "Connection refused" eq_refl)
    as (Hr & _).
  split; [reflexivity | exact Hr].
Defined.



(** X13.  An answer with an error status (400 to 599) is passed on: the
    view answers with the very status code of Airflow and success false.
    Its error text is "Airflow API error: " followed by the "detail" of
    the JSON error body; by its "title" when there is no "detail"; and,
    when the body is no JSON object, by the response text if that is not
    empty. *)
Theorem http_error_status_is_passed_on
    (env : Env) (username : string) (w : World) (r0 : Reply) :
  let airflow_config := Views.get_airflow_config env in
  let req := Views.trigger_request airflow_config username (clock w) in
  let ex := exchange env (List.length (sent w)) req in
  let r := Views.post env username w in
  answer ex = Answers r0 ->
  http_error_status (r_status r0) = true ->
  exists detail : text,
    fst r
    = Ret (Views.mkJsonResponse
             [("success", JBool false);
              ("error", JText (Lit "Airflow API error: " :: detail))]
             (r_status r0))
    /\ (forall d v, r_json r0 = Some (PDict d) ->
                    dict_get "detail" d = Some v -> detail = [Fmt v])
    /\ (forall d v, r_json r0 = Some (PDict d) ->
                    dict_get "detail" d = None ->
                    dict_get "title" d = Some v -> detail = [Fmt v])
    /\ ((forall d, r_json r0 <> Some (PDict d)) ->
        String.eqb (r_text r0) "" = false -> detail = [Lit (r_text r0)])
    /\ issued_since w (snd r) = [(clock w, req)].
Proof.
  intros airflow_config req ex r Ha Hs. subst r.
  revert Ha. subst ex req airflow_config. run_post. intros ->.
  match goal with
  | |- context [raise_for_status ?resp ?w1] =>
      destruct (raise_for_status_error World resp w1 Hs) as (kind & ->)
  end.
  cbn [e_class e_response is_RequestException status_code fst snd].
  eexists. split; [reflexivity|].
  unfold Views.http_error_detail. cbn [e_response resp_json resp_text e_str].
  split; [|split; [|split]].
  - intros d v -> ->. reflexivity.
  - intros d v -> -> ->. reflexivity.
  - intros Hd Ht. rewrite Ht. cbn [negb].
    destruct (r_json r0) as [[| | | | | |d]|]; try reflexivity.
    exfalso. exact (Hd d eq_refl).
  - apply issued_since_app. reflexivity.
Qed.

Lemma http_error_status_is_passed_on_witness :
  let body := PDict [("title", PStr "Conflict");
                     ("detail", PStr "DAGRun already exists")] in
  let reply := mkReply 409 "CONFLICT" "" (Some body) in
  let env := Scenario.network 20 (fun _ => Answers reply) true in
  let r := Views.post env "admin" Scenario.start in
  http_error_status 409 = true
  /\ fst r
     = Ret (Views.mkJsonResponse
              [("success", JBool false);
               ("error",
                JText [Lit "Airflow API error: ";
                       Fmt (PStr "DAGRun already exists")])]
              409).
Proof.
  cbv zeta.
  assert (Hs : http_error_status 409 = true) by reflexivity.
  destruct (http_error_status_is_passed_on
              (Scenario.network 20
                 (fun _ =>
                    Answers
                      (mkReply 409 "CONFLICT" ""
                         (Some (PDict [("title", PStr "Conflict");
                                       ("detail",
                                        PStr "DAGRun already exists")]))))
                 true)
              "admin" Scenario.start _ eq_refl Hs)
    as (detail & Hr & Hd & _).
  rewrite (Hd _ (PStr "DAGRun already exists") eq_refl eq_refl) in Hr.
  split; [exact Hs | exact Hr].
Defined.

(** X14.  An answer without error status that delivers no JSON object (a
    body that does not decode, or JSON that is a list, a string, a
    number, null) is answered 500 with success false: the view never
    reports success for it, and no exception leaves the view. *)
Theorem unusable_answer_is_500
    (env : Env) (username : string) (w : World) (r0 : Reply) :
  let airflow_config := Views.get_airflow_config env in
  let req := Views.trigger_request airflow_config username (clock w) in
  let ex := exchange env (List.length (sent w)) req in
  let r := Views.post env username w in
  answer ex = Answers r0 ->
  http_error_status (r_status r0) = false ->
  (forall d, r_json r0 <> Some (PDict d)) ->
  exists (resp : Views.JsonResponse) (t : text),
    fst r = Ret resp
    /\ Views.js_status resp = 500
    /\ Views.js_data resp = [("success", JBool false); ("error", JText t)]
    /\ (t = [Lit "An unexpected error occurred. Please check the logs."]
        \/ (r_json r0 = None
            /\ json_error_is_request_exception env = true
            /\ t = [Lit "Failed to trigger sync: "; Lit "Expecting value"]))
    /\ issued_since w (snd r) = [(clock w, req)].
Proof.
  intros airflow_config req ex r Ha Hs Hd. subst r.
  revert Ha. subst ex req airflow_config. run_post. intros ->.
  rewrite raise_for_status_ok by exact Hs.
  unfold json. cbn [resp_json].
  destruct (r_json r0) as [v|] eqn:Ej.
  - destruct v; try (exfalso; exact (Hd _ eq_refl));
      (cbn; eexists _, _; split; [reflexivity|]; split; [reflexivity|];
       split; [reflexivity|]; split; [left; reflexivity|];
       apply issued_since_app; reflexivity).
  - destruct (json_error_is_request_exception env) eqn:Ec;
      cbn; eexists _, _; (split; [reflexivity|]); (split; [reflexivity|]);
      (split; [reflexivity|]);
      (split; [|apply issued_since_app; reflexivity]).
    + right. repeat split.
    + left. reflexivity.
Qed.

Lemma unusable_answer_is_500_witness :
  let env := Scenario.network 20 (fun _ => Scenario.garbled) false in
  let r := Views.post env "admin" Scenario.start in
  http_error_status 200 = false
  /\ exists resp t,
       fst r = Ret resp
       /\ Views.js_status resp = 500
       /\ Views.js_data resp = [("success", JBool false); ("error", JText t)].
Proof.
  cbv zeta.
  assert (Hs : http_error_status 200 = false) by reflexivity.
  assert (Hd : forall d : list (string * pyval), None <> Some (PDict d))
    by discriminate.
  destruct (unusable_answer_is_500
              (Scenario.network 20 (fun _ => Scenario.garbled) false)
              "admin" Scenario.start _ eq_refl Hs Hd)
    as (resp & t & Hr & H5 & Hdata & _).
  split; [exact Hs|]. exists resp, t. split_assumption.
Defined.

(** X15.  Whatever the network answers, the view returns a response (no
    exception leaves it) after exactly one request, sent with the
    configured credentials and a timeout of ten seconds.  The response
    says success exactly when its status is 200, and that is exactly when
    the answer delivered a JSON object. *)
Theorem view_always_answers (env : Env) (username : string) (w : World) :
  let airflow_config := Views.get_airflow_config env in
  let req := Views.trigger_request airflow_config username (clock w) in
  let ex := exchange env (List.length (sent w)) req in
  let r := Views.post env username w in
  exists resp : Views.JsonResponse,
    fst r = Ret resp
    /\ issued_since w (snd r) = [(clock w, req)]
    /\ timeout_s req = 10
    /\ auth req = (cfg_username airflow_config, cfg_password airflow_config)
    /\ Views.js_get "success" (Views.js_data resp)
       = Some (JBool (Views.js_status resp =? 200))
    /\ (Views.js_status resp =? 200)
       = match json_object (answer ex) with
         | Some _ => true
         | None => false
         end.
Proof.
  intros airflow_config req ex r. subst r.
  unfold json_object. subst ex req airflow_config. run_post.
  destruct (answer _) as [f msg | r0].
  - destruct f; cbn; eexists; repeat split;
      apply issued_since_app; reflexivity.
  - destruct (http_error_status (r_status r0)) eqn:Hs.
    + match goal with
      | |- context [raise_for_status ?resp ?w1] =>
          destruct (raise_for_status_error World resp w1 Hs) as (kind & ->)
      end.
      cbn [e_class e_response is_RequestException status_code fst snd].
      eexists. split; [reflexivity|].
      split; [apply issued_since_app; reflexivity|].
      cbn [Views.js_status Views.js_data Views.js_get String.eqb
           Ascii.eqb Bool.eqb timeout_s auth Views.trigger_request].
      assert ((r_status r0 =? 200) = false) as ->
        by (unfold http_error_status in Hs; lia).
      repeat split.
    + rewrite raise_for_status_ok by exact Hs.
      unfold json. cbn [resp_json].
      destruct (r_json r0) as [v|];
        [destruct v | destruct (json_error_is_request_exception env)];
        cbn; eexists; repeat split;
        apply issued_since_app; cbn; rewrite <- ?app_assoc; reflexivity.
Qed.

(** * Further properties of the webhook test server *)

(** X16.  The colour of a score: yellow when there is none; for a number,
    red from 7 on, yellow from 4 on and green below (a NaN is green).  The
    test against 9.0 changes nothing: a score that passes it passes the
    test against 7.0, which gives the same colour. *)
Theorem severity_colour_thresholds :
  (forall (S : Type) (s : S),
     get_severity_color PNone s = (Ret Color_YELLOW, s))
  /\ (forall (S : Type) (z : Z) (s : S),
        get_severity_color (PInt z) s
        = (Ret (if 7 <=? z then Color_RED
                else if 4 <=? z then Color_YELLOW else Color_GREEN), s))
  /\ (forall (S : Type) (bits : Z) (s : S),
        get_severity_color (PFloat bits) s
        = (Ret (if float_ge bits 0x401C000000000000 then Color_RED
                else if float_ge bits 0x4010000000000000 then Color_YELLOW
                else Color_GREEN), s)).
Proof.
  split; [reflexivity|]. split.
  - intros S z s. unfold get_severity_color, py_ge, bind, ret.
    cbn [is_none].
    destruct (9 <=? z) eqn:E9; destruct (7 <=? z) eqn:E7;
      destruct (4 <=? z) eqn:E4; try reflexivity; lia.
  - intros S bits s. unfold get_severity_color, py_ge, bind, ret.
    cbn [is_none].
    destruct (float_ge bits 0x4022000000000000) eqn:E9;
      destruct (float_ge bits 0x401C000000000000) eqn:E7;
      destruct (float_ge bits 0x4010000000000000) eqn:E4; try reflexivity;
      exfalso; unfold float_ge in *;
      repeat match goal with
             | H : (_ && _) = true |- _ => apply andb_prop in H as [? ?]
             | H : (_ && _) = false |- _ => apply andb_false_iff in H as [?|?]
             end; lia.
Qed.


(** Statements about a POST to /webhook are settled on the state after
    the headers, which differs from the first state in the terminal at
    most. *)
Ltac after_the_headers Hsame :=
  destruct Hsame as (Hc & Hf & Hw & _);
  unfold answered_since; rewrite ?Hc, ?Hf, ?Hw;
  match goal with
  | |- context [skipn (List.length (wire ?s1)) (wire ?s2)] =>
      fold (answered_since s1 s2)
  | _ => idtac
  end.

(** X18.  A POST to /webhook whose Content-Length cannot be read as an
    integer gets no response at all: the [ValueError] of [int] is raised
    before the [try] block, so it leaves [do_POST] with nothing written
    back, nothing counted and nothing saved. *)
Theorem unreadable_length_gets_no_response (req : Request) (s : Server) :
  let r := do_POST req s in
  String.eqb (req_path req) "/webhook" = true ->
  content_length req = BadLength ->
  (exists e, fst r = Raise e /\ e_class e = ValueError)
  /\ wire (snd r) = wire s
  /\ received_count (snd r) = received_count s
  /\ files (snd r) = files s.
Proof.
  intros r Hp Hl. subst r. unfold do_POST. rewrite Hp, Hl. cbn [negb].
  unfold print_authorization, bind, raise.
  destruct (authorization req) as [a|];
    [destruct (negb (String.eqb a ""))|];
    cbn; (split; [eexists; split; reflexivity|]); repeat split.
Qed.

Lemma unreadable_length_gets_no_response_witness :
  let req := mkRequest CmdPOST "/webhook" None BadLength
               (fun _ => Parsed (PDict [])) "20240101_000000" true
               "POST /webhook HTTP/1.1" "2024-01-01 00:00:00" true
               (fun _ => None) in
  let r := do_POST req Scenario.test_server in
  (exists e, fst r = Raise e /\ e_class e = ValueError)
  /\ wire (snd r) = [].
Proof.
  cbv zeta.
  destruct (unreadable_length_gets_no_response
              (mkRequest CmdPOST "/webhook" None BadLength
                 (fun _ => Parsed (PDict [])) "20240101_000000" true
                 "POST /webhook HTTP/1.1" "2024-01-01 00:00:00" true
                 (fun _ => None))
              Scenario.test_server eq_refl eq_refl)
    as (He & Hw & _).
  split; [exact He | exact Hw].
Defined.

(** X19.  A POST to /webhook whose body is not valid UTF-8 is answered
    500, not 400: the [UnicodeDecodeError] is no [JSONDecodeError].  It is
    not counted and nothing is saved. *)
Theorem undecodable_bytes_are_answered_500 (req : Request) (s : Server) :
  let r := do_POST req s in
  String.eqb (req_path req) "/webhook" = true ->
  read_body req = Some BadUnicode ->
  fst r = Ret tt
  /\ answered_since s (snd r) = [500]
  /\ received_count (snd r) = received_count s
  /\ files (snd r) = files s.
Proof.
  intros r Hp Hb. subst r.
  destruct (do_POST_read req s Hp) as (s1 & Hsame & Hm).
  rewrite Hb in Hm. rewrite Hm. after_the_headers Hsame.
  destruct (process_webhook_unparsed req BadUnicode s1)
    as (Hr & Hwire & Hcount & Hfiles); [discriminate|].
  split; [exact Hr|].
  split; [rewrite (answered_since_app _ _ _ Hwire); reflexivity|].
  split; [exact Hcount | exact Hfiles].
Qed.

Lemma undecodable_bytes_are_answered_500_witness :
  let req := mkRequest CmdPOST "/webhook" None (IntLength 2)
               (fun _ => BadUnicode) "20240101_000000" true
               "POST /webhook HTTP/1.1" "2024-01-01 00:00:00" true
               (fun _ => None) in
  let r := do_POST req Scenario.test_server in
  fst r = Ret tt /\ answered_since Scenario.test_server (snd r) = [500].
Proof.
  cbv zeta.
  destruct (undecodable_bytes_are_answered_500
              (mkRequest CmdPOST "/webhook" None (IntLength 2)
                 (fun _ => BadUnicode) "20240101_000000" true
                 "POST /webhook HTTP/1.1" "2024-01-01 00:00:00" true
                 (fun _ => None))
              Scenario.test_server eq_refl eq_refl)
    as (Hr & Ha & _).
  split; [exact Hr | exact Ha].
Defined.

(** X20.  A POST to /webhook whose body parses to JSON that is not an
    object (a list, a string, a number, true, null) is counted as a
    webhook received, although it cannot be processed: the
    [AttributeError] of [payload.get] is answered 500 with its text,
    and nothing is saved. *)
Theorem non_object_delivery_is_counted_and_answered_500
    (req : Request) (s : Server) (payload : pyval) :
  let r := do_POST req s in
  String.eqb (req_path req) "/webhook" = true ->
  read_body req = Some (Parsed payload) ->
  (forall d, payload <> PDict d) ->
  fst r = Ret tt
  /\ answered_since s (snd r) = [500]
  /\ last_json (snd r)
     = Some [("error", JText (e_str (no_attribute payload "get")))]
  /\ received_count (snd r) = S (received_count s)
  /\ files (snd r) = files s.
Proof.
  intros r Hp Hb Hd. subst r.
  destruct (do_POST_read req s Hp) as (s1 & Hsame & Hm).
  rewrite Hb in Hm. rewrite Hm. after_the_headers Hsame.
  unfold process_webhook.
  destruct payload; try (exfalso; exact (Hd _ eq_refl));
    cbn;
    (split; [reflexivity|]);
    (split; [wire_codes; reflexivity|]);
    (split; [unfold last_json; cbn [wire]; rewrite ?map_app; cbn [map];
             rewrite ?app_assoc; rewrite last_last; reflexivity|]);
    (split; [lia | reflexivity]).
Qed.

Lemma non_object_delivery_is_counted_and_answered_500_witness :
  let req := Scenario.delivery "/webhook" (PStr "ping") in
  let r := do_POST req Scenario.test_server in
  fst r = Ret tt
  /\ answered_since Scenario.test_server (snd r) = [500]
  /\ received_count (snd r) = 1%nat.
Proof.
  cbv zeta.
  assert (Hd : forall d, PStr "ping" <> PDict d) by discriminate.
  destruct (non_object_delivery_is_counted_and_answered_500
              (Scenario.delivery "/webhook" (PStr "ping"))
              Scenario.test_server (PStr "ping") eq_refl eq_refl Hd)
    as (Hr & Ha & _ & Hc & _).
  split_assumption.
Defined.

(** ** Formatting reads the payload only *)

Section ReadsNothing.

Context {S : Type}.

Ltac by_value v := destruct v; eexists; intros ?; reflexivity.

Lemma reads_nothing_ret {A} (a : A) : reads_nothing (@ret S A a).
Proof. exists (Ret a). reflexivity. Qed.

Lemma reads_nothing_raise {A} (e : exn) : reads_nothing (@raise S A e).
Proof. exists (Raise e). reflexivity. Qed.

Lemma reads_nothing_type_error {A} (msg : text) :
  reads_nothing (@type_error S A msg).
Proof. apply reads_nothing_raise. Qed.

Lemma reads_nothing_bind {A B} (m : ST S A) (k : A -> ST S B) :
  reads_nothing m -> (forall a, reads_nothing (k a)) ->
  reads_nothing (bind m k).
Proof.
  intros [r Hm] Hk. destruct r as [a | e |].
  - destruct (Hk a) as [r' Hk']. exists r'. intros s.
    unfold bind. rewrite Hm. apply Hk'.
  - exists (Raise e). intros s. unfold bind. rewrite Hm. reflexivity.
  - exists Unfinished. intros s. unfold bind. rewrite Hm. reflexivity.
Qed.

Lemma reads_nothing_mapM {A B} (g : A -> ST S B) (l : list A) :
  (forall a, reads_nothing (g a)) -> reads_nothing (mapM g l).
Proof.
  intros Hg. induction l as [|a l IH]; cbn [mapM].
  - apply reads_nothing_ret.
  - apply reads_nothing_bind; [apply Hg|]. intros b.
    apply reads_nothing_bind; [exact IH|]. intros bs.
    apply reads_nothing_ret.
Qed.

Lemma reads_nothing_py_get_default (v : pyval) (key : string)
    (default : pyval) :
  reads_nothing (@py_get_default S v key default).
Proof. by_value v. Qed.

Lemma reads_nothing_py_get (v : pyval) (key : string) :
  reads_nothing (@py_get S v key).
Proof. apply reads_nothing_py_get_default. Qed.

Lemma reads_nothing_py_iter (v : pyval) : reads_nothing (@py_iter S v).
Proof. by_value v. Qed.

Lemma reads_nothing_py_len (v : pyval) : reads_nothing (@py_len S v).
Proof. by_value v. Qed.

Lemma reads_nothing_py_ge (v : pyval) (c c_bits : Z) :
  reads_nothing (@py_ge S v c c_bits).
Proof. by_value v. Qed.

Lemma reads_nothing_py_slice_plus_str (v : pyval) (n : nat)
    (suffix : string) :
  reads_nothing (@py_slice_plus_str S v n suffix).
Proof. by_value v. Qed.

Lemma reads_nothing_format_1f (v : pyval) :
  reads_nothing (@format_1f S v).
Proof.
  unfold format_1f.
  destruct v; try (eexists; intros ?; reflexivity).
  destruct (Z.abs z <? 2 ^ 1024 - 2 ^ 970); eexists; intros ?; reflexivity.
Qed.

Lemma reads_nothing_py_join (sep : string) (v : pyval) :
  reads_nothing (@py_join S sep v).
Proof.
  assert (H : reads_nothing
                (items <- @py_iter S v ;;
                 match all_strs items with
                 | Some l => ret (String.concat sep l)
                 | None =>
                     type_error [Lit "sequence item: expected str instance"]
                 end)).
  { apply reads_nothing_bind; [apply reads_nothing_py_iter|].
    intros items. destruct (all_strs items);
      [apply reads_nothing_ret | apply reads_nothing_type_error]. }
  destruct v; try exact H; apply reads_nothing_type_error.
Qed.

End ReadsNothing.

Create HintDb reads.
#[export] Hint Resolve reads_nothing_ret reads_nothing_raise
  reads_nothing_type_error reads_nothing_py_get_default reads_nothing_py_get
  reads_nothing_py_iter reads_nothing_py_len reads_nothing_py_ge
  reads_nothing_py_slice_plus_str reads_nothing_py_join
  reads_nothing_format_1f : reads.

Ltac reads :=
  repeat first
    [ solve [auto with reads]
    | apply reads_nothing_bind; [|intro]
    | apply reads_nothing_mapM; intro
    | match goal with
      | |- reads_nothing (if ?b then _ else _) => destruct b
      | |- reads_nothing (match ?x with _ => _ end) => destruct x
      end ].

Section FormattingReads.

Context {S : Type}.

Lemma reads_nothing_get_severity_color (score : pyval) :
  reads_nothing (@get_severity_color S score).
Proof. unfold get_severity_color. reads. Qed.

Lemma reads_nothing_format_event (event : pyval) :
  reads_nothing (@format_event S event).
Proof. unfold format_event. reads. Qed.

Lemma reads_nothing_format_change (idx : Z) (change : pyval) :
  reads_nothing (@format_change S idx change).
Proof.
  unfold format_change.
  pose proof reads_nothing_get_severity_color.
  pose proof reads_nothing_format_event.
  reads.
Qed.

Lemma reads_nothing_format_changes (changes : list pyval) :
  forall idx, reads_nothing (@format_changes S idx changes).
Proof.
  induction changes as [|change rest IH]; intros idx;
    cbn [format_changes].
  - apply reads_nothing_ret.
  - pose proof reads_nothing_format_change. reads.
Qed.

(** Formatting an alert depends on the payload only: it ends the same way
    in every state of the server, and leaves that state as it is. *)
Lemma reads_nothing_format_cve_alert (payload : pyval) :
  reads_nothing (@format_cve_alert S payload).
Proof.
  unfold format_cve_alert.
  pose proof reads_nothing_format_changes.
  reads.
Qed.

End FormattingReads.

Lemma bind_Ret_inv {S A B} (m : ST S A) (k : A -> ST S B) (s : S) (b : B) :
  fst (bind m k s) = Ret b ->
  exists a s1, m s = (Ret a, s1) /\ fst (k a s1) = Ret b.
Proof.
  unfold bind. destruct (m s) as [[a | e |] s1]; try discriminate.
  intros H. exists a, s1. split; [reflexivity | exact H].
Qed.

(** The changes of a payload as [format_cve_alert] and [do_POST] get
    them: [payload.get("changes", [])]. *)
Lemma changes_of (S : Type) (d : list (string * pyval)) (s : S) :
  py_get_default (PDict d) "changes" (PList []) s
  = (Ret match dict_get "changes" d with
         | Some x => x
         | None => PList []
         end, s).
Proof. reflexivity. Qed.

(** An alert is formatted only for a payload that is an object whose
    changes have a length. *)
Lemma format_cve_alert_returns (S : Type) (payload : pyval) (s : S)
    (alert : list text) :
  fst (format_cve_alert payload s) = Ret alert ->
  exists (d : list (string * pyval)) (n : Z),
    payload = PDict d
    /\ forall (S' : Type) (s' : S'),
         py_len match dict_get "changes" d with
                | Some x => x
                | None => PList []
                end s' = (Ret n, s').
Proof.
  intros H. destruct payload as [| | | | | |d]; try discriminate H.
  exists d. unfold format_cve_alert in H.
  do 10 (apply bind_Ret_inv in H as (? & ? & _ & H)).
  apply bind_Ret_inv in H as (changes & s1 & Hc & H).
  rewrite changes_of in Hc. injection Hc as <- _.
  apply bind_Ret_inv in H as (n & s2 & Hn & _).
  exists n. split; [reflexivity|]. intros S' s'.
  destruct (dict_get "changes" d) as [[| | | | | |]|];
    unfold py_len, ret, type_error, raise in Hn |- *;
    try discriminate Hn; injection Hn as <- _; reflexivity.
Qed.

(** ** A delivery whose body parses *)

(** What the [try] statement does with a body that parses, by how
    formatting the alert and saving the file end. *)
Lemma process_webhook_parsed (req : Request) (s : Server) (payload : pyval) :
  let r := process_webhook req (Parsed payload) s in
  let filename := "webhook_" ++ stamp req ++ ".json" in
  let answered (code : Z) (d : list (string * jvalue)) :=
    wire (snd r)
    = (wire s ++ [SendResponse code;
                  SendHeader "Content-type" "application/json";
                  EndHeaders; WriteJson d])%list in
  fst r = Ret tt
  /\ received_count (snd r) = S (received_count s)
  /\ match fst (format_cve_alert payload s) with
     | Ret alert =>
         if negb (can_print req) then
           answered 500
             [("error",
               JText [Lit "'utf-8' codec can't encode character: surrogates not allowed"])]
           /\ files (snd r) = files s
         else if can_save req then
           exists (d : list (string * pyval)) (n : Z),
             payload = PDict d
             /\ py_len match dict_get "changes" d with
                       | Some x => x
                       | None => PList []
                       end s = (Ret n, s)
             /\ answered 200
                  [("status", JText [Lit "received"]);
                   ("message", JText [Lit "Webhook processed successfully"]);
                   ("cve_count", JValue (PInt n));
                   ("received_count",
                    JValue (PInt (Z.of_nat (S (received_count s)))))]
             /\ files (snd r) = (files s ++ [(filename, payload)])%list
         else
           answered 500
             [("error", JText [Lit "Permission denied: "; Lit filename])]
           /\ files (snd r) = files s
     | Raise e =>
         (if is_JSONDecodeError (e_class e)
          then answered 400 [("error", JText [Lit "Invalid JSON"])]
          else answered 500 [("error", JText (e_str e))])
         /\ files (snd r) = files s
     | Unfinished => False
     end.
Proof.
  destruct req as [cmd path auth cl dec stamp ok rl ls pr re].
  unfold process_webhook, try_except.
  cbv beta iota zeta delta [WebhookServer.stamp can_save can_print].
  destruct (reads_nothing_format_cve_alert (S:=Server) payload) as (rf & Hf).
  rewrite (Hf s). cbn [fst].
  assert (Hu : rf <> Unfinished).
  { destruct (preserves_format_cve_alert received_count payload s) as [_ Hu].
    rewrite Hf in Hu. exact Hu. }
  assert (Hlen : forall alert, rf = Ret alert ->
            exists (d : list (string * pyval)) (n : Z),
              payload = PDict d
              /\ forall s' : Server,
                   py_len match dict_get "changes" d with
                          | Some x => x
                          | None => PList []
                          end s' = (Ret n, s')).
  { intros alert ->.
    destruct (format_cve_alert_returns Server payload s alert)
      as (d & n & Hd & Hn); [rewrite Hf; reflexivity|].
    exists d, n. split; [exact Hd | apply Hn]. }
  (destruct rf as [alert | e |];
   [destruct pr;
    [destruct ok;
     [destruct (Hlen alert eq_refl) as (d & k & -> & Hk)|]|]
   |destruct e as [c t resp]; destruct c|]);
    cbv beta iota zeta
        delta [bind ret raise json_loads increment_received_count
               py_get_default print print_alert save emit
               get_received_count send_json negb
               send_response log_message
               received_count terminal files wire server_name server_port
               requestline log_stamp
               fst snd is_JSONDecodeError e_class e_str];
    rewrite ?Hf; cbv beta iota; rewrite ?Hk; cbv beta iota;
    try (exfalso; apply Hu; reflexivity);
    (split; [reflexivity|]); (split; [lia|]);
    try (exists d, k; split; [reflexivity|]; split; [apply Hk|]);
    (split; [rewrite <- !app_assoc; cbn [app]; rewrite ?Nat.add_1_r;
             reflexivity
            | reflexivity]).
Qed.

(** What [do_POST] does with a body that is read and parses, by how
    formatting the alert and saving the file end. *)
Lemma do_POST_parsed (req : Request) (s : Server) (payload : pyval) :
  String.eqb (req_path req) "/webhook" = true ->
  read_body req = Some (Parsed payload) ->
  let r := do_POST req s in
  let filename := "webhook_" ++ stamp req ++ ".json" in
  let answered (code : Z) (d : list (string * jvalue)) :=
    wire (snd r)
    = (wire s ++ [SendResponse code;
                  SendHeader "Content-type" "application/json";
                  EndHeaders; WriteJson d])%list in
  fst r = Ret tt
  /\ received_count (snd r) = S (received_count s)
  /\ match fst (format_cve_alert payload s) with
     | Ret alert =>
         if negb (can_print req) then
           answered 500
             [("error",
               JText [Lit "'utf-8' codec can't encode character: surrogates not allowed"])]
           /\ files (snd r) = files s
         else if can_save req then
           exists (d : list (string * pyval)) (n : Z),
             payload = PDict d
             /\ py_len match dict_get "changes" d with
                       | Some x => x
                       | None => PList []
                       end s = (Ret n, s)
             /\ answered 200
                  [("status", JText [Lit "received"]);
                   ("message", JText [Lit "Webhook processed successfully"]);
                   ("cve_count", JValue (PInt n));
                   ("received_count",
                    JValue (PInt (Z.of_nat (S (received_count s)))))]
             /\ files (snd r) = (files s ++ [(filename, payload)])%list
         else
           answered 500
             [("error", JText [Lit "Permission denied: "; Lit filename])]
           /\ files (snd r) = files s
     | Raise e =>
         (if is_JSONDecodeError (e_class e)
          then answered 400 [("error", JText [Lit "Invalid JSON"])]
          else answered 500 [("error", JText (e_str e))])
         /\ files (snd r) = files s
     | Unfinished => False
     end.
Proof.
  intros Hp Hb. cbv zeta.
  destruct (do_POST_read req s Hp) as (s1 & (Hc & Hfl & Hw & _) & Hm).
  rewrite Hb in Hm. rewrite Hm.
  pose proof (process_webhook_parsed req s1 payload) as H. cbv zeta in H.
  destruct (reads_nothing_format_cve_alert (S:=Server) payload) as (rf & Hf).
  rewrite (Hf s1) in H. rewrite (Hf s). rewrite Hc, Hfl, Hw.
  destruct H as (H1 & H2 & H3).
  split; [exact H1|]. split; [exact H2|].
  cbn [fst] in *.
  destruct rf as [alert | e |]; [|exact H3|exact H3].
  destruct (can_print req); cbn [negb] in *; [|exact H3].
  destruct (can_save req); [|exact H3].
  destruct H3 as (d & n & Hd & Hn & H3).
  exists d, n. split; [exact Hd|]. split; [|exact H3].
  destruct (reads_nothing_py_len (S:=Server)
              match dict_get "changes" d with
              | Some x => x
              | None => PList []
              end) as (rl & Hl).
  rewrite Hl in Hn. rewrite Hl. congruence.
Qed.

(** X21.  A delivery that is processed to the end: when the body of a
    POST to /webhook is read and parses, the alert can be formatted and
    printed, and the file can be written, the request is answered 200
    once, the payload is saved as parsed under
    "webhook_<timestamp>.json", the counter goes up by one, and the
    document sent back holds the new value of the counter and the length
    of the payload's changes. *)
Theorem processed_delivery_is_saved_and_answered
    (req : Request) (s : Server) (payload : pyval) (alert : list text) :
  let r := do_POST req s in
  String.eqb (req_path req) "/webhook" = true ->
  read_body req = Some (Parsed payload) ->
  fst (format_cve_alert payload s) = Ret alert ->
  can_print req = true ->
  can_save req = true ->
  fst r = Ret tt
  /\ answered_since s (snd r) = [200]
  /\ files (snd r)
     = (files s
        ++ [(("webhook_" ++ stamp req ++ ".json")%string, payload)])%list
  /\ received_count (snd r) = S (received_count s)
  /\ exists (d : list (string * pyval)) (n : Z),
       payload = PDict d
       /\ py_len match dict_get "changes" d with
                 | Some x => x
                 | None => PList []
                 end s = (Ret n, s)
       /\ last_json (snd r)
          = Some [("status", JText [Lit "received"]);
                  ("message", JText [Lit "Webhook processed successfully"]);
                  ("cve_count", JValue (PInt n));
                  ("received_count",
                   JValue (PInt (Z.of_nat (S (received_count s)))))].
Proof.
  intros r Hp Hb Hf Hpr Hs.
  destruct (do_POST_parsed req s payload Hp Hb) as (Hr & Hc & Hm).
  fold r in Hr, Hc, Hm. rewrite Hf, Hpr, Hs in Hm. cbn [negb] in Hm.
  destruct Hm as (d & n & Hd & Hn & Hw & Hfiles).
  split; [exact Hr|].
  split; [rewrite (answered_since_app _ _ _ Hw); reflexivity|].
  split; [exact Hfiles|]. split; [exact Hc|].
  exists d, n. split; [exact Hd|]. split; [exact Hn|].
  unfold last_json. rewrite Hw.
  change [SendResponse 200; SendHeader "Content-type" "application/json";
          EndHeaders;
          WriteJson
            [("status", JText [Lit "received"]);
             ("message", JText [Lit "Webhook processed successfully"]);
             ("cve_count", JValue (PInt n));
             ("received_count",
              JValue (PInt (Z.of_nat (S (received_count s)))))]]
    with ([SendResponse 200; SendHeader "Content-type" "application/json";
           EndHeaders]
          ++ [WriteJson
                [("status", JText [Lit "received"]);
                 ("message", JText [Lit "Webhook processed successfully"]);
                 ("cve_count", JValue (PInt n));
                 ("received_count",
                  JValue (PInt (Z.of_nat (S (received_count s)))))]])%list.
  rewrite app_assoc, map_app. cbn [map]. rewrite last_last. reflexivity.
Qed.

Lemma processed_delivery_is_saved_and_answered_witness :
  let payload :=
    PDict [("title", PStr "Weekly report");
           ("changes", PList [PDict [("cve", PDict [("cve_id",
                                                     PStr "CVE-2024-0001");
                                                    ("cvss31", PInt 8)])]])]
  in
  let req := Scenario.delivery "/webhook" payload in
  let r := do_POST req Scenario.test_server in
  fst r = Ret tt
  /\ answered_since Scenario.test_server (snd r) = [200]
  /\ files (snd r) = [("webhook_20240101_000000.json", payload)]
  /\ received_count (snd r) = 1%nat.
Proof.
  cbv zeta.
  destruct (processed_delivery_is_saved_and_answered
              (Scenario.delivery "/webhook"
                 (PDict [("title", PStr "Weekly report");
                         ("changes",
                          PList [PDict [("cve",
                                         PDict [("cve_id",
                                                 PStr "CVE-2024-0001");
                                                ("cvss31", PInt 8)])]])]))
              Scenario.test_server _ _ eq_refl eq_refl eq_refl eq_refl
              eq_refl)
    as (Hr & Ha & Hf & Hc & _).
  split_assumption.
Defined.

(** A score beyond the range of a float is coloured, since the
    comparisons with 9.0, 7.0 and 4.0 are exact, but it cannot be
    formatted with one decimal: the delivery is counted and answered
    500, and nothing is saved. *)
Lemma unformattable_score_is_answered_500 :
  let payload :=
    PDict [("changes",
            PList [PDict [("cve", PDict [("cve_id", PStr "CVE-2024-0001");
                                         ("cvss31", PInt (10 ^ 400))])]])] in
  let r := do_POST (Scenario.delivery "/webhook" payload)
                   Scenario.test_server in
  get_severity_color (PInt (10 ^ 400)) Scenario.test_server
  = (Ret Color_RED, Scenario.test_server)
  /\ fst r = Ret tt
  /\ answered_since Scenario.test_server (snd r) = [500]
  /\ last_json (snd r)
     = Some [("error", JText [Lit "int too large to convert to float"])]
  /\ received_count (snd r) = 1%nat
  /\ files (snd r) = [].
Proof.
  vm_compute. repeat split; reflexivity.
Qed.

(** X22.  A delivery that cannot be saved: when the body parses and the
    alert is formatted and printed, but the file cannot be opened for
    writing, the request is answered 500 with the text of the error; it
    stays counted, and no file is recorded. *)
Theorem unsaved_delivery_is_answered_500
    (req : Request) (s : Server) (payload : pyval) (alert : list text) :
  let r := do_POST req s in
  String.eqb (req_path req) "/webhook" = true ->
  read_body req = Some (Parsed payload) ->
  fst (format_cve_alert payload s) = Ret alert ->
  can_save req = false ->
  fst r = Ret tt
  /\ answered_since s (snd r) = [500]
  /\ files (snd r) = files s
  /\ received_count (snd r) = S (received_count s).
Proof.
  intros r Hp Hb Hf Hs.
  destruct (do_POST_parsed req s payload Hp Hb) as (Hr & Hc & Hm).
  fold r in Hr, Hc, Hm. rewrite Hf, Hs in Hm.
  destruct (can_print req); cbn [negb] in Hm;
    destruct Hm as (Hw & Hfiles);
    (split; [exact Hr|]);
    (split; [rewrite (answered_since_app _ _ _ Hw); reflexivity|]);
    (split; [exact Hfiles | exact Hc]).
Qed.

Lemma unsaved_delivery_is_answered_500_witness :
  let req := mkRequest CmdPOST "/webhook" None (IntLength 2)
               (fun _ => Parsed (PDict [])) "20240101_000000" false
               "POST /webhook HTTP/1.1" "2024-01-01 00:00:00" true
               (fun _ => None) in
  let r := do_POST req Scenario.test_server in
  fst r = Ret tt
  /\ answered_since Scenario.test_server (snd r) = [500]
  /\ files (snd r) = []
  /\ received_count (snd r) = 1%nat.
Proof.
  cbv zeta.
  destruct (unsaved_delivery_is_answered_500
              (mkRequest CmdPOST "/webhook" None (IntLength 2)
                 (fun _ => Parsed (PDict [])) "20240101_000000" false
                 "POST /webhook HTTP/1.1" "2024-01-01 00:00:00" true
                 (fun _ => None))
              Scenario.test_server _ _ eq_refl eq_refl eq_refl eq_refl)
    as (Hr & Ha & Hf & Hc).
  split_assumption.
Defined.


(** ** What is printed has no influence *)

Lemma same_but_terminal_refl (s : Server) : same_but_terminal s s.
Proof. repeat split. Qed.

Lemma same_but_terminal_sym (s s' : Server) :
  same_but_terminal s s' -> same_but_terminal s' s.
Proof. intros (H1 & H2 & H3 & H4 & H5). repeat split; congruence. Qed.

Lemma same_but_terminal_trans (s1 s2 s3 : Server) :
  same_but_terminal s1 s2 -> same_but_terminal s2 s3 ->
  same_but_terminal s1 s3.
Proof.
  intros (H1 & H2 & H3 & H4 & H5) (G1 & G2 & G3 & G4 & G5).
  repeat split; congruence.
Qed.

Section IgnoresTerminal.

Context {A : Type}.

Lemma ignores_reads_nothing (m : ST Server A) :
  reads_nothing m -> ignores_terminal m.
Proof.
  intros [r Hm] s s' H. rewrite !Hm. split; [reflexivity | exact H].
Qed.

Lemma ignores_ret (a : A) : ignores_terminal (ret a).
Proof. apply ignores_reads_nothing, reads_nothing_ret. Qed.

Lemma ignores_raise (e : exn) : ignores_terminal (@raise Server A e).
Proof. apply ignores_reads_nothing, reads_nothing_raise. Qed.

Lemma ignores_bind {B} (m : ST Server B) (k : B -> ST Server A) :
  ignores_terminal m -> (forall b, ignores_terminal (k b)) ->
  ignores_terminal (bind m k).
Proof.
  intros Hm Hk s s' H. unfold bind.
  destruct (Hm s s' H) as [Hr Hs].
  destruct (m s) as [r1 s1], (m s') as [r1' s1']. cbn [fst snd] in *.
  subst r1'. destruct r1 as [b | e |].
  - apply Hk. exact Hs.
  - split; [reflexivity | exact Hs].
  - split; [reflexivity | exact Hs].
Qed.

Lemma ignores_try_except (m : ST Server A) (handles : exc_class -> bool)
    (handler : exn -> ST Server A) :
  ignores_terminal m -> (forall e, ignores_terminal (handler e)) ->
  ignores_terminal (try_except m handles handler).
Proof.
  intros Hm Hh s s' H. unfold try_except.
  destruct (Hm s s' H) as [Hr Hs].
  destruct (m s) as [r1 s1], (m s') as [r1' s1']. cbn [fst snd] in *.
  subst r1'. destruct r1 as [a | e |].
  - split; [reflexivity | exact Hs].
  - destruct (handles (e_class e)).
    + apply Hh. exact Hs.
    + split; [reflexivity | exact Hs].
  - split; [reflexivity | exact Hs].
Qed.

End IgnoresTerminal.

Ltac related :=
  intros s s' (H1 & H2 & H3 & H4 & H5); cbn;
  repeat split; cbn; congruence.

Lemma ignores_emit (e : wire_event) : ignores_terminal (emit e).
Proof. related. Qed.

Lemma ignores_print (ls : list text) : ignores_terminal (print ls).
Proof. related. Qed.

Lemma ignores_increment_received_count :
  ignores_terminal increment_received_count.
Proof. related. Qed.

Lemma ignores_get_received_count : ignores_terminal get_received_count.
Proof. related. Qed.

Lemma ignores_print_alert (ok : bool) (alert : list text) :
  ignores_terminal (print_alert ok alert).
Proof. destruct ok; [apply ignores_print | apply ignores_raise]. Qed.

Lemma ignores_save (ok : bool) (filename : string) (payload : pyval) :
  ignores_terminal (save ok filename payload).
Proof. destruct ok; [related | apply ignores_raise]. Qed.

Lemma ignores_json_loads (d : Decoded) : ignores_terminal (json_loads d).
Proof. destruct d; first [apply ignores_raise | apply ignores_ret]. Qed.

Lemma ignores_format_cve_alert (payload : pyval) :
  ignores_terminal (format_cve_alert payload).
Proof. apply ignores_reads_nothing, reads_nothing_format_cve_alert. Qed.

Lemma ignores_py_get_default (v : pyval) (key : string) (default : pyval) :
  ignores_terminal (py_get_default v key default).
Proof. apply ignores_reads_nothing, reads_nothing_py_get_default. Qed.

Lemma ignores_py_len (v : pyval) : ignores_terminal (py_len v).
Proof. apply ignores_reads_nothing, reads_nothing_py_len. Qed.

Create HintDb ignore.
#[export] Hint Resolve ignores_ret ignores_raise ignores_emit ignores_print
  ignores_print_alert ignores_increment_received_count ignores_get_received_count ignores_save
  ignores_json_loads ignores_format_cve_alert ignores_py_get_default
  ignores_py_len : ignore.

Ltac ignoring :=
  repeat first
    [ solve [auto with ignore]
    | apply ignores_bind; [|intro]
    | apply ignores_try_except; [|intro]
    | match goal with
      | |- ignores_terminal (if ?b then _ else _) => destruct b
      | |- ignores_terminal (match ?x with _ => _ end) => destruct x
      end ].

(** Two handlers that start by printing something or nothing, and then go
    on alike, end alike. *)
Lemma bind_prefix_ignored {A} (p p' : ST Server unit)
    (k : unit -> ST Server A) (s : Server) :
  (exists s1, p s = (Ret tt, s1) /\ same_but_terminal s s1) ->
  (exists s1, p' s = (Ret tt, s1) /\ same_but_terminal s s1) ->
  ignores_terminal (k tt) ->
  fst (bind p k s) = fst (bind p' k s)
  /\ same_but_terminal (snd (bind p k s)) (snd (bind p' k s)).
Proof.
  intros (s1 & Hp & H1) (s1' & Hp' & H1') Hk.
  unfold bind. rewrite Hp, Hp'. apply Hk.
  eapply same_but_terminal_trans; [|exact H1'].
  apply same_but_terminal_sym. exact H1.
Qed.

(** X24.  The Authorization header is never checked: [do_POST] prints it
    and does nothing else with it.  Two POSTs that differ in that header
    only end the same way, with the same response, the same counter and
    the same files; they differ at most in what is printed. *)
Theorem authorization_is_never_checked
    (req : Request) (a : option string) (s : Server) :
  let r := do_POST req s in
  let r' := do_POST (with_authorization a req) s in
  fst r = fst r' /\ same_but_terminal (snd r) (snd r').
Proof.
  destruct req as [cmd path auth cl dec stamp ok rl ls pr re].
  unfold with_authorization, do_POST, print_authorization, rfile_read,
    process_webhook, body_read, send_json, send_response, log_message.
  cbv beta iota zeta
      delta [req_command req_path content_length decoded authorization
             WebhookServer.stamp can_save requestline log_stamp can_print
             read_error].
  destruct (negb (String.eqb path "/webhook")).
  - split; [reflexivity | apply same_but_terminal_refl].
  - assert (Hprefix : forall h : option string,
              exists s1,
                match h with
                | Some auth_header =>
                    if negb (String.eqb auth_header "")
                    then print [[Lit Color_CYAN; Lit "Auth Header:";
                                 Lit Color_END; Lit " "; Lit auth_header]]
                    else ret tt
                | None => ret tt
                end s = (Ret tt, s1)
                /\ same_but_terminal s s1).
    { intros [h|]; [destruct (negb (String.eqb h ""))|];
        eexists; (split; [reflexivity|]); repeat split. }
    apply bind_prefix_ignored; [apply Hprefix | apply Hprefix|].
    ignoring.
Qed.

(** ** A health check after any traffic *)

Lemma serve_forever_count (reqs : list Request) :
  forall s : Server,
    fst (serve_forever reqs s) = Ret tt
    /\ received_count (snd (serve_forever reqs s))
       = (received_count s
          + List.length (filter is_webhook_delivery reqs))%nat.
Proof.
  induction reqs as [|req rest IH]; intros s.
  - cbn. split; [reflexivity | lia].
  - cbn [serve_forever filter]. unfold bind.
    destruct (handle_one_request_count req s) as [Hr Hc].
    destruct (handle_one_request req s) as [res s1].
    cbn [fst snd] in Hr, Hc. subst res.
    destruct (IH s1) as (Hr' & Hc').
    split; [exact Hr'|].
    destruct (is_webhook_delivery req); cbn [List.length]; lia.
Qed.

Lemma serve_forever_app (l1 l2 : list Request) :
  forall s : Server,
    serve_forever (l1 ++ l2) s = serve_forever l2 (snd (serve_forever l1 s)).
Proof.
  induction l1 as [|req rest IH]; intros s.
  - reflexivity.
  - cbn [serve_forever app]. unfold bind.
    destruct (handle_one_request_count req s) as [Hr _].
    destruct (handle_one_request req s) as [res s1].
    cbn [fst] in Hr. subst res. apply IH.
Qed.

(** X25.  A health check after any traffic: whatever requests the server
    has handled, a GET of /health that follows is answered with the value
    the counter had at the start plus the number of POSTs to /webhook
    among them whose body was read and parsed. *)
Theorem health_reports_parsed_deliveries
    (reqs : list Request) (h : Request) (s : Server) :
  let r := serve_forever (reqs ++ [h]) s in
  req_command h = CmdGET ->
  String.eqb (req_path h) "/health" = true ->
  fst r = Ret tt
  /\ last_json (snd r)
     = Some [("status", JText [Lit "healthy"]);
             ("server", JText [Lit "OpenCVE Webhook Test Server"]);
             ("received_webhooks",
              JValue (PInt (Z.of_nat
                              (received_count s
                               + List.length
                                   (filter is_webhook_delivery reqs)))))].
Proof.
  intros r Hc Hp. subst r. rewrite serve_forever_app.
  destruct (serve_forever_count reqs s) as [_ Hn].
  set (s1 := snd (serve_forever reqs s)) in *.
  cbn [serve_forever]. unfold bind, handle_one_request, try_except.
  rewrite Hc. unfold do_GET. rewrite Hp. cbn.
  split; [reflexivity|].
  unfold last_json. cbn [wire]. rewrite map_app. cbn [map].
  rewrite last_last. rewrite Hn. reflexivity.
Qed.

Lemma health_reports_parsed_deliveries_witness :
  let health := mkRequest CmdGET "/health" None NoLength
                  (fun _ => BadJSON) "20240101_000000" true
                  "GET /health HTTP/1.1" "2024-01-01 00:00:00" true
                  (fun _ => None) in
  let reqs := [Scenario.delivery "/webhook" (PDict []);
               Scenario.delivery "/other" (PDict []);
               Scenario.delivery "/webhook" (PList [])] in
  let r := serve_forever (reqs ++ [health]) Scenario.test_server in
  List.length (filter is_webhook_delivery reqs) = 2%nat
  /\ fst r = Ret tt
  /\ last_json (snd r)
     = Some [("status", JText [Lit "healthy"]);
             ("server", JText [Lit "OpenCVE Webhook Test Server"]);
             ("received_webhooks", JValue (PInt 2))].
Proof.
  cbv zeta.
  destruct (health_reports_parsed_deliveries
              [Scenario.delivery "/webhook" (PDict []);
               Scenario.delivery "/other" (PDict []);
               Scenario.delivery "/webhook" (PList [])]
              (mkRequest CmdGET "/health" None NoLength
                 (fun _ => BadJSON) "20240101_000000" true
                 "GET /health HTTP/1.1" "2024-01-01 00:00:00" true
                 (fun _ => None))
              Scenario.test_server eq_refl eq_refl)
    as (Hr & Hj).
  split; [reflexivity|]. split; [exact Hr | exact Hj].
Defined.

(** * The command from end to end *)

(** X26.  A quiet end means success.  When the command returns and the
    last line it wrote is no error line, the trigger was answered
    without error status by a JSON object that is not empty; and with
    --wait, every request that followed is a state query for the run
    identifier of that object, the last of them answered with the state
    "success". *)
Theorem quiet_end_means_success
    (env : Env) (options : Options) (w : World) (line : Line) :
  let airflow_config := TriggerSync.get_airflow_config env in
  let req := trigger_request airflow_config (clock w) in
  let ex := exchange env (List.length (sent w)) req in
  let r := handle env options w in
  fst r = Ret tt ->
  last_line (snd r) = Some line ->
  is_error_line line = false ->
  exists d : list (string * pyval),
    json_object (answer ex) = Some d
    /\ d <> []
    /\ (opt_wait options = true ->
        exists (l0 : list (Z * HttpReq)) (t : Z) (d' : list (string * pyval)),
          let query :=
            state_request airflow_config (field "dag_run_id" d) in
          issued_since w (snd r)
          = ((clock w, req) :: l0 ++ [(t, query)])%list
          /\ Forall (fun tq => snd tq = query) l0
          /\ json_object
               (answer (exchange env
                          (List.length (sent w) + 1 + List.length l0) query))
             = Some d'
          /\ dict_get "state" d' = Some (PStr "success")).
Proof.
  intros airflow_config req ex r. subst r.
  destruct (json_object (answer ex)) as [d|] eqn:Ed.
  - destruct d as [|kv d0].
    + rewrite handle_unfold. fold airflow_config.
      rewrite (trigger_dag_object env airflow_config
                 (put_line (triggering_line airflow_config) w) [] Ed).
      cbn [truthy negb snd]. rewrite last_line_put.
      intros _ [= <-]. discriminate.
    + set (d := kv :: d0) in *.
      assert (Hne : d <> []) by discriminate.
      rewrite (handle_object env options w d Ed Hne).
      fold airflow_config.
      destruct (opt_wait options) eqn:Ew.
      2:{ intros _ _ _. exists d. split; [reflexivity|].
          split; [exact Hne | discriminate]. }
      set (query := state_request airflow_config (field "dag_run_id" d)).
      assert (Ht : fst (wait_for_completion env airflow_config
                          (field "dag_run_id" d) (opt_timeout options)
                          (announced env w d)) = Ret true ->
                   exists l0 t d',
                     issued_since (announced env w d)
                       (snd (wait_for_completion env airflow_config
                               (field "dag_run_id" d) (opt_timeout options)
                               (announced env w d)))
                     = (l0 ++ [(t, query)])%list
                     /\ json_object
                          (answer
                             (exchange env
                                (List.length (sent (announced env w d))
                                 + List.length l0) query))
                        = Some d'
                     /\ dict_get "state" d' = Some (PStr "success")).
      { exact (wait_loop_true env airflow_config (field "dag_run_id" d)
                 (opt_timeout options) (clock (announced env w d))
                 (max_polls (opt_timeout options))
                 (put_line (waiting_line (opt_timeout options))
                           (announced env w d))). }
      destruct (wait_for_completion_queries env airflow_config
                  (field "dag_run_id" d) (opt_timeout options)
                  (announced env w d)) as (l & Hsent & Hall & _).
      cbv zeta in Hsent, Hall. fold query in Hall.
      assert (Hann : sent (announced env w d)
                     = (sent w ++ [(clock w, req)])%list) by reflexivity.
      destruct (wait_for_completion env airflow_config (field "dag_run_id" d)
                  (opt_timeout options) (announced env w d))
        as [[[|]| |] w']; cbn [fst snd] in *.
      * intros _ _ _. exists d. split; [reflexivity|].
        split; [exact Hne|]. intros _.
        destruct (Ht eq_refl) as (l0 & t & d' & Hi & Hd' & Hs).
        exists l0, t, d'. cbv zeta. fold query.
        rewrite (issued_since_app _ _ _ Hsent) in Hi. subst l.
        split; [|split; [|split; [|exact Hs]]].
        -- apply issued_since_app. rewrite Hsent, Hann.
           rewrite <- app_assoc. reflexivity.
        -- apply Forall_app in Hall. destruct Hall as [Hall _].
           eapply Forall_impl; [|exact Hall].
           intros tq Htq. exact (proj1 Htq).
        -- rewrite Hann, length_app in Hd'. cbn [List.length] in Hd'.
           exact Hd'.
      * rewrite last_line_put. intros _ [= <-]. discriminate.
      * discriminate.
      * discriminate.
  - rewrite handle_unfold. fold airflow_config.
    destruct (trigger_dag_world env airflow_config
                (put_line (triggering_line airflow_config) w))
      as (r' & ls & -> & Hnu & Hobj).
    destruct r' as [v | e |]; [|discriminate|congruence].
    destruct (truthy v) eqn:Etv; cbn [negb].
    2:{ cbn [snd]. rewrite last_line_put. intros _ [= <-]. discriminate. }
    destruct v;
      try (unfold py_get, py_get_default, bind, raise; cbn [fst];
           discriminate).
    exfalso. specialize (Hobj _ eq_refl).
    change (json_object (answer ex) = Some d) in Hobj. congruence.
Qed.

Lemma quiet_end_means_success_witness :
  let queries k :=
    match k with
    | O => Scenario.state_is "running"
    | S _ => Scenario.state_is "success"
    end in
  let env := Scenario.network 50 (Scenario.after_trigger queries) true in
  let r := handle env (mkOptions true 10) Scenario.start in
  fst r = Ret tt
  /\ last_line (snd r) = Some (success_line 2100)
  /\ is_error_line (success_line 2100) = false
  /\ exists d,
       json_object
         (answer (exchange env 0%nat
                    (trigger_request (TriggerSync.get_airflow_config env) 0)))
       = Some d
       /\ d <> [].
Proof.
  cbv zeta.
  set (env := Scenario.network 50
                (Scenario.after_trigger
                   (fun k => match k with
                             | O => Scenario.state_is "running"
                             | S _ => Scenario.state_is "success"
                             end)) true).
  assert (H1 : fst (handle env (mkOptions true 10) Scenario.start) = Ret tt)
    by (vm_compute; reflexivity).
  assert (H2 : last_line (snd (handle env (mkOptions true 10) Scenario.start))
               = Some (success_line 2100)) by (vm_compute; reflexivity).
  assert (H3 : is_error_line (success_line 2100) = false) by reflexivity.
  destruct (quiet_end_means_success env (mkOptions true 10) Scenario.start
              (success_line 2100) H1 H2 H3) as (d & Hd & Hne & _).
  split; [exact H1|]. split; [exact H2|]. split; [exact H3|].
  exists d. split; [exact Hd | exact Hne].
Defined.

(** * The failed trigger *)





(** * The exit status *)

Section Uncaught.

Variables (env : Env) (airflow_config : AirflowConfig).




End Uncaught.



